(** * AI Tax Regime Navigator: the tax engine ([tax_engine.py])

    A shallow embedding of [get_professional_tax], [calculate_tax_old_regime],
    [calculate_tax_new_regime] and [calculate_comprehensive], and the
    properties their specification states about them; then of
    [_to_number] and [validate_and_sanitize_inputs] ([guardrails.py]),
    which [app.py] runs on the record before the comparison.

    Python values are the inductive [pyval]; the input record [data] is a
    finite map from field names to values; a raised exception is the [Raise]
    case of [result].  The engine is written once, over an interface
    [FloatModel] of the float operations it uses, and read in two models:
    - [float], IEEE 754 binary64: what Python computes;
    - [Q], exact rational arithmetic: the arithmetic the specification
      reasons in, an idealisation in which nothing is rounded but what
      [round] rounds, and which has no infinity and no NaN.
    What depends on no arithmetic is proved once for every model, and what
    depends on the order of the floats alone for every model that satisfies
    [OrderLaws], which both do.  A property proved in [Q] alone is said to
    hold in exact arithmetic; it need not hold of the doubles, and where it
    does not, the double that breaks it is given.  The monotonicity of the
    slabs is proved of the doubles themselves, from the specification of
    the primitive floats.  Strings are sequences of ASCII characters. *)

From Stdlib Require Import ZArith QArith Qround Qminmax Qabs Lqa Lia.
From Stdlib Require Import Floats String Ascii List Bool DecimalString.
From stdpp Require Import base option strings gmap.

Set Warnings "-inexact-float".
Local Open Scope string_scope.

(** ** Strings: [str.lower] and [str.strip] *)

Definition is_upper (a : ascii) : bool :=
  let n := nat_of_ascii a in (65 <=? n)%nat && (n <=? 90)%nat.

Definition ascii_lower (a : ascii) : ascii :=
  if is_upper a then ascii_of_nat (nat_of_ascii a + 32) else a.

Fixpoint lower (s : string) : string :=
  match s with
  | EmptyString => EmptyString
  | String a r => String (ascii_lower a) (lower r)
  end.

(** The ASCII characters for which [str.isspace] holds: TAB, LF, VT, FF, CR,
    the separators 28 to 31, and the space. *)
Definition is_py_space (a : ascii) : bool :=
  let n := nat_of_ascii a in
  ((9 <=? n)%nat && (n <=? 13)%nat) || ((28 <=? n)%nat && (n <=? 32)%nat).

Fixpoint lstrip (s : string) : string :=
  match s with
  | EmptyString => EmptyString
  | String a r => if is_py_space a then lstrip r else s
  end.

Fixpoint rstrip (s : string) : string :=
  match s with
  | EmptyString => EmptyString
  | String a r =>
      match rstrip r with
      | EmptyString => if is_py_space a then EmptyString else String a EmptyString
      | r' => String a r'
      end
  end.

Definition strip (s : string) : string := rstrip (lstrip s).

(** The decimal digits of a natural number with a comma between groups of
    three, as the format [{:,}] prints them. *)
Fixpoint group3 (k : nat) (rev_digits : list ascii) (acc : string)
    : string :=
  match rev_digits with
  | [] => acc
  | d :: r =>
      if (k =? 3)%nat then group3 1 r (String d (String "," acc))
      else group3 (S k) r (String d acc)
  end.

Definition with_commas (n : N) : string :=
  group3 0 (rev (list_ascii_of_string (NilEmpty.string_of_uint (N.to_uint n))))
    "".

(** ** Python values, exceptions and the input record *)

Inductive exn : Set := TypeError | ValueError | AttributeError | OverflowError.

Inductive result (A : Type) : Type :=
  | Ok (a : A)
  | Raise (e : exn).
Arguments Ok {A} a.
Arguments Raise {A} e.

#[global] Instance result_ret : MRet result := fun A a => Ok a.
#[global] Instance result_bind : MBind result := fun A B k m =>
  match m with
  | Ok a => k a
  | Raise e => Raise e
  end.

Definition returns {A : Type} (m : result A) : Prop := exists a, m = Ok a.

Inductive pyval (F : Type) : Type :=
  | PyNone
  | PyBool (b : bool)
  | PyInt (z : Z)
  | PyFloat (x : F)
  | PyStr (s : string).
Arguments PyNone {F}.
Arguments PyBool {F} b.
Arguments PyInt {F} z.
Arguments PyFloat {F} x.
Arguments PyStr {F} s.

(** [data.get(key, default)] *)
Definition dict_get {F : Type} (data : gmap string (pyval F)) (key : string)
    (dflt : pyval F) : pyval F :=
  default dflt (data !! key).

(** ** The float operations the engine uses *)

(** What [float(s)] reads in a string: a signed decimal [m * 10^e], an
    infinity or a NaN. *)
Inductive float_syntax : Set :=
  | FDecimal (neg : bool) (m : N) (e : Z)
  | FInfinity (neg : bool)
  | FNan.

Class FloatModel (F : Type) : Type := {
  fadd : F -> F -> F;
  fsub : F -> F -> F;
  fmul : F -> F -> F;
  fabs : F -> F;
  flt : F -> F -> bool;
  fle : F -> F -> bool;
  feq : F -> F -> bool;
  (** the float a literal denotes; [None] where the model has no such value *)
  of_syntax : float_syntax -> option F;
  (** the float the decimal literal [m * 10^e] denotes *)
  of_decimal : N -> Z -> F;
  (** [float(z)] on an [int]; [None] is [OverflowError] *)
  float_of_int : Z -> option F;
  (** [round(x, 2)] *)
  round2 : F -> F;
  (** the text [format(x, ",.0f")] prints: [x] rounded to a whole number,
      its digits grouped by three *)
  format_whole : F -> string;
  (** [float(0)] is the literal [0], and [round(0, 2)] is [0] *)
  float_of_int_zero : float_of_int 0 = Some (of_decimal 0 0);
  round2_zero : round2 (of_decimal 0 0) = of_decimal 0 0
}.

(** ** [float(s)] on a string: the syntax Python accepts

    [digitpart acc n s] reads decimal digits (an underscore may stand
    between two digits) off the front of [s], accumulating their value onto
    [acc] and counting them from [n]. *)

Definition is_digit (a : ascii) : bool :=
  let n := nat_of_ascii a in (48 <=? n)%nat && (n <=? 57)%nat.

Definition digit_val (a : ascii) : N := N.of_nat (nat_of_ascii a - 48).

Fixpoint digitpart (acc : N) (n : nat) (s : string) : N * nat * string :=
  match s with
  | EmptyString => (acc, n, s)
  | String a r =>
      if is_digit a then digitpart (10 * acc + digit_val a) (S n) r
      else if Ascii.eqb a "_" then
        match r with
        | String b _ =>
            if is_digit b && (0 <? n)%nat then digitpart acc n r else (acc, n, s)
        | EmptyString => (acc, n, s)
        end
      else (acc, n, s)
  end.

Definition read_sign (s : string) : bool * string :=
  match s with
  | String "-" r => (true, r)
  | String "+" r => (false, r)
  | _ => (false, s)
  end.

Definition parse_float (s : string) : option float_syntax :=
  let '(neg, s) := read_sign (strip s) in
  let w := lower s in
  if String.eqb w "inf" || String.eqb w "infinity" then Some (FInfinity neg)
  else if String.eqb w "nan" then Some FNan
  else
    let '(m1, n1, r1) := digitpart 0 0 s in
    let '(m2, n2, r2) :=
      match r1 with
      | String "." r => digitpart m1 0 r
      | _ => (m1, 0%nat, r1)
      end in
    if (n1 + n2 =? 0)%nat then None
    else
      match r2 with
      | EmptyString => Some (FDecimal neg m2 (- Z.of_nat n2))
      | String c r =>
          if Ascii.eqb (ascii_lower c) "e" then
            let '(eneg, r) := read_sign r in
            let '(x, nx, r3) := digitpart 0 0 r in
            if (0 <? nx)%nat && String.eqb r3 "" then
              Some (FDecimal neg m2
                      ((if eneg then - Z.of_N x else Z.of_N x) - Z.of_nat n2))
            else None
          else None
      end.

(** ** The engine, over any float model *)

Declare Scope fm_scope.
Delimit Scope fm_scope with fm.
Infix "+" := fadd : fm_scope.
Infix "-" := fsub : fm_scope.
Infix "*" := fmul : fm_scope.
Notation "x <? y" := (flt x y) : fm_scope.
Notation "x >? y" := (flt y x) : fm_scope.
Notation "x <=? y" := (fle x y) : fm_scope.
Notation "x ==? y" := (feq x y) (at level 70) : fm_scope.

Definition high_pt_states : list string :=
  [ "maharashtra"; "karnataka"; "telangana"; "andhra pradesh";
    "west bengal"; "tamil nadu"; "gujarat"; "madhya pradesh"; "kerala";
    "odisha" ].

(** The dictionary a calculator returns; [components] is present in the Old
    Regime result only, its entries in the order of the source. *)
Record regime_result (F : Type) : Type := {
  regime : string;
  gross_income : F;
  total_deductions : F;
  taxable_income : F;
  base_tax : F;
  cess : F;
  total_tax_payable : F;
  components : option (list (string * F))
}.
Arguments regime {F} r.
Arguments gross_income {F} r.
Arguments total_deductions {F} r.
Arguments taxable_income {F} r.
Arguments base_tax {F} r.
Arguments cess {F} r.
Arguments total_tax_payable {F} r.
Arguments components {F} r.

(** The local variables of [calculate_tax_old_regime] when it reaches its
    [return]; [o_slab_tax] is [base_tax] before the rebate test. *)
Record old_locals (F : Type) : Type := {
  o_salary : F;
  o_gross_income : F;
  o_prof_tax : F;
  o_ded_80c : F;
  o_ded_80d : F;
  o_ded_80ccd_1b : F;
  o_ded_80tta : F;
  o_home_loan_interest : F;
  o_std_deduction : F;
  o_hra_received : F;
  o_rent_paid : F;
  o_hra_exemption : F;
  o_total_deductions : F;
  o_taxable_income : F;
  o_slab_tax : F;
  o_base_tax : F;
  o_cess : F;
  o_total_tax : F
}.
Arguments o_salary {F} o.
Arguments o_gross_income {F} o.
Arguments o_prof_tax {F} o.
Arguments o_ded_80c {F} o.
Arguments o_ded_80d {F} o.
Arguments o_ded_80ccd_1b {F} o.
Arguments o_ded_80tta {F} o.
Arguments o_home_loan_interest {F} o.
Arguments o_std_deduction {F} o.
Arguments o_hra_received {F} o.
Arguments o_rent_paid {F} o.
Arguments o_hra_exemption {F} o.
Arguments o_total_deductions {F} o.
Arguments o_taxable_income {F} o.
Arguments o_slab_tax {F} o.
Arguments o_base_tax {F} o.
Arguments o_cess {F} o.
Arguments o_total_tax {F} o.

(** The local variables of [calculate_tax_new_regime]. *)
Record new_locals (F : Type) : Type := {
  n_salary : F;
  n_gross_income : F;
  n_std_deduction : F;
  n_total_deductions : F;
  n_taxable_income : F;
  n_slab_tax : F;
  n_base_tax : F;
  n_cess : F;
  n_total_tax : F
}.
Arguments n_salary {F} n.
Arguments n_gross_income {F} n.
Arguments n_std_deduction {F} n.
Arguments n_total_deductions {F} n.
Arguments n_taxable_income {F} n.
Arguments n_slab_tax {F} n.
Arguments n_base_tax {F} n.
Arguments n_cess {F} n.
Arguments n_total_tax {F} n.

(** The suggestions of [calculate_comprehensive], as the texts it appends;
    [amount] is what [{gap:,.0f}] printed. *)
Definition suggestion_80c (amount : string) : string :=
  ("Invest ₹" ++ amount
   ++ " more in 80C (PPF, ELSS, LIC) to save tax in Old Regime.")%string.

Definition suggestion_nps (amount : string) : string :=
  ("Invest ₹" ++ amount
   ++ " in NPS (80CCD(1B)) for extra deduction in Old Regime.")%string.

Definition suggestion_80d : string :=
  "Consider Health Insurance (80D) for yourself/parents if you choose Old Regime.".

Record comparison (F : Type) : Type := {
  old_regime : regime_result F;
  new_regime : regime_result F;
  best_regime : string;
  tax_saved : F;
  suggestions : list string
}.
Arguments old_regime {F} c.
Arguments new_regime {F} c.
Arguments best_regime {F} c.
Arguments tax_saved {F} c.
Arguments suggestions {F} c.

Section Engine.
Context {F : Type} `{FloatModel F}.

(** An integer literal of the source, and a literal with two decimals:
    [0.05] is [hundredths 5]. *)
Definition int (n : N) : F := of_decimal n 0.
Definition hundredths (n : N) : F := of_decimal n (-2).

(** Truth value of a Python object, and [v or d]. *)
Definition truthy (v : pyval F) : bool :=
  match v with
  | PyNone => false
  | PyBool b => b
  | PyInt z => negb (z =? 0)%Z
  | PyFloat x => negb (x ==? int 0)%fm
  | PyStr s => negb (String.eqb s "")
  end.

Definition py_or (v d : pyval F) : pyval F := if truthy v then v else d.

(** [float(v)] *)
Definition py_float (v : pyval F) : result F :=
  match v with
  | PyNone => Raise TypeError
  | PyBool b => Ok (if b then int 1 else int 0)
  | PyInt z =>
      match float_of_int z with
      | Some x => Ok x
      | None => Raise OverflowError
      end
  | PyFloat x => Ok x
  | PyStr s =>
      match parse_float s ≫= of_syntax with
      | Some x => Ok x
      | None => Raise ValueError
      end
  end.

(** [min(a, b)] and [max(a, b)]: the first argument is kept unless the
    second is strictly smaller (larger). *)
Definition py_min (a b : F) : F := if (b <? a)%fm then b else a.
Definition py_max (a b : F) : F := if (b >? a)%fm then b else a.
Definition py_min3 (a b c : F) : F := py_min (py_min a b) c.

(** [s.strip().lower()] on an object: only a [str] has the methods. *)
Definition py_strip_lower (v : pyval F) : result string :=
  match v with
  | PyStr s => Ok (lower (strip s))
  | _ => Raise AttributeError
  end.

(** *** [get_professional_tax] *)

Definition get_professional_tax (state : pyval F) (gross_income : F)
    : result F :=
  match state with
  | PyStr state =>
      let state := strip (lower state) in
      if bool_decide (state ∈ high_pt_states) then
        if (gross_income >? int 150000)%fm then Ok (int 2500)
        else if (gross_income >? int 100000)%fm then Ok (int 2000)
        else Ok (int 0)
      else Ok (int 0)
  | _ => Raise AttributeError
  end.

(** *** [calculate_tax_old_regime] *)

(** [is_metro = (data.get("city_type") or "").strip().lower() == "metro"] *)
Definition is_metro (data : gmap string (pyval F)) : result bool :=
  s ← py_strip_lower (py_or (dict_get data "city_type" PyNone) (PyStr ""));
  Ok (String.eqb s "metro").

Definition limit_pct (metro : bool) : F :=
  if metro then hundredths 50 else hundredths 40.

(** The HRA block: [hra_exemption] starts at 0 and is assigned only under
    the test on the three amounts. *)
Definition hra_exemption (data : gmap string (pyval F))
    (salary hra_received rent_paid : F) : result F :=
  if (hra_received >? int 0)%fm && (rent_paid >? int 0)%fm
     && (salary >? int 0)%fm then
    let actual_hra := hra_received in
    let rent_minus_10 :=
      py_max (int 0) (rent_paid - hundredths 10 * salary)%fm in
    metro ← is_metro data;
    let hra_limit := (limit_pct metro * salary)%fm in
    Ok (py_min3 actual_hra rent_minus_10 hra_limit)
  else Ok (int 0).

(** The slabs of the Old Regime, before the rebate. *)
Definition old_slab (taxable_income : F) : F :=
  if (taxable_income <=? int 250000)%fm then int 0
  else if (taxable_income <=? int 500000)%fm then
    ((taxable_income - int 250000) * hundredths 5)%fm
  else if (taxable_income <=? int 1000000)%fm then
    (int 12500 + (taxable_income - int 500000) * hundredths 20)%fm
  else (int 112500 + (taxable_income - int 1000000) * hundredths 30)%fm.

(** A numeric field: [float(data.get(key, 0) or 0)]. *)
Definition float_field (data : gmap string (pyval F)) (key : string)
    : result F :=
  py_float (py_or (dict_get data key (PyInt 0)) (PyInt 0)).

Definition old_regime_locals (data : gmap string (pyval F))
    : result (old_locals F) :=
  salary ← float_field data "annual_income";
  interest ← float_field data "income_from_interest";
  other ← float_field data "income_from_other_sources";
  let gross_income := (salary + interest + other)%fm in
  prof_tax ←
    get_professional_tax (dict_get data "state" (PyStr "Delhi")) gross_income;
  c ← float_field data "section_80c";
  let ded_80c := py_min c (int 150000) in
  d ← float_field data "section_80d";
  let ded_80d := py_min d (int 25000) in
  n ← float_field data "section_80ccd_1b";
  let ded_80ccd_1b := py_min n (int 50000) in
  t ← float_field data "section_80tta";
  let ded_80tta := py_min t (int 10000) in
  h ← float_field data "home_loan_interest";
  let home_loan_interest := py_min h (int 200000) in
  let std_deduction := int 50000 in
  hra_received ← float_field data "hra_received";
  rent_paid ← float_field data "rent_paid";
  hra_exemption ← hra_exemption data salary hra_received rent_paid;
  let total_deductions :=
    (std_deduction + prof_tax + ded_80c + ded_80d + ded_80ccd_1b
     + ded_80tta + home_loan_interest + hra_exemption)%fm in
  let taxable_income := py_max (int 0) (gross_income - total_deductions)%fm in
  let slab_tax := old_slab taxable_income in
  let base_tax :=
    if (taxable_income <=? int 500000)%fm then int 0 else slab_tax in
  let cess := (base_tax * hundredths 4)%fm in
  let total_tax := (base_tax + cess)%fm in
  Ok {| o_salary := salary; o_gross_income := gross_income;
        o_prof_tax := prof_tax; o_ded_80c := ded_80c; o_ded_80d := ded_80d;
        o_ded_80ccd_1b := ded_80ccd_1b; o_ded_80tta := ded_80tta;
        o_home_loan_interest := home_loan_interest;
        o_std_deduction := std_deduction;
        o_hra_received := hra_received; o_rent_paid := rent_paid;
        o_hra_exemption := hra_exemption;
        o_total_deductions := total_deductions;
        o_taxable_income := taxable_income; o_slab_tax := slab_tax;
        o_base_tax := base_tax; o_cess := cess; o_total_tax := total_tax |}.

(** The returned dictionary, built from the locals. *)
Definition old_regime_result (o : old_locals F) : regime_result F :=
  {| regime := "Old Regime";
     gross_income := round2 (o_gross_income o);
     total_deductions := round2 (o_total_deductions o);
     taxable_income := round2 (o_taxable_income o);
     base_tax := round2 (o_base_tax o);
     cess := round2 (o_cess o);
     total_tax_payable := round2 (o_total_tax o);
     components := Some
       [ ("Standard Deduction", o_std_deduction o);
         ("80C", o_ded_80c o);
         ("80D", o_ded_80d o);
         ("80CCD(1B) (NPS)", o_ded_80ccd_1b o);
         ("80TTA", o_ded_80tta o);
         ("HRA Exemption", round2 (o_hra_exemption o));
         ("Home Loan Interest (24(b))", o_home_loan_interest o);
         ("Professional Tax", o_prof_tax o) ] |}.

Definition calculate_tax_old_regime (data : gmap string (pyval F))
    : result (regime_result F) :=
  o ← old_regime_locals data;
  Ok (old_regime_result o).

(** *** [calculate_tax_new_regime] *)

(** The slabs of the New Regime, before the rebate. *)
Definition new_slab (taxable_income : F) : F :=
  if (taxable_income <=? int 300000)%fm then int 0
  else if (taxable_income <=? int 600000)%fm then
    ((taxable_income - int 300000) * hundredths 5)%fm
  else if (taxable_income <=? int 900000)%fm then
    (int 15000 + (taxable_income - int 600000) * hundredths 10)%fm
  else if (taxable_income <=? int 1200000)%fm then
    (int 45000 + (taxable_income - int 900000) * hundredths 15)%fm
  else if (taxable_income <=? int 1500000)%fm then
    (int 90000 + (taxable_income - int 1200000) * hundredths 20)%fm
  else (int 150000 + (taxable_income - int 1500000) * hundredths 30)%fm.

Definition new_regime_locals (data : gmap string (pyval F))
    : result (new_locals F) :=
  salary ← float_field data "annual_income";
  interest_income ← float_field data "income_from_interest";
  other_income ← float_field data "income_from_other_sources";
  let gross_income := (salary + interest_income + other_income)%fm in
  let std_deduction := if (salary >? int 0)%fm then int 50000 else int 0 in
  let total_deductions := std_deduction in
  let taxable_income := py_max (int 0) (gross_income - total_deductions)%fm in
  let slab_tax := new_slab taxable_income in
  let base_tax :=
    if (taxable_income <=? int 700000)%fm then int 0 else slab_tax in
  let cess := (base_tax * hundredths 4)%fm in
  let total_tax := (base_tax + cess)%fm in
  Ok {| n_salary := salary; n_gross_income := gross_income;
        n_std_deduction := std_deduction;
        n_total_deductions := total_deductions;
        n_taxable_income := taxable_income; n_slab_tax := slab_tax;
        n_base_tax := base_tax; n_cess := cess; n_total_tax := total_tax |}.

Definition new_regime_result (n : new_locals F) : regime_result F :=
  {| regime := "New Regime";
     gross_income := round2 (n_gross_income n);
     total_deductions := round2 (n_total_deductions n);
     taxable_income := round2 (n_taxable_income n);
     base_tax := round2 (n_base_tax n);
     cess := round2 (n_cess n);
     total_tax_payable := round2 (n_total_tax n);
     components := None |}.

Definition calculate_tax_new_regime (data : gmap string (pyval F))
    : result (regime_result F) :=
  n ← new_regime_locals data;
  Ok (new_regime_result n).

(** *** [calculate_comprehensive] *)

(** [v < n], [n - v] and [v == 0] for an object [v] and an [int] literal
    [n]; a [str] is not ordered against an [int] and cannot be subtracted. *)
Definition py_lt_int (v : pyval F) (n : N) : result bool :=
  match v with
  | PyBool b => Ok (Z.b2z b <? Z.of_N n)%Z
  | PyInt z => Ok (z <? Z.of_N n)%Z
  | PyFloat x => Ok (x <? int n)%fm
  | PyNone | PyStr _ => Raise TypeError
  end.

Definition py_int_sub (n : N) (v : pyval F) : result (pyval F) :=
  match v with
  | PyBool b => Ok (PyInt (Z.of_N n - Z.b2z b))
  | PyInt z => Ok (PyInt (Z.of_N n - z))
  | PyFloat x => Ok (PyFloat (int n - x)%fm)
  | PyNone | PyStr _ => Raise TypeError
  end.

Definition py_eq_zero (v : pyval F) : bool :=
  match v with
  | PyBool b => negb b
  | PyInt z => (z =? 0)%Z
  | PyFloat x => (x ==? int 0)%fm
  | PyNone | PyStr _ => false
  end.

(** What a [{gap:,.0f}] field prints: the format converts an [int] to a
    float first, and prints the float rounded to a whole number. *)
Definition format_amount (gap : pyval F) : result string :=
  match gap with
  | PyStr _ => Raise ValueError
  | _ => x ← py_float gap; Ok (format_whole x)
  end.

Definition suggest_gap (data : gmap string (pyval F)) (key : string)
    (cap : N) (mk : string -> string) : result (list string) :=
  below ← py_lt_int (py_or (dict_get data key PyNone) (PyInt 0)) cap;
  if below : bool then
    gap ← py_int_sub cap (py_or (dict_get data key PyNone) (PyInt 0));
    amount ← format_amount gap;
    Ok [mk amount]
  else Ok [].

Definition calculate_comprehensive (data : gmap string (pyval F))
    : result (comparison F) :=
  old_r ← calculate_tax_old_regime data;
  new_r ← calculate_tax_new_regime data;
  let best :=
    if (total_tax_payable new_r <? total_tax_payable old_r)%fm
    then "New Regime" else "Old Regime" in
  let tax_saved :=
    fabs (total_tax_payable old_r - total_tax_payable new_r)%fm in
  s1 ← suggest_gap data "section_80c" 150000 suggestion_80c;
  s2 ← suggest_gap data "section_80ccd_1b" 50000 suggestion_nps;
  let s3 :=
    if py_eq_zero (py_or (dict_get data "section_80d" PyNone) (PyInt 0))
    then [suggestion_80d] else [] in
  Ok {| old_regime := old_r; new_regime := new_r; best_regime := best;
        tax_saved := round2 tax_saved;
        suggestions := s1 ++ s2 ++ s3 |}.
End Engine.

(** ** The exact model: floats read as rationals *)

Module Exact.

Definition Qltb (a b : Q) : bool := negb (Qle_bool b a).

(** Rounding to the nearest integer, a tie going to the even one. *)
Definition round_half_even (q : Q) : Z :=
  let f := Qfloor q in
  match (q - inject_Z f ?= 1 # 2)%Q with
  | Lt => f
  | Gt => (f + 1)%Z
  | Eq => if Z.even f then f else (f + 1)%Z
  end.

Definition Qround2 (q : Q) : Q :=
  Qred (inject_Z (round_half_even (q * 100)) / 100).

Definition Qof_decimal (m : N) (e : Z) : Q :=
  if (0 <=? e)%Z then inject_Z (Z.of_N m * 10 ^ e)
  else Qred (Z.of_N m # Z.to_pos (10 ^ (- e))).

(** The exact model has no infinity and no NaN: the texts that Python's
    [float] reads as such (["inf"], ["nan"], ...) are no numbers here, and
    [float] raises [ValueError] on them as on any other text that is not a
    number.  What is proved in this model says nothing of such inputs. *)
Definition Qof_syntax (s : float_syntax) : option Q :=
  match s with
  | FDecimal neg m e =>
      Some (if neg then - Qof_decimal m e else Qof_decimal m e)%Q
  | FInfinity _ | FNan => None
  end.

(** [format(x, ",.0f")]: the sign of [x], then the digits of the nearest
    whole number, a tie going to the even one. *)
Definition Qformat_whole (x : Q) : string :=
  ((if (Qnum x <? 0)%Z then "-" else "")
   ++ with_commas (Z.abs_N (round_half_even x)))%string.

#[global, refine] Instance model : FloatModel Q := {|
  fadd := Qplus;
  fsub := Qminus;
  fmul := Qmult;
  fabs := Qabs;
  flt := Qltb;
  fle := Qle_bool;
  feq := Qeq_bool;
  of_syntax := Qof_syntax;
  of_decimal := Qof_decimal;
  float_of_int := fun z => Some (inject_Z z);
  round2 := Qround2;
  format_whole := Qformat_whole
|}.
Proof. all: reflexivity. Defined.

End Exact.

(** ** The binary64 model: Python's floats *)

Module Binary64.

Definition b64_of_Z (z : Z) : float := SF2Prim (binary_normalize 53 1024 z 0 false).

(** The double nearest to [m * 10^e] (ties to even): for a negative
    exponent the quotient is taken with more than 55 bits and a sticky last
    bit, so that rounding it rounds the exact value. *)
Definition b64_of_decimal (m : N) (e : Z) : float :=
  let m := Z.of_N m in
  if (m =? 0)%Z then PrimFloat.zero
  else if (0 <=? e)%Z then b64_of_Z (m * 10 ^ e)
  else
    let d := (10 ^ (- e))%Z in
    let k := Z.max 0 (56 + Z.log2_up d - Z.log2 m) in
    let '(q, r) := Z.div_eucl (m * 2 ^ k) d in
    let sticky := if (r =? 0)%Z then 0%Z else 1%Z in
    SF2Prim (binary_normalize 53 1024 (2 * q + sticky) (- k - 1) false).

Definition b64_of_syntax (s : float_syntax) : option float :=
  match s with
  | FDecimal neg m e =>
      Some (if neg then PrimFloat.opp (b64_of_decimal m e) else b64_of_decimal m e)
  | FInfinity neg => Some (if neg then neg_infinity else infinity)
  | FNan => Some nan
  end.

(** [float(z)]: the nearest double, [OverflowError] beyond the range. *)
Definition b64_float_of_int (z : Z) : option float :=
  let x := b64_of_Z z in
  if PrimFloat.is_infinity x then None else Some x.

(** [round(x, 2)]: the exact value of [x] is rounded to two decimals, ties
    to even, and the double nearest to that decimal is returned; a double
    of magnitude [2^53 / 100] or more is its own rounding. *)
Definition b64_round2 (x : float) : float :=
  match Prim2SF x with
  | S754_finite s m e =>
      let v := if (0 <=? e)%Z then inject_Z (Zpos m * 2 ^ e)
               else (Zpos m # Z.to_pos (2 ^ (- e))) in
      let n := Exact.round_half_even (v * 100) in
      if (n <? 2 ^ 53)%Z then
        let y := PrimFloat.div (b64_of_Z n) (b64_of_Z 100) in
        if s then PrimFloat.opp y else y
      else x
  | _ => x
  end.

(** The exact value of a double that is a number, and
    [format(x, ",.0f")]: the exact value is rounded to a whole number, a
    tie going to the even one. *)
Definition sf_value (a : spec_float) : option Q :=
  match a with
  | S754_zero _ => Some 0%Q
  | S754_finite s m e =>
      let v := if (0 <=? e)%Z then inject_Z (Zpos m * 2 ^ e)
               else (Zpos m # Z.to_pos (2 ^ (- e))) in
      Some (if s then (- v)%Q else v)
  | S754_infinity _ | S754_nan => None
  end.

Definition b64_exact (x : float) : option Q := sf_value (Prim2SF x).

Definition b64_format_whole (x : float) : string :=
  match Prim2SF x with
  | S754_nan => "nan"
  | S754_infinity s => if s then "-inf" else "inf"
  | S754_zero s => if s then "-0" else "0"
  | S754_finite s m e =>
      let v := if (0 <=? e)%Z then inject_Z (Zpos m * 2 ^ e)
               else (Zpos m # Z.to_pos (2 ^ (- e))) in
      ((if s then "-" else "")
       ++ with_commas (Z.to_N (Exact.round_half_even v)))%string
  end.

(** The order of binary64 values on their specification: [sf_le] is what
    [<=] decides, [sf_number] excludes the NaN, [sf_pos] are the values
    above 0. *)
Definition sf_le (a b : spec_float) : Prop :=
  match a, b with
  | S754_nan, _ | _, S754_nan => False
  | S754_infinity true, _ => True
  | _, S754_infinity false => True
  | S754_infinity false, _ => False
  | _, S754_infinity true => False
  | S754_zero _, S754_zero _ => True
  | S754_zero _, S754_finite s _ _ => s = false
  | S754_finite s _ _, S754_zero _ => s = true
  | S754_finite true _ _, S754_finite false _ _ => True
  | S754_finite false _ _, S754_finite true _ _ => False
  | S754_finite false m1 e1, S754_finite false m2 e2 =>
      (e1 < e2 \/ (e1 = e2 /\ (m1 <= m2)%positive))%Z
  | S754_finite true m1 e1, S754_finite true m2 e2 =>
      (e2 < e1 \/ (e1 = e2 /\ (m2 <= m1)%positive))%Z
  end.

Definition sf_number (a : spec_float) : Prop :=
  match a with S754_nan => False | _ => True end.

Definition sf_pos (a : spec_float) : Prop :=
  match a with
  | S754_infinity false | S754_finite false _ _ => True
  | _ => False
  end.

(** What [binary_round_aux] does to a positive mantissa, in integers.
    [shr_inv M P mrs]: the record [mrs] is what is left of the mantissa
    [M] after shifting it right by [log2 P] digits, its two flags telling
    where the digits shifted out lie with respect to one half.  [rnd] is
    the rounding to nearest, ties to even, that the record decides;
    [aligned m e] says the mantissa has at least the digits its exponent
    asks for; [pack] is the second shift and the packing into a double;
    [scaled m e] is the value [m * 2 ^ e] as an integer, times [2 ^ 2200]. *)
Definition loc_ok (rem P : Z) (r s : bool) : Prop :=
  match r, s with
  | false, false => rem = 0
  | false, true => 0 < 2 * rem < P
  | true, false => 2 * rem = P
  | true, true => P < 2 * rem
  end%Z.

Definition shr_inv (M P : Z) (mrs : shr_record) : Prop :=
  (0 <= shr_m mrs
   /\ exists rem, M = shr_m mrs * P + rem /\ 0 <= rem < P
                  /\ loc_ok rem P (shr_r mrs) (shr_s mrs))%Z.

Definition rnd (mrs : shr_record) : Z :=
  round_nearest_even (shr_m mrs) (loc_of_shr_record mrs).

Definition aligned (m e : Z) : Prop :=
  (e <= fexp prec emax (Zdigits2 m + e))%Z.

Definition pack (m E : Z) : spec_float :=
  let '(mrs, e) := shr_fexp prec emax m E loc_Exact in
  match shr_m mrs with
  | Z0 => S754_zero false
  | Zpos p =>
      if (e <=? emax - prec)%Z then S754_finite false p e
      else S754_infinity false
  | Zneg _ => S754_nan
  end.

Definition scaled (m e : Z) : Z := (m * 2 ^ (e + 2200))%Z.

(** A double that is finite and above 0; and a function of doubles that
    does not decrease beyond [lo] and stays above [c] there. *)
Definition positive_finite (a : float) : Prop :=
  exists m e, Prim2SF a = S754_finite false m e.

Definition mono_from (lo c : float) (h : float -> float) : Prop :=
  (forall x y : float,
     PrimFloat.ltb lo x = true -> PrimFloat.leb x y = true ->
     PrimFloat.leb (h x) (h y) = true)
  /\ (forall y : float,
        PrimFloat.ltb lo y = true -> PrimFloat.leb c (h y) = true).

#[global, refine] Instance model : FloatModel float := {|
  fadd := PrimFloat.add;
  fsub := PrimFloat.sub;
  fmul := PrimFloat.mul;
  fabs := PrimFloat.abs;
  flt := PrimFloat.ltb;
  fle := PrimFloat.leb;
  feq := PrimFloat.eqb;
  of_syntax := b64_of_syntax;
  of_decimal := b64_of_decimal;
  float_of_int := b64_float_of_int;
  round2 := b64_round2;
  format_whole := b64_format_whole
|}.
Proof. all: reflexivity. Defined.

End Binary64.

(** ** Well-typed input records

    The fields the validation layer hands over: a numeric field is absent,
    [None], an [int] that [float] can convert, or a float; [state] is
    absent or a string; [city_type] is absent, [None] or a string. *)

Definition numeric_fields : list string :=
  [ "annual_income"; "income_from_interest"; "income_from_other_sources";
    "section_80c"; "section_80d"; "section_80ccd_1b"; "section_80tta";
    "home_loan_interest"; "hra_received"; "rent_paid" ].

Section Typing.
Context {F : Type} `{FloatModel F}.

Definition converts (z : Z) : Prop := is_Some (float_of_int z).

Definition numeric_value (v : option (pyval F)) : Prop :=
  match v with
  | None | Some PyNone | Some (PyFloat _) => True
  | Some (PyInt z) => converts z
  | Some (PyBool _) | Some (PyStr _) => False
  end.

Definition state_value (v : option (pyval F)) : Prop :=
  match v with
  | None | Some (PyStr _) => True
  | _ => False
  end.

Definition city_value (v : option (pyval F)) : Prop :=
  match v with
  | None | Some PyNone | Some (PyStr _) => True
  | _ => False
  end.

Definition well_typed (data : gmap string (pyval F)) : Prop :=
  Forall (fun key => numeric_value (data !! key)) numeric_fields
  /\ state_value (data !! "state")
  /\ city_value (data !! "city_type").

(** The amount a suggestion prints is [cap - v]; where that is an [int],
    the format converts it. *)
Definition gap_converts (cap : N) (v : option (pyval F)) : Prop :=
  match v with
  | Some (PyInt z) => converts (Z.of_N cap - z)
  | _ => converts (Z.of_N cap)
  end.

(** What holds of the locals of [calculate_tax_old_regime] at its
    [return]. *)
Record old_locals_ok (data : gmap string (pyval F)) (o : old_locals F)
    : Prop := {
  ok_salary : float_field data "annual_income" = Ok (o_salary o);
  ok_gross : exists interest other,
    float_field data "income_from_interest" = Ok interest
    /\ float_field data "income_from_other_sources" = Ok other
    /\ o_gross_income o = (o_salary o + interest + other)%fm;
  ok_prof_tax :
    get_professional_tax (dict_get data "state" (PyStr "Delhi"))
      (o_gross_income o) = Ok (o_prof_tax o);
  ok_80c : exists c, float_field data "section_80c" = Ok c
    /\ o_ded_80c o = py_min c (int 150000);
  ok_80d : exists d, float_field data "section_80d" = Ok d
    /\ o_ded_80d o = py_min d (int 25000);
  ok_80ccd_1b : exists n, float_field data "section_80ccd_1b" = Ok n
    /\ o_ded_80ccd_1b o = py_min n (int 50000);
  ok_80tta : exists t, float_field data "section_80tta" = Ok t
    /\ o_ded_80tta o = py_min t (int 10000);
  ok_home_loan : exists h, float_field data "home_loan_interest" = Ok h
    /\ o_home_loan_interest o = py_min h (int 200000);
  ok_std : o_std_deduction o = int 50000;
  ok_hra_received : float_field data "hra_received" = Ok (o_hra_received o);
  ok_rent_paid : float_field data "rent_paid" = Ok (o_rent_paid o);
  ok_hra :
    hra_exemption data (o_salary o) (o_hra_received o) (o_rent_paid o)
    = Ok (o_hra_exemption o);
  ok_total_deductions :
    o_total_deductions o =
    (o_std_deduction o + o_prof_tax o + o_ded_80c o + o_ded_80d o
     + o_ded_80ccd_1b o + o_ded_80tta o + o_home_loan_interest o
     + o_hra_exemption o)%fm;
  ok_taxable :
    o_taxable_income o =
    py_max (int 0) (o_gross_income o - o_total_deductions o)%fm;
  ok_slab : o_slab_tax o = old_slab (o_taxable_income o);
  ok_base_tax :
    o_base_tax o =
    if (o_taxable_income o <=? int 500000)%fm then int 0 else o_slab_tax o;
  ok_cess : o_cess o = (o_base_tax o * hundredths 4)%fm;
  ok_total_tax : o_total_tax o = (o_base_tax o + o_cess o)%fm
}.

Record new_locals_ok (data : gmap string (pyval F)) (n : new_locals F)
    : Prop := {
  nk_salary : float_field data "annual_income" = Ok (n_salary n);
  nk_gross : exists interest other,
    float_field data "income_from_interest" = Ok interest
    /\ float_field data "income_from_other_sources" = Ok other
    /\ n_gross_income n = (n_salary n + interest + other)%fm;
  nk_std :
    n_std_deduction n =
    if (n_salary n >? int 0)%fm then int 50000 else int 0;
  nk_total_deductions : n_total_deductions n = n_std_deduction n;
  nk_taxable :
    n_taxable_income n =
    py_max (int 0) (n_gross_income n - n_total_deductions n)%fm;
  nk_slab : n_slab_tax n = new_slab (n_taxable_income n);
  nk_base_tax :
    n_base_tax n =
    if (n_taxable_income n <=? int 700000)%fm then int 0 else n_slab_tax n;
  nk_cess : n_cess n = (n_base_tax n * hundredths 4)%fm;
  nk_total_tax : n_total_tax n = (n_base_tax n + n_cess n)%fm
}.
End Typing.

(** ** The order of a float model

    What the comparisons of a model satisfy, in exact arithmetic and in
    binary64 alike: [x == x] holds of every value but a NaN, on those [<=]
    is a total preorder that [<] refines, a value equal to 0 is not above
    0, the product of two values above 0 is not a NaN, and the two HRA
    limits are above 0. *)
Class OrderLaws (F : Type) `{FloatModel F} : Prop := {
  lt_number : forall a b : F,
    (a <? b)%fm = true -> (a ==? a)%fm = true /\ (b ==? b)%fm = true;
  le_refl : forall a : F, (a ==? a)%fm = true -> (a <=? a)%fm = true;
  lt_le : forall a b : F, (a <? b)%fm = true -> (a <=? b)%fm = true;
  not_lt_le : forall a b : F,
    (a ==? a)%fm = true -> (b ==? b)%fm = true ->
    (b <? a)%fm = false -> (a <=? b)%fm = true;
  le_trans : forall a b c : F,
    (a <=? b)%fm = true -> (b <=? c)%fm = true -> (a <=? c)%fm = true;
  zero_not_pos : forall a : F,
    (a ==? int 0)%fm = true -> (int 0 <? a)%fm = false;
  mul_pos_number : forall a b : F,
    (int 0 <? a)%fm = true -> (int 0 <? b)%fm = true ->
    (a * b ==? a * b)%fm = true;
  limit_pct_pos : forall metro : bool,
    (int 0 <? limit_pct metro)%fm = true
}.

(** ** Amounts and input records used below *)

(** The sum of the amounts of a components breakdown. *)
Definition sum_amounts (entries : list (string * Q)) : Q :=
  fold_right (fun entry acc => snd entry + acc)%Q 0%Q entries.

(** The sum of the entries of a binary64 breakdown, each float taken at
    its exact value. *)
Definition b64_sum_amounts (entries : list (string * float)) : option Q :=
  fold_right (fun entry acc =>
                x ← Binary64.b64_exact (snd entry);
                s ← acc;
                Some (x + s)%Q)
    (Some 0%Q) entries.

Definition component_names : list string :=
  [ "Standard Deduction"; "80C"; "80D"; "80CCD(1B) (NPS)"; "80TTA";
    "HRA Exemption"; "Home Loan Interest (24(b))"; "Professional Tax" ].

Section Inputs.
Context {F : Type} `{FloatModel F}.

(** Scenarios 1 and 2 of the specification: a salary of 800,000, no other
    income, 80C, 80D and 80CCD(1B) at their caps, no HRA, Delhi. *)
Definition scenario_input : gmap string (pyval F) :=
  {[ "annual_income" := PyFloat (int 800000);
     "income_from_interest" := PyFloat (int 0);
     "income_from_other_sources" := PyFloat (int 0);
     "section_80c" := PyFloat (int 150000);
     "section_80d" := PyFloat (int 25000);
     "section_80ccd_1b" := PyFloat (int 50000);
     "section_80tta" := PyFloat (int 0);
     "home_loan_interest" := PyFloat (int 0);
     "hra_received" := PyFloat (int 0);
     "rent_paid" := PyFloat (int 0);
     "state" := PyStr "Delhi";
     "city_type" := PyStr "Non-Metro" ]}.

(** What the New-Regime calculator returns on it. *)
Definition scenario_2_result : regime_result F :=
  {| regime := "New Regime";
     gross_income := int 800000;
     total_deductions := int 50000;
     taxable_income := int 750000;
     base_tax := int 30000;
     cess := int 1200;
     total_tax_payable := int 31200;
     components := None |}.


(** A salary of 650,000 with 150,000 under 80C. *)
Definition rebate_input : gmap string (pyval F) :=
  {[ "annual_income" := PyFloat (int 650000);
     "section_80c" := PyFloat (int 150000) ]}.

(** A salary of 550,000.004 and nothing else. *)
Definition threshold_input : gmap string (pyval F) :=
  {[ "annual_income" := PyFloat (of_decimal 550000004 (-3)) ]}.

(** A salary of 750,001 and nothing else. *)
Definition odd_rupee_input : gmap string (pyval F) :=
  {[ "annual_income" := PyFloat (int 750001) ]}.

(** A salary that is not a number. *)
Definition text_input : gmap string (pyval F) :=
  {[ "annual_income" := PyStr "abc" ]}.

(** An 80C amount given as a numeric string, and a [state] of [None]. *)
Definition numeric_text_input : gmap string (pyval F) :=
  {[ "section_80c" := PyStr "100" ]}.

Definition none_state_input : gmap string (pyval F) :=
  {[ "state" := PyNone ]}.

(** An [int] salary, 80C and the city type given as [None], the rest
    absent. *)
Definition sparse_input : gmap string (pyval F) :=
  {[ "annual_income" := PyInt 900000;
     "section_80c" := PyNone;
     "city_type" := PyNone ]}.


(** No salary and an interest income of 1,234,567,890,123,456. *)
Definition large_interest_input : gmap string (pyval F) :=
  {[ "income_from_interest" := PyInt 1234567890123456 ]}.

(** A salary and a rent of 10^18 with 10^17 of HRA in a metro city of
    Maharashtra, and every deduction at its cap. *)
Definition large_hra_input : gmap string (pyval F) :=
  {[ "annual_income" := PyInt (10 ^ 18);
     "hra_received" := PyInt (10 ^ 17);
     "rent_paid" := PyInt (10 ^ 18);
     "section_80c" := PyInt 150000;
     "section_80d" := PyInt 25000;
     "section_80ccd_1b" := PyInt 50000;
     "section_80tta" := PyInt 10000;
     "home_loan_interest" := PyInt 200000;
     "state" := PyStr "Maharashtra";
     "city_type" := PyStr "Metro" ]}.
End Inputs.


Definition nonneg_amount (v : option (pyval Q)) : Prop :=
  match v with
  | None | Some PyNone => True
  | Some (PyInt z) => (0 <= z)%Z
  | Some (PyFloat x) => (0 <= x)%Q
  | Some (PyBool _) | Some (PyStr _) => False
  end.


(** ** The validation layer ([guardrails.py])

    [validate_and_sanitize_inputs] is what [app.py] calls on the record of
    the form before [calculate_comprehensive]. *)

Definition ALLOWED_STATES : list string :=
  [ "andhra pradesh"; "bihar"; "delhi"; "gujarat"; "haryana"; "karnataka";
    "kerala"; "madhya pradesh"; "maharashtra"; "odisha"; "punjab";
    "rajasthan"; "tamil nadu"; "telangana"; "uttar pradesh"; "west bengal" ].

Definition MAX_ANNUAL_INCOME : N := 100000000.
Definition MAX_DEDUCTION_80C : N := 150000.
Definition MAX_DEDUCTION_80D : N := 50000.
Definition MAX_DEDUCTION_80CCD_1B : N := 50000.
Definition MAX_DEDUCTION_80TTA : N := 10000.
Definition MAX_HOME_LOAN_INTEREST : N := 200000.
Definition MAX_AGE : Z := 120.
Definition MIN_AGE : Z := 18.

(** [int(x)] on a float: truncation toward zero; [ValueError] on a NaN and
    [OverflowError] on an infinity. *)
Class FloatToInt (F : Type) : Type := {
  float_to_int : F -> result Z
}.

#[global] Instance exact_to_int : FloatToInt Q := {|
  float_to_int := fun x => Ok (Z.quot (Qnum x) (Zpos (Qden x)))
|}.

#[global] Instance b64_to_int : FloatToInt float := {|
  float_to_int := fun x =>
    match Prim2SF x with
    | S754_nan => Raise ValueError
    | S754_infinity _ => Raise OverflowError
    | S754_zero _ => Ok 0%Z
    | S754_finite s m e =>
        let magnitude :=
          if (0 <=? e)%Z then (Zpos m * 2 ^ e)%Z
          else (Zpos m / 2 ^ (- e))%Z in
        Ok (if s then (- magnitude)%Z else magnitude)
    end
|}.

Section Validation.
Context {F : Type} `{FloatModel F} `{FloatToInt F}.

(** [_to_number]: [None] and what [float] rejects with [TypeError] or
    [ValueError] become the default; an [OverflowError] is not caught. *)
Definition to_number (value : pyval F) (dflt : Z) : result (pyval F) :=
  match value with
  | PyNone => Ok (PyInt dflt)
  | _ =>
      match py_float value with
      | Ok x => Ok (PyFloat x)
      | Raise TypeError | Raise ValueError => Ok (PyInt dflt)
      | Raise e => Raise e
      end
  end.

(** [v > n] for an [int] literal [n]. *)
Definition py_gt_int (v : pyval F) (n : N) : result bool :=
  match v with
  | PyBool b => Ok (Z.of_N n <? Z.b2z b)%Z
  | PyInt z => Ok (Z.of_N n <? z)%Z
  | PyFloat x => Ok (x >? int n)%fm
  | PyNone | PyStr _ => Raise TypeError
  end.

(** [max(0, v)] and [min(v, cap)]: the first argument is kept unless the
    second is strictly larger (smaller). *)
Definition py_max_zero (v : pyval F) : result (pyval F) :=
  above ← py_gt_int v 0;
  Ok (if above : bool then v else PyInt 0).

Definition py_min_cap (v : pyval F) (cap : N) : result (pyval F) :=
  above ← py_gt_int v cap;
  Ok (if above : bool then PyInt (Z.of_N cap) else v).

(** [int(v)] *)
Definition py_int (v : pyval F) : result Z :=
  match v with
  | PyBool b => Ok (Z.b2z b)
  | PyInt z => Ok z
  | PyFloat x => float_to_int x
  | PyNone | PyStr _ => Raise TypeError
  end.

(** [s.strip()] on an object. *)
Definition py_strip (v : pyval F) : result string :=
  match v with
  | PyStr s => Ok (strip s)
  | _ => Raise AttributeError
  end.

(** [max(0, _to_number(data.get(key)))], and the same under
    [min(..., cap)]. *)
Definition nonneg_field (data : gmap string (pyval F)) (key : string)
    : result (pyval F) :=
  v ← to_number (dict_get data key PyNone) 0;
  py_max_zero v.

Definition capped_field (data : gmap string (pyval F)) (key : string)
    (cap : N) : result (pyval F) :=
  v ← nonneg_field data key;
  py_min_cap v cap.

(** The blocks of [validate_and_sanitize_inputs], each with the warnings
    it appends: the annual income, the age, the state and the city type. *)
Definition sanitize_annual_income (data : gmap string (pyval F))
    : result (pyval F * list string) :=
  annual ← to_number (dict_get data "annual_income" PyNone) 0;
  negative ← py_lt_int annual 0;
  let '(annual, w1) :=
    if negative : bool
    then (PyInt 0, ["Annual income was negative; treated as 0."])
    else (annual, []) in
  above ← py_gt_int annual MAX_ANNUAL_INCOME;
  let '(annual, w2) :=
    if above : bool
    then (PyInt (Z.of_N MAX_ANNUAL_INCOME),
          ["Annual income capped at ₹100000000 for this calculator."])
    else (annual, []) in
  Ok (annual, (w1 ++ w2)%list).

Definition sanitize_age (data : gmap string (pyval F))
    : result (Z * list string) :=
  a ← to_number (dict_get data "age" PyNone) 30;
  age ← py_int a;
  if (age <? MIN_AGE)%Z || (MAX_AGE <? age)%Z
  then Ok (Z.max MIN_AGE (Z.min MAX_AGE age),
           ["Age should be between 18 and 120; using 30 for calculations."])
  else Ok (age, []).

Definition sanitize_state (data : gmap string (pyval F))
    : result (string * list string) :=
  state ← py_strip (py_or (dict_get data "state" PyNone) (PyStr "Delhi"));
  if bool_decide (lower state ∈ ALLOWED_STATES) then Ok (state, [])
  else Ok ("Delhi",
           ["State not in list; using Delhi for Professional Tax."]).

Definition sanitize_city_type (data : gmap string (pyval F))
    : result string :=
  ct ← py_strip (py_or (dict_get data "city_type" PyNone)
                   (PyStr "Non-Metro"));
  Ok (if bool_decide (lower ct ∈ ["metro"; "non-metro"]) then ct
      else "Non-Metro").

Definition validate_and_sanitize_inputs (data : gmap string (pyval F))
    : result (gmap string (pyval F) * list string) :=
  '(annual, w_income) ← sanitize_annual_income data;
  interest ← nonneg_field data "income_from_interest";
  other ← nonneg_field data "income_from_other_sources";
  c ← capped_field data "section_80c" MAX_DEDUCTION_80C;
  d ← capped_field data "section_80d" MAX_DEDUCTION_80D;
  n ← capped_field data "section_80ccd_1b" MAX_DEDUCTION_80CCD_1B;
  t ← capped_field data "section_80tta" MAX_DEDUCTION_80TTA;
  h ← capped_field data "home_loan_interest" MAX_HOME_LOAN_INTEREST;
  hra_received ← nonneg_field data "hra_received";
  rent_paid ← nonneg_field data "rent_paid";
  '(age, w_age) ← sanitize_age data;
  '(state, w_state) ← sanitize_state data;
  ct ← sanitize_city_type data;
  Ok ({[ "annual_income" := annual;
         "income_from_interest" := interest;
         "income_from_other_sources" := other;
         "section_80c" := c;
         "section_80d" := d;
         "section_80ccd_1b" := n;
         "section_80tta" := t;
         "home_loan_interest" := h;
         "hra_received" := hra_received;
         "rent_paid" := rent_paid;
         "age" := PyInt age;
         "state" := PyStr state;
         "city_type" := PyStr ct ]},
      (w_income ++ w_age ++ w_state)%list).

(** The calculation of [app.py]: the record of the form is sanitized, its
    warnings are shown, and the comparison is computed on the result. *)
Definition validated_comparison (raw : gmap string (pyval F))
    : result (comparison F * list string) :=
  '(data, warnings) ← validate_and_sanitize_inputs raw;
  result ← calculate_comprehensive data;
  Ok (result, warnings).

(** The forms of a sanitized amount: the [int] 0, the [int] cap, or a
    float that the tests of the validation left alone. *)
Definition sanitized_amount (lower_open : bool) (cap : option N)
    (u : pyval F) : Prop :=
  u = PyInt 0
  \/ (exists n, cap = Some n /\ u = PyInt (Z.of_N n))
  \/ exists x, u = PyFloat x
       /\ (if lower_open then (x >? int 0)%fm = true
           else (x <? int 0)%fm = false)
       /\ match cap with
          | Some n => (x >? int n)%fm = false
          | None => True
          end.

(** A field [float] reads without overflow; a field [strip] can be called
    on after [or], a string or a value that counts as false; and an age
    that [int] converts. *)
Definition int_in_range (v : option (pyval F)) : Prop :=
  match v with
  | Some (PyInt z) => converts z
  | _ => True
  end.

Definition text_value (v : option (pyval F)) : Prop :=
  match v with
  | None | Some (PyStr _) => True
  | Some u => truthy u = false
  end.

Definition age_value (v : option (pyval F)) : Prop :=
  int_in_range v
  /\ forall x, to_number (default PyNone v) 30 = Ok (PyFloat x) ->
       returns (float_to_int x).

End Validation.

(** The bound of each numeric field of the sanitized record, and whether 0
    is the only value not above 0 it can take. *)
Definition amount_bounds : list (string * bool * option N) :=
  [ ("annual_income", false, Some MAX_ANNUAL_INCOME);
    ("income_from_interest", true, None);
    ("income_from_other_sources", true, None);
    ("section_80c", true, Some MAX_DEDUCTION_80C);
    ("section_80d", true, Some MAX_DEDUCTION_80D);
    ("section_80ccd_1b", true, Some MAX_DEDUCTION_80CCD_1B);
    ("section_80tta", true, Some MAX_DEDUCTION_80TTA);
    ("home_loan_interest", true, Some MAX_HOME_LOAN_INTEREST);
    ("hra_received", true, None);
    ("rent_paid", true, None) ].

(** The deductions the validation caps, each with its cap. *)
Definition capped_deductions : list (string * N) :=
  [ ("section_80c", MAX_DEDUCTION_80C);
    ("section_80d", MAX_DEDUCTION_80D);
    ("section_80ccd_1b", MAX_DEDUCTION_80CCD_1B);
    ("section_80tta", MAX_DEDUCTION_80TTA);
    ("home_loan_interest", MAX_HOME_LOAN_INTEREST) ].

Definition uncapped_amounts : list string :=
  [ "income_from_interest"; "income_from_other_sources"; "hra_received";
    "rent_paid" ].

Definition guardrail_caps : list N :=
  [ MAX_ANNUAL_INCOME; MAX_DEDUCTION_80C; MAX_DEDUCTION_80D;
    MAX_DEDUCTION_80CCD_1B; MAX_DEDUCTION_80TTA; MAX_HOME_LOAN_INTEREST ].

(** Two values the engine reads alike: the same value, or an [int] cap (or
    0) and the float of the same value. *)
Definition same_amount {F : Type} `{FloatModel F} (u u' : pyval F) : Prop :=
  u' = u
  \/ (exists n, n ∈ guardrail_caps /\ u = PyInt (Z.of_N n)
                /\ u' = PyFloat (int n))
  \/ (u = PyInt 0 /\ u' = PyFloat (int 0)).

(** The fields each calculator reads. *)
Definition income_fields : list string :=
  [ "annual_income"; "income_from_interest"; "income_from_other_sources" ].

Definition deduction_fields : list string :=
  [ "section_80c"; "section_80d"; "section_80ccd_1b"; "section_80tta";
    "home_loan_interest" ].

(** What the validation layer needs of a float model: [float] of each cap
    is the literal of the same value, which lies above 0; 0 is not above
    itself; and an age within the bounds survives [int(float(age))]. *)
Class CapLaws (F : Type) `{FloatModel F} `{FloatToInt F} : Prop := {
  cap_float : forall n : N, n ∈ guardrail_caps ->
    float_of_int (Z.of_N n) = Some (int n);
  cap_order : forall n : N, n ∈ guardrail_caps ->
    (int 0 <? int n)%fm = true /\ (int n <? int 0)%fm = false
    /\ (int n <? int n)%fm = false /\ (int n ==? int 0)%fm = false;
  zero_order : (int 0 <? (int 0 : F))%fm = false;
  age_round_trip : forall z : Z, (MIN_AGE <= z <= MAX_AGE)%Z ->
    exists x : F, float_of_int z = Some x /\ float_to_int x = Ok z
}.

Definition age_survives (z : Z) : bool :=
  match float_of_int (F:=float) z with
  | Some x =>
      match float_to_int x with
      | Ok y => (y =? z)%Z
      | Raise _ => false
      end
  | None => false
  end.

Section Forms.
Context {F : Type} `{FloatModel F}.

(** A record as the form of [app.py] builds it: every amount an [int], 80C
    above its cap, a state that carries the Professional Tax. *)
Definition form_input : gmap string (pyval F) :=
  {[ "age" := PyInt 30;
     "annual_income" := PyInt 1200000;
     "income_from_interest" := PyInt 20000;
     "income_from_other_sources" := PyInt 0;
     "section_80c" := PyInt 200000;
     "section_80d" := PyInt 40000;
     "section_80ccd_1b" := PyInt 0;
     "section_80tta" := PyInt 5000;
     "home_loan_interest" := PyInt 0;
     "hra_received" := PyInt 240000;
     "rent_paid" := PyInt 300000;
     "state" := PyStr " Maharashtra";
     "city_type" := PyStr "Metro" ]}.

(** A record that needs sanitizing: a negative income, amounts given as
    text, an age beyond the bounds, a state and a city type outside the
    lists. *)
Definition rough_input : gmap string (pyval F) :=
  {[ "age" := PyInt 150;
     "annual_income" := PyInt (-5);
     "income_from_interest" := PyStr "abc";
     "section_80c" := PyStr "1e6";
     "section_80d" := PyFloat (int 30000);
     "state" := PyStr " Goa ";
     "city_type" := PyStr "Town" ]}.

(** What the validation returns on the two records. *)
Definition form_sanitized : gmap string (pyval F) :=
  {[ "annual_income" := PyFloat (int 1200000);
     "income_from_interest" := PyFloat (int 20000);
     "income_from_other_sources" := PyInt 0;
     "section_80c" := PyInt 150000;
     "section_80d" := PyFloat (int 40000);
     "section_80ccd_1b" := PyInt 0;
     "section_80tta" := PyFloat (int 5000);
     "home_loan_interest" := PyInt 0;
     "hra_received" := PyFloat (int 240000);
     "rent_paid" := PyFloat (int 300000);
     "age" := PyInt 30;
     "state" := PyStr "Maharashtra";
     "city_type" := PyStr "Metro" ]}.

Definition rough_sanitized : gmap string (pyval F) :=
  {[ "annual_income" := PyInt 0;
     "income_from_interest" := PyInt 0;
     "income_from_other_sources" := PyInt 0;
     "section_80c" := PyInt 150000;
     "section_80d" := PyFloat (int 30000);
     "section_80ccd_1b" := PyInt 0;
     "section_80tta" := PyInt 0;
     "home_loan_interest" := PyInt 0;
     "hra_received" := PyInt 0;
     "rent_paid" := PyInt 0;
     "age" := PyInt 120;
     "state" := PyStr "Delhi";
     "city_type" := PyStr "Non-Metro" ]}.

Definition rough_warnings : list string :=
  [ "Annual income was negative; treated as 0.";
    "Age should be between 18 and 120; using 30 for calculations.";
    "State not in list; using Delhi for Professional Tax." ].

(** The record [form_input] with the city type and the state in another
    case and an entry no calculator reads. *)
Definition form_input_respelt : gmap string (pyval F) :=
  <[ "city_type" := PyStr "METRO " ]>
    (<[ "state" := PyStr "maharashtra" ]>
       (<[ "pan" := PyStr "ABCDE1234F" ]> form_input)).
End Forms.

(** A NaN as the annual income, in binary64, and what the validation
    returns on it. *)
Definition nan_input : gmap string (pyval float) :=
  {[ "annual_income" := PyFloat nan;
     "section_80c" := PyInt 150000;
     "state" := PyStr "Kerala" ]}.

Definition nan_sanitized : gmap string (pyval float) :=
  {[ "annual_income" := PyFloat nan;
     "income_from_interest" := PyInt 0;
     "income_from_other_sources" := PyInt 0;
     "section_80c" := PyFloat 150000%float;
     "section_80d" := PyInt 0;
     "section_80ccd_1b" := PyInt 0;
     "section_80tta" := PyInt 0;
     "home_loan_interest" := PyInt 0;
     "hra_received" := PyInt 0;
     "rent_paid" := PyInt 0;
     "age" := PyInt 30;
     "state" := PyStr "Kerala";
     "city_type" := PyStr "Non-Metro" ]}.

(** * Properties *)

(** ** The models on examples *)

(** The literals of the source, [round(x, 2)] and [float(s)] in binary64,
    as Python gives them. *)
Example binary64_literals :
  map hundredths [4; 5; 10; 15; 20; 30; 40; 50]%N
  = [0.04; 0.05; 0.10; 0.15; 0.20; 0.30; 0.40; 0.50]%float
  /\ map int [0; 1; 2500; 150000; 1500000]%N
     = [0; 1; 2500; 150000; 1500000]%float.
Proof. split; vm_compute; reflexivity. Qed.

Example binary64_round2 :
  map round2 [2.675; 0.125; 0.375; 1.005; 26000.104; 1e300; -0.001]%float
  = [2.67; 0.12; 0.38; 1.0; 26000.1; 1e300; -0.0]%float
  /\ map round2 [infinity; neg_infinity] = [infinity; neg_infinity]
  /\ PrimFloat.is_nan (round2 nan) = true.
Proof. repeat split; vm_compute; reflexivity. Qed.

Example exact_round2 :
  map Exact.Qround2 [2675 # 1000; 125 # 1000; 375 # 1000; 26000104 # 1000]%Q
  = [67 # 25; 3 # 25; 19 # 50; 260001 # 10]%Q.
Proof. vm_compute. reflexivity. Qed.

Example parse_float_examples :
  map parse_float
    [ "abc"; ""; " 12.50 "; "1_000.5e-3"; "1__0"; "-inf"; "NaN"; ".5"; ".";
      "1."; "1e"; "+ 1"; "_1"; "0x10" ]
  = [ None; None; Some (FDecimal false 1250 (-2));
      Some (FDecimal false 10005 (-4)); None; Some (FInfinity true);
      Some FNan; Some (FDecimal false 5 (-1)); None;
      Some (FDecimal false 1 0); None; None; None; None ].
Proof. vm_compute. reflexivity. Qed.

Example strip_lower_examples :
  strip (lower "  Tamil Nadu ") = "tamil nadu"
  /\ lower (strip "	METRO ") = "metro"
  /\ strip "   " = "".
Proof. repeat split. Qed.

(** Scenario 1 of the specification, in exact arithmetic and in binary64:
    the Old-Regime calculator returns a taxable income of 525,000, a base
    tax of 17,500, a cess of 700 and a total of 18,200. *)
Example scenario_1_old_regime :
  (exists r, calculate_tax_old_regime (F:=Q) scenario_input = Ok r
     /\ (total_deductions r, taxable_income r, base_tax r, cess r,
         total_tax_payable r)
        = (275000, 525000, 17500, 700, 18200)%Q)
  /\ (exists r, calculate_tax_old_regime (F:=float) scenario_input = Ok r
     /\ (total_deductions r, taxable_income r, base_tax r, cess r,
         total_tax_payable r)
        = (275000, 525000, 17500, 700, 18200)%float).
Proof.
  split; eexists; (split; [vm_compute; reflexivity|]); reflexivity.
Qed.

(** ** Facts that hold in every float model *)

Ltac inv_bind H :=
  cbv zeta in H;
  match type of H with
  | (?m ≫= _) = Ok _ =>
      let E := fresh "E" in
      destruct m eqn:E; [cbn [mbind result_bind] in H | discriminate H]
  end.

Section Generic.
Context {F : Type} `{FloatModel F}.

Lemma old_locals_inv (data : gmap string (pyval F)) (o : old_locals F) :
  old_regime_locals data = Ok o -> old_locals_ok data o.
Proof.
  unfold old_regime_locals. intros Ho.
  do 12 inv_bind Ho.
  cbv zeta in Ho. injection Ho as <-.
  constructor; cbn; eauto 6.
Qed.

Lemma new_locals_inv (data : gmap string (pyval F)) (n : new_locals F) :
  new_regime_locals data = Ok n -> new_locals_ok data n.
Proof.
  unfold new_regime_locals. intros Hn.
  do 3 inv_bind Hn.
  cbv zeta in Hn. injection Hn as <-.
  constructor; cbn; eauto 6.
Qed.

(** What a calculator returns of the tax: the roundings of the base tax
    after the rebate, of its product with 0.04 and of the sum of the
    two. *)
Lemma returned_tax (data : gmap string (pyval F)) (r : regime_result F) :
  calculate_tax_old_regime data = Ok r
  \/ calculate_tax_new_regime data = Ok r ->
  exists b : F,
    base_tax r = round2 b
    /\ cess r = round2 (b * hundredths 4)%fm
    /\ total_tax_payable r = round2 (b + b * hundredths 4)%fm.
Proof.
  intros [Hr | Hr].
  - unfold calculate_tax_old_regime in Hr. inv_bind Hr.
    injection Hr as <-.
    match goal with
    | E : old_regime_locals data = Ok ?o |- _ =>
        apply old_locals_inv in E; exists (o_base_tax o); cbn;
        rewrite (ok_total_tax _ _ E), (ok_cess _ _ E)
    end.
    auto.
  - unfold calculate_tax_new_regime in Hr. inv_bind Hr.
    injection Hr as <-.
    match goal with
    | E : new_regime_locals data = Ok ?n |- _ =>
        apply new_locals_inv in E; exists (n_base_tax n); cbn;
        rewrite (nk_total_tax _ _ E), (nk_cess _ _ E)
    end.
    auto.
Qed.

(** [float(data.get(key, 0) or 0)] on a well-typed field: an absent field
    and [None] are read as zero, a number as itself. *)
Lemma float_field_numeric (data : gmap string (pyval F)) (key : string) :
  numeric_value (data !! key) -> returns (float_field data key).
Proof.
  unfold float_field, dict_get, returns, py_or.
  destruct (data !! key) as [[ | b | z | x | s]|]; cbn; try easy.
  - intros _. rewrite float_of_int_zero. eauto.
  - intros [y Hy]. destruct (z =? 0)%Z; cbn.
    + rewrite float_of_int_zero. eauto.
    + rewrite Hy. eauto.
  - intros _. destruct (x ==? int 0)%fm; cbn; eauto.
    rewrite float_of_int_zero. eauto.
  - intros _. rewrite float_of_int_zero. eauto.
Qed.

Lemma float_field_absent (data : gmap string (pyval F)) (key : string) :
  data !! key = None \/ data !! key = Some PyNone ->
  float_field data key = Ok (int 0).
Proof.
  unfold float_field, dict_get, py_or.
  intros [-> | ->]; cbn; now rewrite float_of_int_zero.
Qed.

Lemma professional_tax_returns (v : option (pyval F)) (gross_income : F) :
  state_value v ->
  returns (get_professional_tax (default (PyStr "Delhi") v) gross_income).
Proof.
  unfold returns. destruct v as [[ | | | | s]|]; cbn; try easy; intros _.
  - destruct (bool_decide _); [|eauto].
    destruct (_ <? gross_income)%fm; [eauto|].
    destruct (_ <? gross_income)%fm; eauto.
  - eauto.
Qed.

Lemma is_metro_city (data : gmap string (pyval F)) :
  city_value (data !! "city_type") ->
  is_metro data =
  Ok (match data !! "city_type" with
      | Some (PyStr s) => String.eqb (lower (strip s)) "metro"
      | _ => false
      end).
Proof.
  unfold is_metro, dict_get, py_or.
  destruct (data !! "city_type") as [[ | | | | s]|]; cbn; try easy.
  intros _. destruct s; reflexivity.
Qed.

Lemma hra_exemption_returns (data : gmap string (pyval F))
    (salary hra_received rent_paid : F) :
  city_value (data !! "city_type") ->
  returns (hra_exemption data salary hra_received rent_paid).
Proof.
  intros Hc. unfold hra_exemption, returns.
  destruct (_ && _); [|eauto].
  rewrite (is_metro_city data Hc). cbn. eauto.
Qed.




Ltac split_fields H :=
  unfold numeric_fields in H;
  repeat match type of H with
         | Forall _ (_ :: _) =>
             let Hk := fresh "Hk" in apply Forall_cons in H as [Hk H]
         end.

Ltac step_field Hk :=
  let x := fresh "x" in
  let E := fresh "E" in
  destruct (float_field_numeric _ _ Hk) as [x E];
  rewrite E; cbn [mbind result_bind].

Lemma old_regime_returns (data : gmap string (pyval F)) :
  well_typed data -> returns (old_regime_locals data).
Proof.
  intros (Hn & Hs & Hc). split_fields Hn.
  unfold old_regime_locals.
  step_field Hk. step_field Hk0. step_field Hk1.
  destruct (professional_tax_returns _ (x + x0 + x1)%fm Hs) as [p Ep].
  unfold dict_get at 1. cbv zeta. rewrite Ep. cbn [mbind result_bind].
  step_field Hk2. step_field Hk3. step_field Hk4. step_field Hk5.
  step_field Hk6. step_field Hk7. step_field Hk8.
  destruct (hra_exemption_returns data x x7 x8 Hc) as [e Ee].
  rewrite Ee. cbn [mbind result_bind]. unfold returns. eauto.
Qed.

Lemma new_regime_returns (data : gmap string (pyval F)) :
  well_typed data -> returns (new_regime_locals data).
Proof.
  intros (Hn & _ & _). split_fields Hn.
  unfold new_regime_locals.
  step_field Hk. step_field Hk0. step_field Hk1.
  unfold returns. eauto.
Qed.

(** A suggestion on a well-typed field whose gap converts. *)
Lemma suggest_gap_returns (data : gmap string (pyval F)) (key : string)
    (cap : N) (mk : string -> string) :
  numeric_value (data !! key) -> gap_converts cap (data !! key) ->
  returns (suggest_gap data key cap mk).
Proof.
  unfold suggest_gap, dict_get, py_or, returns.
  destruct (data !! key) as [[ | b | z | x | s]|]; cbn; try easy.
  - intros _ [y Hy]. destruct (0 <? Z.of_N cap)%Z; cbn; [|eauto].
    rewrite Z.sub_0_r, Hy. eauto.
  - intros _ [y Hy]. destruct (z =? 0)%Z eqn:Ez; cbn.
    + apply Z.eqb_eq in Ez. subst z.
      destruct (0 <? Z.of_N cap)%Z; cbn; [|eauto]. rewrite Hy. eauto.
    + destruct (z <? Z.of_N cap)%Z; cbn; [|eauto]. rewrite Hy. eauto.
  - intros _ [y Hy]. destruct (x ==? int 0)%fm; cbn.
    + destruct (0 <? Z.of_N cap)%Z; cbn; [|eauto].
      rewrite Z.sub_0_r, Hy. eauto.
    + destruct (x <? int cap)%fm; cbn; eauto.
  - intros _ [y Hy]. destruct (0 <? Z.of_N cap)%Z; cbn; [|eauto].
    rewrite Z.sub_0_r, Hy. eauto.
Qed.

Lemma comprehensive_returns (data : gmap string (pyval F)) :
  well_typed data ->
  gap_converts 150000 (data !! "section_80c") ->
  gap_converts 50000 (data !! "section_80ccd_1b") ->
  returns (calculate_comprehensive data).
Proof.
  intros Hw Hg1 Hg2.
  destruct (old_regime_returns data Hw) as [o Eo].
  destruct (new_regime_returns data Hw) as [n En].
  destruct Hw as (Hn & _ & _). split_fields Hn.
  destruct (suggest_gap_returns data _ 150000 suggestion_80c Hk2 Hg1) as [s1 E1].
  destruct (suggest_gap_returns data _ 50000 suggestion_nps Hk4 Hg2) as [s2 E2].
  unfold calculate_comprehensive, calculate_tax_old_regime,
    calculate_tax_new_regime.
  rewrite Eo, En. cbn [mbind result_bind]. cbv zeta.
  rewrite E1. cbn [mbind result_bind].
  rewrite E2. cbn [mbind result_bind].
  unfold returns. eauto.
Qed.

Lemma comprehensive_inv (data : gmap string (pyval F)) (c : comparison F) :
  calculate_comprehensive data = Ok c ->
  calculate_tax_old_regime data = Ok (old_regime c)
  /\ calculate_tax_new_regime data = Ok (new_regime c)
  /\ best_regime c =
     if (total_tax_payable (new_regime c)
         <? total_tax_payable (old_regime c))%fm
     then "New Regime" else "Old Regime".
Proof.
  unfold calculate_comprehensive. intros Hc.
  do 4 inv_bind Hc. cbv zeta in Hc. injection Hc as <-. cbn. auto.
Qed.
End Generic.

(** Python's [min] and [max] in an ordered model. *)
Section Ordered.
Context {F : Type} `{OrderLaws F}.

Lemma py_min_le (a b : F) :
  (a ==? a)%fm = true -> (b ==? b)%fm = true ->
  (py_min a b ==? py_min a b)%fm = true
  /\ (py_min a b <=? a)%fm = true /\ (py_min a b <=? b)%fm = true.
Proof.
  intros Ha Hb. unfold py_min. destruct (b <? a)%fm eqn:E.
  - split; [exact Hb|]. split; [now apply lt_le | now apply le_refl].
  - split; [exact Ha|]. split; [now apply le_refl | now apply not_lt_le].
Qed.

Lemma py_min3_le (a b c : F) :
  (a ==? a)%fm = true -> (b ==? b)%fm = true -> (c ==? c)%fm = true ->
  (py_min3 a b c <=? a)%fm = true /\ (py_min3 a b c <=? b)%fm = true
  /\ (py_min3 a b c <=? c)%fm = true.
Proof.
  intros Ha Hb Hc. unfold py_min3.
  destruct (py_min_le a b Ha Hb) as (Hn & H1 & H2).
  destruct (py_min_le (py_min a b) c Hn Hc) as (_ & H3 & H4).
  eauto using le_trans.
Qed.

Lemma py_max_number (a b : F) :
  (a ==? a)%fm = true -> (py_max a b ==? py_max a b)%fm = true.
Proof.
  intros Ha. unfold py_max. destruct (a <? b)%fm eqn:E; [|exact Ha].
  apply (lt_number _ _ E).
Qed.

(** The HRA block in an ordered model. *)
Lemma hra_exemption_ordered (data : gmap string (pyval F))
    (salary hra_received rent_paid e : F) :
  hra_exemption data salary hra_received rent_paid = Ok e ->
  ((hra_received ==? int 0)%fm = true \/ (rent_paid ==? int 0)%fm = true
   \/ (salary ==? int 0)%fm = true -> e = int 0)
  /\ ((hra_received >? int 0)%fm = true -> (rent_paid >? int 0)%fm = true ->
      (salary >? int 0)%fm = true ->
      exists metro : bool,
        is_metro data = Ok metro
        /\ e = py_min3 hra_received
                 (py_max (int 0) (rent_paid - hundredths 10 * salary)%fm)
                 (limit_pct metro * salary)%fm
        /\ (e <=? hra_received)%fm = true
        /\ (e <=? py_max (int 0) (rent_paid - hundredths 10 * salary))%fm
           = true
        /\ (e <=? limit_pct metro * salary)%fm = true).
Proof.
  unfold hra_exemption. intros He. split.
  - intros Hz.
    assert (Hg : (hra_received >? int 0)%fm && (rent_paid >? int 0)%fm
                 && (salary >? int 0)%fm = false).
    { destruct Hz as [Hz | [Hz | Hz]]; rewrite (zero_not_pos _ Hz);
        [reflexivity | apply andb_false_iff; left; apply andb_false_r
        | apply andb_false_r]. }
    rewrite Hg in He. now injection He as <-.
  - intros Hh Hr Hs. rewrite Hh, Hr, Hs in He. cbn [andb] in He.
    inv_bind He. injection He as <-. rename a into metro.
    exists metro. split; [reflexivity|]. split; [reflexivity|].
    apply py_min3_le.
    + apply (lt_number _ _ Hh).
    + apply py_max_number, (lt_number _ _ Hh).
    + apply mul_pos_number; [apply limit_pct_pos | exact Hs].
Qed.
End Ordered.

(** ** Rebate dominance *)

(** C1. In the Old-Regime calculator, whenever the taxable income it
    computed is at most 500,000 the returned [base_tax] is 0, whatever the
    slabs gave; in the New-Regime calculator the same holds at 700,000.
    This holds in every float model, binary64 included. *)
Theorem rebate_dominance {F : Type} `{FloatModel F}
    (data : gmap string (pyval F)) :
  (forall o, old_regime_locals data = Ok o ->
     (o_taxable_income o <=? int 500000)%fm = true ->
     calculate_tax_old_regime data = Ok (old_regime_result o)
     /\ base_tax (old_regime_result o) = int 0)
  /\ (forall n, new_regime_locals data = Ok n ->
     (n_taxable_income n <=? int 700000)%fm = true ->
     calculate_tax_new_regime data = Ok (new_regime_result n)
     /\ base_tax (new_regime_result n) = int 0).
Proof.
  split.
  - intros o Ho Hle. split.
    + unfold calculate_tax_old_regime. now rewrite Ho.
    + cbn. rewrite (ok_base_tax _ _ (old_locals_inv _ _ Ho)), Hle.
      apply round2_zero.
  - intros n Hn Hle. split.
    + unfold calculate_tax_new_regime. now rewrite Hn.
    + cbn. rewrite (nk_base_tax _ _ (new_locals_inv _ _ Hn)), Hle.
      apply round2_zero.
Qed.

(** A salary of 650,000 with 150,000 under 80C, in binary64: the Old-Regime
    slabs give 10,000 on 450,000 and the New-Regime slabs 15,000 on
    600,000, and both returned base taxes are 0. *)
Lemma rebate_dominance_witness :
  (exists o, old_regime_locals (F:=float) rebate_input = Ok o
     /\ o_taxable_income o = 450000%float /\ o_slab_tax o = 10000%float
     /\ base_tax (old_regime_result o) = 0%float)
  /\ (exists n, new_regime_locals (F:=float) rebate_input = Ok n
     /\ n_taxable_income n = 600000%float /\ n_slab_tax n = 15000%float
     /\ base_tax (new_regime_result n) = 0%float).
Proof.
  split.
  - destruct (old_regime_locals (F:=float) rebate_input) as [o|] eqn:Ho;
      [|vm_compute in Ho; discriminate Ho].
    exists o.
    pose proof (proj1 (rebate_dominance rebate_input) o Ho) as Hr.
    vm_compute in Ho. injection Ho as <-.
    split; [reflexivity|]. split; [reflexivity|]. split; [reflexivity|].
    apply Hr. reflexivity.
  - destruct (new_regime_locals (F:=float) rebate_input) as [n|] eqn:Hn;
      [|vm_compute in Hn; discriminate Hn].
    exists n.
    pose proof (proj2 (rebate_dominance rebate_input) n Hn) as Hr.
    vm_compute in Hn. injection Hn as <-.
    split; [reflexivity|]. split; [reflexivity|]. split; [reflexivity|].
    apply Hr. reflexivity.
Defined.

(** The test is on the taxable income as computed, not as returned: on a
    salary of 550,000.004 the returned taxable income is 500,000.0 and the
    returned base tax 12,500.0. *)
Remark rebate_threshold_before_rounding :
  (exists r, calculate_tax_old_regime (F:=float) threshold_input = Ok r
     /\ taxable_income r = 500000%float /\ base_tax r = 12500%float)
  /\ (exists r, calculate_tax_old_regime (F:=Q) threshold_input = Ok r
     /\ taxable_income r = 500000%Q /\ base_tax r = 12500%Q).
Proof.
  split; eexists; (split; [vm_compute; reflexivity|]);
    split; reflexivity.
Qed.

(** ** Professional tax *)

(** C6. For every jurisdiction name and every gross income,
    [get_professional_tax] returns: when the lower-cased, trimmed name is
    one of the ten listed jurisdictions, 2500 if the gross income exceeds
    150,000, else 2000 if it exceeds 100,000, else 0; for every other
    name, 0.  It raises on no string. *)
Theorem professional_tax_lookup {F : Type} `{FloatModel F}
    (state : string) (gross_income : F) :
  length high_pt_states = 10%nat
  /\ NoDup high_pt_states
  /\ (strip (lower state) ∈ high_pt_states ->
      get_professional_tax (PyStr state) gross_income =
      Ok (if (gross_income >? int 150000)%fm then int 2500
          else if (gross_income >? int 100000)%fm then int 2000
          else int 0))
  /\ (strip (lower state) ∉ high_pt_states ->
      get_professional_tax (PyStr state) gross_income = Ok (int 0))
  /\ returns (get_professional_tax (PyStr state) gross_income).
Proof.
  split; [reflexivity|].
  split; [apply (bool_decide_unpack _); vm_compute; exact I|].
  unfold get_professional_tax, returns. cbv zeta.
  split; [|split].
  - intros Hin. rewrite (bool_decide_eq_true_2 _ Hin).
    destruct (_ <? gross_income)%fm; [reflexivity|].
    destruct (_ <? gross_income)%fm; reflexivity.
  - intros Hout. now rewrite (bool_decide_eq_false_2 _ Hout).
  - destruct (bool_decide _); [|eauto].
    destruct (_ <? gross_income)%fm; [eauto|].
    destruct (_ <? gross_income)%fm; eauto.
Qed.

(** In binary64: [" Kerala"] is a listed jurisdiction and a gross income
    of 120,000 pays 2000 there; ["Atlantis"] is not, and pays 0. *)
Lemma professional_tax_lookup_witness :
  get_professional_tax (PyStr " Kerala") 120000%float = Ok 2000%float
  /\ get_professional_tax (PyStr "Atlantis") 900000%float = Ok 0%float.
Proof.
  pose proof (professional_tax_lookup " Kerala" 120000%float)
    as (_ & _ & Hin & _).
  pose proof (professional_tax_lookup "Atlantis" 900000%float)
    as (_ & _ & _ & Hout & _).
  split.
  - rewrite Hin; [vm_compute; reflexivity|].
    apply (bool_decide_unpack _). vm_compute. exact I.
  - rewrite Hout; [vm_compute; reflexivity|].
    apply (bool_decide_eq_false_1 _). vm_compute. reflexivity.
Defined.

(** ** The city type and the HRA limit *)




(** ** Facts of the binary64 model *)

Import Binary64.

(** [<=], [<] and [==] on the specification of two doubles. *)
Lemma SFleb_sf_le a b : SFleb a b = true <-> sf_le a b.
Proof.
  unfold SFleb, SFcompare, sf_le.
  destruct a as [s1|s1| |s1 m1 e1], b as [s2|s2| |s2 m2 e2];
    try destruct s1; try destruct s2; try (split; (easy || discriminate)).
  all: change (Pos.compare_cont Eq ?x ?y) with (Pos.compare x y).
  all: destruct (Z.compare_spec e1 e2), (Pos.compare_spec m1 m2); cbn;
    split; intros; try discriminate; try reflexivity; try lia.
Qed.

Lemma SFltb_false_sf_le a b :
  sf_number a -> sf_number b -> SFltb b a = false -> sf_le a b.
Proof.
  unfold SFltb, SFcompare, sf_le, sf_number.
  destruct a as [s1|s1| |s1 m1 e1], b as [s2|s2| |s2 m2 e2];
    try destruct s1; try destruct s2; try easy.
  all: change (Pos.compare_cont Eq ?x ?y) with (Pos.compare x y).
  all: intros _ _;
    destruct (Z.compare_spec e2 e1), (Pos.compare_spec m2 m1); cbn;
    intros; try discriminate; try lia.
Qed.

Lemma SFltb_true_sf_le a b : SFltb a b = true -> sf_le a b.
Proof.
  intros Hlt. apply SFleb_sf_le. unfold SFleb, SFltb in *.
  destruct (SFcompare a b) as [[]|]; easy.
Qed.

Lemma SFltb_true_number a b :
  SFltb a b = true -> sf_number a /\ sf_number b.
Proof.
  unfold SFltb, SFcompare, sf_number.
  destruct a as [s1|s1| |s1 m1 e1], b as [s2|s2| |s2 m2 e2]; easy.
Qed.

Lemma sf_le_refl a : sf_number a -> sf_le a a.
Proof.
  destruct a as [s|s| |s m e]; try destruct s; cbn; try easy; lia.
Qed.

Lemma sf_le_trans a b c : sf_le a b -> sf_le b c -> sf_le a c.
Proof.
  unfold sf_le.
  destruct a as [s1|s1| |s1 m1 e1], b as [s2|s2| |s2 m2 e2],
    c as [s3|s3| |s3 m3 e3];
    try destruct s1; try destruct s2; try destruct s3;
    try easy; try lia.
Qed.

(** Rounding a non-negative mantissa never gives a NaN. *)
Lemma shr_1_nonneg mrs : (0 <= shr_m mrs)%Z -> (0 <= shr_m (shr_1 mrs))%Z.
Proof.
  destruct mrs as [[|p|p] r s]; cbn; try lia; destruct p; cbn; lia.
Qed.

Lemma iter_shr_1_nonneg p mrs :
  (0 <= shr_m mrs)%Z -> (0 <= shr_m (SpecFloat.iter_pos shr_1 p mrs))%Z.
Proof.
  revert mrs. induction p as [p IH|p IH|]; intros mrs Hm; cbn.
  - apply IH, IH, shr_1_nonneg, Hm.
  - apply IH, IH, Hm.
  - apply shr_1_nonneg, Hm.
Qed.

Lemma shr_fexp_nonneg prec emax m e l :
  (0 <= m)%Z -> (0 <= shr_m (fst (shr_fexp prec emax m e l)))%Z.
Proof.
  intros Hm. unfold shr_fexp, shr.
  destruct (_ - e)%Z; cbn; try apply iter_shr_1_nonneg;
    destruct l as [|[]]; cbn; exact Hm.
Qed.

Lemma round_nearest_even_nonneg m l :
  (0 <= m)%Z -> (0 <= round_nearest_even m l)%Z.
Proof.
  intros Hm. destruct l as [|[]]; cbn; try lia.
  destruct (Z.even m); lia.
Qed.

Lemma binary_round_aux_number prec emax s m e l :
  (0 <= m)%Z -> sf_number (binary_round_aux prec emax s m e l).
Proof.
  intros Hm. unfold binary_round_aux.
  pose proof (shr_fexp_nonneg prec emax m e l Hm) as H1.
  destruct (shr_fexp prec emax m e l) as [mrs' e']. cbn in H1.
  pose proof (shr_fexp_nonneg prec emax _ e' loc_Exact
                (round_nearest_even_nonneg _ (loc_of_shr_record mrs') H1))
    as H2.
  destruct (shr_fexp prec emax _ e' loc_Exact) as [mrs'' e'']. cbn in H2.
  destruct (shr_m mrs''); [easy | | lia].
  destruct (_ <=? _)%Z; easy.
Qed.

Lemma SFltb_zero_pos a : SFltb (S754_zero false) a = true -> sf_pos a.
Proof. destruct a as [s|s| |s m e]; try destruct s; easy. Qed.

Lemma SFmul_pos_number prec emax a b :
  sf_pos a -> sf_pos b -> sf_number (SFmul prec emax a b).
Proof.
  destruct a as [s1|s1| |s1 m1 e1], b as [s2|s2| |s2 m2 e2];
    try destruct s1; try destruct s2; try easy.
  intros _ _. cbn. apply binary_round_aux_number. lia.
Qed.

Lemma SFeqb_refl_number a : SFeqb a a = true <-> sf_number a.
Proof.
  unfold SFeqb, SFcompare, sf_number.
  destruct a as [s|s| |s m e]; try destruct s; try easy.
  all: rewrite Z.compare_refl, Pos.compare_cont_refl; easy.
Qed.

Lemma SFeqb_zero_not_pos a :
  SFeqb a (S754_zero false) = true -> SFltb (S754_zero false) a = false.
Proof. destruct a as [s|s| |s m e]; try destruct s; easy. Qed.

(** The comparisons of binary64 are ordered as [OrderLaws] says. *)
#[global] Instance b64_order_laws : OrderLaws float.
Proof.
  split; cbn [flt fle feq fmul Binary64.model];
    change (@int float Binary64.model 0) with 0%float.
  - intros a b.
    rewrite FloatAxioms.ltb_spec, !FloatAxioms.eqb_spec, !SFeqb_refl_number.
    apply SFltb_true_number.
  - intros a.
    rewrite FloatAxioms.eqb_spec, FloatAxioms.leb_spec, SFeqb_refl_number,
      SFleb_sf_le.
    apply sf_le_refl.
  - intros a b.
    rewrite FloatAxioms.ltb_spec, FloatAxioms.leb_spec, SFleb_sf_le.
    apply SFltb_true_sf_le.
  - intros a b.
    rewrite FloatAxioms.ltb_spec, FloatAxioms.leb_spec,
      !FloatAxioms.eqb_spec, !SFeqb_refl_number, SFleb_sf_le.
    apply SFltb_false_sf_le.
  - intros a b c. rewrite !FloatAxioms.leb_spec, !SFleb_sf_le.
    apply sf_le_trans.
  - intros a. rewrite FloatAxioms.ltb_spec, FloatAxioms.eqb_spec.
    apply SFeqb_zero_not_pos.
  - intros a b.
    rewrite !FloatAxioms.ltb_spec, FloatAxioms.eqb_spec,
      FloatAxioms.mul_spec, SFeqb_refl_number.
    intros Ha Hb.
    apply SFmul_pos_number; apply SFltb_zero_pos; assumption.
  - intros []; reflexivity.
Qed.

(** ** Rounding is monotone in binary64 *)

Section Rounding.
Local Open Scope Z_scope.

(** *** Powers of two and binary digits *)

Lemma pow2_pos (k : Z) : 0 <= k -> 0 < 2 ^ k.
Proof. intros Hk. apply Z.pow_pos_nonneg; lia. Qed.

Lemma pow2_add (a b : Z) : 0 <= a -> 0 <= b -> 2 ^ (a + b) = 2 ^ a * 2 ^ b.
Proof. intros. now apply Z.pow_add_r. Qed.

Lemma pow2_succ (a : Z) : 0 <= a -> 2 ^ (a + 1) = 2 * 2 ^ a.
Proof. intros. rewrite pow2_add by lia. change (2 ^ 1) with 2. lia. Qed.

Lemma pow2_le (a b : Z) : 0 <= a <= b -> 2 ^ a <= 2 ^ b.
Proof. intros. apply Z.pow_le_mono_r; lia. Qed.

Lemma pow2_lt (a b : Z) : 0 <= a < b -> 2 ^ a < 2 ^ b.
Proof. intros. apply Z.pow_lt_mono_r; lia. Qed.

Lemma pow2_lt_inv (a b : Z) : 0 <= a -> 0 <= b -> 2 ^ a < 2 ^ b -> a < b.
Proof. intros Ha Hb H. apply (Z.pow_lt_mono_r_iff 2); lia. Qed.

Lemma digits2_pos_spec (p : positive) :
  2 ^ (Zpos (digits2_pos p) - 1) <= Zpos p < 2 ^ Zpos (digits2_pos p).
Proof.
  induction p as [p IH|p IH|]; cbn [digits2_pos].
  - rewrite Pos2Z.inj_succ, Pos2Z.inj_xI.
    replace (Z.succ (Zpos (digits2_pos p)) - 1)
      with (Zpos (digits2_pos p) - 1 + 1) by lia.
    unfold Z.succ. rewrite !pow2_succ by lia. lia.
  - rewrite Pos2Z.inj_succ, Pos2Z.inj_xO.
    replace (Z.succ (Zpos (digits2_pos p)) - 1)
      with (Zpos (digits2_pos p) - 1 + 1) by lia.
    unfold Z.succ. rewrite !pow2_succ by lia. lia.
  - cbn. lia.
Qed.

Lemma Zdigits2_spec (m : Z) :
  0 < m -> 0 < Zdigits2 m /\ 2 ^ (Zdigits2 m - 1) <= m < 2 ^ Zdigits2 m.
Proof.
  destruct m as [|p|p]; try lia. intros _. cbn [Zdigits2].
  split; [lia | apply digits2_pos_spec].
Qed.

Lemma Zdigits2_le (m k : Z) : 0 < m -> 0 <= k -> m < 2 ^ k -> Zdigits2 m <= k.
Proof.
  intros Hm Hk Hlt. destruct (Zdigits2_spec m Hm) as (Hd & Hlo & _).
  assert (2 ^ (Zdigits2 m - 1) < 2 ^ k) by lia.
  apply pow2_lt_inv in H; lia.
Qed.

Lemma Zdigits2_ge (m k : Z) : 0 < m -> 0 <= k -> 2 ^ k <= m -> k < Zdigits2 m.
Proof.
  intros Hm Hk Hle. destruct (Zdigits2_spec m Hm) as (Hd & _ & Hhi).
  assert (2 ^ k < 2 ^ Zdigits2 m) by lia.
  apply pow2_lt_inv in H; lia.
Qed.

(** *** Shifting a mantissa right *)

Lemma shr_inv_start (M : Z) :
  0 <= M -> shr_inv M 1 (shr_record_of_loc M loc_Exact).
Proof.
  intros HM. split; [exact HM|]. exists 0.
  cbn [shr_record_of_loc shr_m shr_r shr_s loc_ok]. lia.
Qed.

Lemma shr_1_inv (M P : Z) (mrs : shr_record) :
  0 < P -> shr_inv M P mrs -> shr_inv M (2 * P) (shr_1 mrs).
Proof.
  intros HP (Hm & rem & HM & Hrem & Hloc).
  destruct mrs as [m r s]. cbn [shr_m shr_r shr_s] in *.
  unfold shr_inv.
  destruct m as [|p|p]; [| |lia].
  - cbn [shr_1 shr_m shr_r shr_s]. split; [lia|]. exists rem.
    destruct r, s; cbn [orb loc_ok] in *; lia.
  - destruct p as [p|p|]; cbn [shr_1 shr_m shr_r shr_s].
    + split; [lia|]. exists (P + rem).
      rewrite Pos2Z.inj_xI in HM.
      destruct r, s; cbn [orb loc_ok] in *; lia.
    + split; [lia|]. exists rem.
      rewrite Pos2Z.inj_xO in HM.
      destruct r, s; cbn [orb loc_ok] in *; lia.
    + split; [lia|]. exists (P + rem).
      destruct r, s; cbn [orb loc_ok] in *; lia.
Qed.

Lemma iter_shr_1_inv (n : positive) (M P : Z) (mrs : shr_record) :
  0 < P -> shr_inv M P mrs ->
  shr_inv M (2 ^ Zpos n * P) (SpecFloat.iter_pos shr_1 n mrs).
Proof.
  revert P mrs. induction n as [n IH|n IH|]; intros P mrs HP Hi; cbn [SpecFloat.iter_pos].
  - pose proof (pow2_pos (Zpos n) ltac:(lia)) as Hn.
    apply shr_1_inv in Hi; [|exact HP].
    apply IH in Hi; [|lia]. apply IH in Hi; [|nia].
    replace (2 ^ Zpos n~1 * P)
      with (2 ^ Zpos n * (2 ^ Zpos n * (2 * P))); [exact Hi|].
    rewrite (Pos2Z.inj_xI n).
    replace (2 * Zpos n + 1) with (Zpos n + Zpos n + 1) by lia.
    rewrite pow2_succ, pow2_add by lia. ring.
  - pose proof (pow2_pos (Zpos n) ltac:(lia)) as Hn.
    apply IH in Hi; [|lia]. apply IH in Hi; [|nia].
    replace (2 ^ Zpos n~0 * P) with (2 ^ Zpos n * (2 ^ Zpos n * P));
      [exact Hi|].
    rewrite (Pos2Z.inj_xO n).
    replace (2 * Zpos n) with (Zpos n + Zpos n) by lia.
    rewrite pow2_add by lia. ring.
  - apply shr_1_inv in Hi; [|exact HP]. exact Hi.
Qed.

Lemma rnd_bounds (mrs : shr_record) :
  shr_m mrs <= rnd mrs <= shr_m mrs + 1.
Proof.
  unfold rnd. destruct mrs as [m [] []];
    cbn [shr_m loc_of_shr_record round_nearest_even]; try lia.
  destruct (Z.even m); lia.
Qed.

Lemma rnd_mono (M1 P1 M2 P2 : Z) (mrs1 mrs2 : shr_record) :
  0 < P1 -> 0 < P2 -> shr_inv M1 P1 mrs1 -> shr_inv M2 P2 mrs2 ->
  M1 * P2 <= M2 * P1 -> rnd mrs1 <= rnd mrs2.
Proof.
  intros HP1 HP2 (Hm1 & r1 & HM1 & Hr1 & Hl1) (Hm2 & r2 & HM2 & Hr2 & Hl2) Hle.
  pose proof (rnd_bounds mrs1) as Hb1. pose proof (rnd_bounds mrs2) as Hb2.
  destruct (Z_lt_le_dec (shr_m mrs1) (shr_m mrs2)) as [Hlt|Hge]; [lia|].
  assert (Heq : shr_m mrs1 = shr_m mrs2).
  { destruct (Z.eq_dec (shr_m mrs1) (shr_m mrs2)) as [|Hne]; [assumption|].
    exfalso. assert (Hq : shr_m mrs2 + 1 <= shr_m mrs1) by lia.
    assert (H1 : (shr_m mrs2 + 1) * (P1 * P2) <= shr_m mrs1 * (P1 * P2))
      by (apply Z.mul_le_mono_nonneg_r; nia).
    assert (H2 : r2 * P1 < P2 * P1) by (apply Z.mul_lt_mono_pos_r; lia).
    assert (H3 : 0 <= r1 * P2) by nia.
    subst M1 M2. nia. }
  assert (Hrr : r1 * P2 <= r2 * P1) by (subst M1 M2; rewrite Heq in Hle; nia).
  unfold rnd in *. destruct mrs1 as [m1 a1 s1], mrs2 as [m2 a2 s2].
  cbn [shr_m shr_r shr_s] in *. subst m2.
  destruct a1, s1, a2, s2;
    cbn [loc_ok loc_of_shr_record round_nearest_even] in *; try lia;
    try (destruct (Z.even m1); lia); nia.
Qed.

(** *** Rounding a positive mantissa *)

Lemma fexp_eq (x : Z) : fexp prec emax x = Z.max (x - 53) (-1074).
Proof. reflexivity. Qed.

Lemma shr_fexp_spec (m e : Z) :
  0 < m -> aligned m e ->
  exists mrs,
    shr_fexp prec emax m e loc_Exact
    = (mrs, fexp prec emax (Zdigits2 m + e))
    /\ shr_inv m (2 ^ (fexp prec emax (Zdigits2 m + e) - e)) mrs.
Proof.
  unfold aligned. intros Hm Ha. unfold shr_fexp, shr.
  destruct (fexp prec emax (Zdigits2 m + e) - e) as [|n|n] eqn:En; [| |lia].
  - eexists. split; [f_equal; lia|]. apply shr_inv_start. lia.
  - eexists. split; [f_equal; lia|].
    rewrite <- (Z.mul_1_r (2 ^ Z.pos n)).
    apply iter_shr_1_inv; [lia|]. apply shr_inv_start. lia.
Qed.

Lemma bra_pack (m e : Z) (l : location) :
  binary_round_aux prec emax false m e l
  = let '(mrs, E) := shr_fexp prec emax m e l in pack (rnd mrs) E.
Proof.
  unfold binary_round_aux, pack, rnd.
  destruct (shr_fexp prec emax m e l) as [mrs E]. reflexivity.
Qed.

Lemma pack_zero (E : Z) : -1074 <= E -> pack 0 E = S754_zero false.
Proof.
  intros HE. unfold pack, shr_fexp, shr. cbn [Zdigits2].
  destruct (fexp prec emax (0 + E) - E) as [|n|n] eqn:En; try reflexivity.
  rewrite fexp_eq in En. lia.
Qed.

Lemma pack_small (m E : Z) :
  -1074 <= E -> 0 < m < 2 ^ 53 ->
  pack m E = if E <=? 971 then S754_finite false (Z.to_pos m) E
             else S754_infinity false.
Proof.
  intros HE Hm. unfold pack, shr_fexp, shr.
  pose proof (Zdigits2_le m 53 ltac:(lia) ltac:(lia) ltac:(lia)) as Hd.
  destruct (fexp prec emax (Zdigits2 m + E) - E) as [|n|n] eqn:En;
    [| rewrite fexp_eq in En; lia |];
    cbn [shr_record_of_loc shr_m]; destruct m as [|p|p]; try lia;
    reflexivity.
Qed.

Lemma pack_top (E : Z) :
  -1074 <= E ->
  pack 9007199254740992 E
  = if E + 1 <=? 971 then S754_finite false 4503599627370496 (E + 1)
    else S754_infinity false.
Proof.
  intros HE. unfold pack, shr_fexp, shr.
  change (Zdigits2 9007199254740992) with 54.
  replace (fexp prec emax (54 + E) - E) with 1 by (rewrite fexp_eq; lia).
  reflexivity.
Qed.

Lemma pack_mono (a b E1 E2 : Z) :
  -1074 <= E1 <= E2 ->
  0 <= a <= 2 ^ 53 -> 0 <= b <= 2 ^ 53 ->
  (E1 = E2 -> a <= b) -> (E1 < E2 -> 2 ^ 52 <= b) ->
  sf_le (pack a E1) (pack b E2).
Proof.
  change (2 ^ 53) with 9007199254740992.
  change (2 ^ 52) with 4503599627370496.
  intros HE Ha Hb Hsame Hcross.
  assert (Ca : a = 0 \/ 0 < a < 9007199254740992 \/ a = 9007199254740992)
    by lia.
  assert (Cb : b = 0 \/ 0 < b < 9007199254740992 \/ b = 9007199254740992)
    by lia.
  destruct Ca as [-> | [Ca | ->]], Cb as [-> | [Cb | ->]];
    rewrite ?pack_zero, ?pack_top, ?(pack_small a), ?(pack_small b)
      by (try change (2 ^ 53) with 9007199254740992; lia);
    repeat match goal with
           | |- context [?x <=? ?y] => destruct (Z.leb_spec x y)
           end;
    cbn [sf_le]; try exact I; try reflexivity; try lia.
Qed.

Lemma bra_spec (m e : Z) :
  0 < m -> aligned m e ->
  exists mrs,
    binary_round_aux prec emax false m e loc_Exact
    = pack (rnd mrs) (fexp prec emax (Zdigits2 m + e))
    /\ shr_inv m (2 ^ (fexp prec emax (Zdigits2 m + e) - e)) mrs
    /\ shr_m mrs < 2 ^ 53
    /\ (-1074 < fexp prec emax (Zdigits2 m + e) -> 2 ^ 52 <= shr_m mrs).
Proof.
  intros Hm Ha.
  destruct (shr_fexp_spec m e Hm Ha) as (mrs & Hs & Hi).
  exists mrs. split; [rewrite bra_pack, Hs; reflexivity|].
  split; [exact Hi|].
  unfold aligned in Ha. rewrite fexp_eq in *.
  destruct (Zdigits2_spec m Hm) as (Hd & Hlo & Hhi).
  destruct Hi as (Hq & rem & HM & Hrem & _).
  set (E := Z.max (Zdigits2 m + e - 53) (-1074)) in *.
  set (P := 2 ^ (E - e)) in *.
  assert (HP : 0 < P) by (apply pow2_pos; lia).
  split.
  - assert (Hle : 2 ^ Zdigits2 m <= 2 ^ 53 * P).
    { unfold P. rewrite <- pow2_add by lia. apply pow2_le. lia. }
    apply (Z.mul_lt_mono_pos_r P); [exact HP|]. nia.
  - intros HE.
    assert (Heq : 2 ^ (Zdigits2 m - 1) = 2 ^ 52 * P).
    { unfold P. rewrite <- pow2_add by lia. f_equal. lia. }
    assert (Hlt : 2 ^ 52 * P < (shr_m mrs + 1) * P) by nia.
    apply Z.mul_lt_mono_pos_r in Hlt; lia.
Qed.

(** Rounding is monotone: of two positive numbers [m1 * 2 ^ e1] and
    [m2 * 2 ^ e2], the smaller is rounded to the smaller double. *)

Theorem bra_mono (m1 e1 m2 e2 : Z) :
  0 < m1 -> 0 < m2 -> aligned m1 e1 -> aligned m2 e2 ->
  -2200 <= e1 -> -2200 <= e2 ->
  m1 * 2 ^ (e1 + 2200) <= m2 * 2 ^ (e2 + 2200) ->
  sf_le (binary_round_aux prec emax false m1 e1 loc_Exact)
        (binary_round_aux prec emax false m2 e2 loc_Exact).
Proof.
  intros Hm1 Hm2 Ha1 Ha2 He1 He2 Hv.
  destruct (bra_spec m1 e1 Hm1 Ha1) as (r1 & -> & Hi1 & Hq1 & _).
  destruct (bra_spec m2 e2 Hm2 Ha2) as (r2 & -> & Hi2 & Hq2 & Hn2).
  unfold aligned in Ha1, Ha2.
  destruct (Zdigits2_spec m1 Hm1) as (Hd1 & Hlo1 & _).
  destruct (Zdigits2_spec m2 Hm2) as (Hd2 & _ & Hhi2).
  set (E1 := fexp prec emax (Zdigits2 m1 + e1)) in *.
  set (E2 := fexp prec emax (Zdigits2 m2 + e2)) in *.
  assert (Hg : Zdigits2 m1 + e1 <= Zdigits2 m2 + e2).
  { assert (H1 : 2 ^ (Zdigits2 m1 - 1 + (e1 + 2200))
                 <= m1 * 2 ^ (e1 + 2200)).
    { rewrite (pow2_add (Zdigits2 m1 - 1)) by lia.
      apply Z.mul_le_mono_nonneg_r; [|lia].
      apply Z.lt_le_incl, pow2_pos. lia. }
    assert (H2 : m2 * 2 ^ (e2 + 2200) < 2 ^ (Zdigits2 m2 + (e2 + 2200))).
    { rewrite (pow2_add (Zdigits2 m2)) by lia.
      apply Z.mul_lt_mono_pos_r; [|lia].
      apply pow2_pos. lia. }
    assert (H3 : 2 ^ (Zdigits2 m1 - 1 + (e1 + 2200))
                 < 2 ^ (Zdigits2 m2 + (e2 + 2200))) by lia.
    apply pow2_lt_inv in H3; lia. }
  assert (HE : -1074 <= E1 <= E2) by (unfold E1, E2; rewrite !fexp_eq; lia).
  pose proof (rnd_bounds r1) as Hb1. pose proof (rnd_bounds r2) as Hb2.
  pose proof (proj1 Hi1) as Hp1. pose proof (proj1 Hi2) as Hp2.
  apply pack_mono; try lia.
  intros Heq.
  apply (rnd_mono m1 (2 ^ (E1 - e1)) m2 (2 ^ (E2 - e2)));
    try assumption; try (apply pow2_pos; lia).
  rewrite <- Heq.
  set (P1 := 2 ^ (E1 - e1)). set (P2 := 2 ^ (E1 - e2)).
  set (A1 := 2 ^ (e1 + 2200)) in *. set (A2 := 2 ^ (e2 + 2200)) in *.
  set (T := 2 ^ (E1 + 2200)).
  assert (HT : 0 < T) by (apply pow2_pos; lia).
  assert (HP1 : 0 < P1) by (apply pow2_pos; lia).
  assert (HP2 : 0 < P2) by (apply pow2_pos; lia).
  assert (HT1 : T = P1 * A1).
  { unfold T, P1, A1. rewrite <- pow2_add by lia. f_equal. lia. }
  assert (HT2 : T = P2 * A2).
  { unfold T, P2, A2. rewrite <- pow2_add by lia. f_equal. lia. }
  apply (Z.mul_le_mono_pos_r _ _ T HT).
  replace (m1 * P2 * T) with (m1 * A1 * (P1 * P2)) by (rewrite HT1; ring).
  replace (m2 * P1 * T) with (m2 * A2 * (P1 * P2)) by (rewrite HT2; ring).
  apply Z.mul_le_mono_nonneg_r; [nia | exact Hv].
Qed.

(** *** The order of doubles and the order of their values *)

Lemma scaled_shift (m e k : Z) :
  -2200 <= e -> 0 <= k -> scaled (m * 2 ^ k) e = scaled m (e + k).
Proof.
  intros He Hk. unfold scaled.
  replace (e + k + 2200) with (k + (e + 2200)) by lia.
  rewrite (pow2_add k) by lia. ring.
Qed.

Lemma valid_finite (s : bool) (m : positive) (e : Z) :
  valid_binary (S754_finite s m e) = true ->
  fexp prec emax (Zdigits2 (Zpos m) + e) = e /\ e <= 971.
Proof.
  cbn [valid_binary]. unfold bounded, canonical_mantissa.
  intros H. apply andb_true_iff in H as [H1 H2].
  apply Z.eqb_eq in H1. apply Z.leb_le in H2. cbn [Zdigits2].
  split; [exact H1 | exact H2].
Qed.

Lemma canonical_bounds (m : positive) (e : Z) :
  fexp prec emax (Zdigits2 (Zpos m) + e) = e ->
  -1074 <= e /\ Zpos m < 2 ^ 53 /\ (-1074 < e -> 2 ^ 52 <= Zpos m).
Proof.
  rewrite fexp_eq. intros Hc.
  destruct (Zdigits2_spec (Zpos m) ltac:(lia)) as (Hd & Hlo & Hhi).
  split; [lia|]. split.
  - assert (2 ^ Zdigits2 (Zpos m) <= 2 ^ 53) by (apply pow2_le; lia). lia.
  - intros He. replace 52 with (Zdigits2 (Zpos m) - 1) by lia. exact Hlo.
Qed.

Lemma canonical_lt (m1 m2 : positive) (e1 e2 : Z) :
  fexp prec emax (Zdigits2 (Zpos m1) + e1) = e1 ->
  fexp prec emax (Zdigits2 (Zpos m2) + e2) = e2 ->
  e1 < e2 -> scaled (Zpos m1) e1 < scaled (Zpos m2) e2.
Proof.
  intros H1 H2 He.
  destruct (canonical_bounds m1 e1 H1) as (Hl1 & Hh1 & _).
  destruct (canonical_bounds m2 e2 H2) as (Hl2 & _ & Hn2).
  specialize (Hn2 ltac:(lia)). unfold scaled.
  assert (HA : 0 < 2 ^ (e1 + 2200)) by (apply pow2_pos; lia).
  assert (HB : 2 * 2 ^ (e1 + 2200) <= 2 ^ (e2 + 2200)).
  { rewrite <- pow2_succ by lia. apply pow2_le. lia. }
  change (2 ^ 53) with (2 * 2 ^ 52) in Hh1.
  assert (H52 : 0 < 2 ^ 52) by reflexivity.
  nia.
Qed.

Lemma sf_le_value (m1 m2 : positive) (e1 e2 : Z) :
  valid_binary (S754_finite false m1 e1) = true ->
  valid_binary (S754_finite false m2 e2) = true ->
  sf_le (S754_finite false m1 e1) (S754_finite false m2 e2) ->
  scaled (Zpos m1) e1 <= scaled (Zpos m2) e2.
Proof.
  intros H1 H2 Hle.
  apply valid_finite in H1 as [H1 _]. apply valid_finite in H2 as [H2 _].
  cbn [sf_le] in Hle. destruct Hle as [He | [-> Hm]].
  - apply Z.lt_le_incl, canonical_lt; assumption.
  - unfold scaled. apply Z.mul_le_mono_nonneg_r; [|lia].
    apply Z.lt_le_incl, pow2_pos.
    destruct (canonical_bounds m2 e2 H2). lia.
Qed.

Lemma SFltb_value (m1 m2 : positive) (e1 e2 : Z) :
  valid_binary (S754_finite false m1 e1) = true ->
  valid_binary (S754_finite false m2 e2) = true ->
  SFltb (S754_finite false m1 e1) (S754_finite false m2 e2) = true ->
  scaled (Zpos m1) e1 < scaled (Zpos m2) e2.
Proof.
  intros H1 H2 Hlt.
  apply valid_finite in H1 as [H1 _]. apply valid_finite in H2 as [H2 _].
  unfold SFltb, SFcompare in Hlt.
  change (Pos.compare_cont Eq m1 m2) with (Pos.compare m1 m2) in Hlt.
  destruct (Z.compare_spec e1 e2) as [-> | He | He]; try discriminate.
  - destruct (Pos.compare_spec m1 m2) as [|Hm|]; try discriminate.
    unfold scaled. apply Z.mul_lt_mono_pos_r; [|lia].
    apply pow2_pos. destruct (canonical_bounds m2 e2 H2). lia.
  - apply canonical_lt; assumption.
Qed.

(** *** [binary_round]: aligning, then rounding *)

Lemma iter_xO (m d : positive) :
  Zpos (Pos.iter xO m d) = Zpos m * 2 ^ Zpos d.
Proof.
  induction d as [|d IH] using Pos.peano_ind.
  - cbn [Pos.iter]. rewrite Pos2Z.inj_xO. change (2 ^ 1) with 2. lia.
  - rewrite Pos.iter_succ, (Pos2Z.inj_xO (Pos.iter xO m d)), IH,
      Pos2Z.inj_succ.
    unfold Z.succ. rewrite pow2_succ by lia. ring.
Qed.

Lemma shl_align_spec (m : positive) (e e' : Z) :
  snd (shl_align m e e') = Z.min e e'
  /\ Zpos (fst (shl_align m e e')) = Zpos m * 2 ^ (e - Z.min e e').
Proof.
  unfold shl_align. destruct (e' - e) as [|d|d] eqn:Ed; cbn [fst snd].
  - replace (Z.min e e') with e by lia. rewrite Z.sub_diag. cbn. lia.
  - replace (Z.min e e') with e by lia. rewrite Z.sub_diag. cbn. lia.
  - replace (Z.min e e') with e' by lia. split; [reflexivity|].
    rewrite iter_xO. f_equal. f_equal. lia.
Qed.

Lemma Zdigits2_unique (m n : Z) :
  0 < n -> 2 ^ (n - 1) <= m < 2 ^ n -> Zdigits2 m = n.
Proof.
  intros Hn Hm.
  assert (Hp : 0 < 2 ^ (n - 1)) by (apply pow2_pos; lia).
  pose proof (Zdigits2_le m n ltac:(lia) ltac:(lia) ltac:(lia)).
  pose proof (Zdigits2_ge m (n - 1) ltac:(lia) ltac:(lia) ltac:(lia)).
  lia.
Qed.

Lemma Zdigits2_shift (m k : Z) :
  0 < m -> 0 <= k -> Zdigits2 (m * 2 ^ k) = Zdigits2 m + k.
Proof.
  intros Hm Hk. destruct (Zdigits2_spec m Hm) as (Hd & Hlo & Hhi).
  assert (HP : 0 < 2 ^ k) by (apply pow2_pos; lia).
  apply Zdigits2_unique; [lia|].
  replace (Zdigits2 m + k - 1) with (Zdigits2 m - 1 + k) by lia.
  rewrite !pow2_add by lia. nia.
Qed.

Lemma binary_round_spec (m : positive) (e : Z) :
  -2200 <= e ->
  exists m' e',
    binary_round prec emax false m e
    = binary_round_aux prec emax false (Zpos m') e' loc_Exact
    /\ aligned (Zpos m') e' /\ -2200 <= e'
    /\ scaled (Zpos m') e' = scaled (Zpos m) e.
Proof.
  intros He. unfold binary_round.
  set (F := fexp prec emax (Zpos (digits2_pos m) + e)).
  destruct (shl_align_spec m e F) as [Hs Hf].
  destruct (shl_align m e F) as [m' e'] eqn:Es. cbn [fst snd] in Hs, Hf.
  exists m', e'. split; [reflexivity|].
  assert (HF : -1074 <= F) by (unfold F; rewrite fexp_eq; lia).
  split; [|split; [lia|]].
  - unfold aligned. rewrite Hf, Zdigits2_shift by lia. cbn [Zdigits2].
    replace (Zpos (digits2_pos m) + (e - Z.min e F) + e')
      with (Zpos (digits2_pos m) + e) by lia.
    fold F. lia.
  - rewrite Hf, scaled_shift by lia. f_equal. lia.
Qed.

Theorem binary_round_mono (m1 m2 : positive) (e1 e2 : Z) :
  -2200 <= e1 -> -2200 <= e2 ->
  scaled (Zpos m1) e1 <= scaled (Zpos m2) e2 ->
  sf_le (binary_round prec emax false m1 e1)
        (binary_round prec emax false m2 e2).
Proof.
  intros He1 He2 Hv.
  destruct (binary_round_spec m1 e1 He1) as (a1 & z1 & -> & Ha1 & Hz1 & Hv1).
  destruct (binary_round_spec m2 e2 He2) as (a2 & z2 & -> & Ha2 & Hz2 & Hv2).
  apply bra_mono; try assumption; try lia.
  unfold scaled in *. lia.
Qed.

Lemma bra_mono_scaled (m1 m2 : positive) (e1 e2 : Z) :
  aligned (Zpos m1) e1 -> aligned (Zpos m2) e2 ->
  -2200 <= e1 -> -2200 <= e2 ->
  scaled (Zpos m1) e1 <= scaled (Zpos m2) e2 ->
  sf_le (binary_round_aux prec emax false (Zpos m1) e1 loc_Exact)
        (binary_round_aux prec emax false (Zpos m2) e2 loc_Exact).
Proof. intros. apply bra_mono; try assumption; lia. Qed.

Lemma binary_round_id (m : positive) (e : Z) :
  valid_binary (S754_finite false m e) = true ->
  binary_round prec emax false m e = S754_finite false m e.
Proof.
  intros Hv. apply valid_finite in Hv as [Hc He].
  destruct (canonical_bounds m e Hc) as (Hl & Hh & _).
  unfold binary_round. cbn [Zdigits2] in Hc. rewrite Hc.
  unfold shl_align. rewrite Z.sub_diag.
  rewrite bra_pack. unfold shr_fexp. cbn [Zdigits2]. rewrite Hc, Z.sub_diag.
  cbn [shr shr_record_of_loc]. unfold rnd.
  cbn [shr_m loc_of_shr_record round_nearest_even].
  rewrite pack_small by lia.
  destruct (Z.leb_spec e 971); [reflexivity | lia].
Qed.

(** A rounded positive number is a double that is not negative. *)

Lemma binary_round_nonneg (m : positive) (e : Z) :
  -2200 <= e -> sf_le (S754_zero false) (binary_round prec emax false m e).
Proof.
  intros He.
  destruct (binary_round_spec m e He) as (a & z & -> & Ha & Hz & _).
  destruct (bra_spec (Zpos a) z ltac:(lia) Ha) as (mrs & -> & Hi & Hq & _).
  rewrite <- (pack_zero (fexp prec emax (Zdigits2 (Zpos a) + z)))
    by (rewrite fexp_eq; lia).
  pose proof (rnd_bounds mrs). pose proof (proj1 Hi).
  apply pack_mono; try lia. rewrite fexp_eq. lia.
Qed.

Lemma bra_nonneg (m : positive) (e : Z) :
  aligned (Zpos m) e ->
  sf_le (S754_zero false)
    (binary_round_aux prec emax false (Zpos m) e loc_Exact).
Proof.
  intros Ha.
  destruct (bra_spec (Zpos m) e ltac:(lia) Ha) as (mrs & -> & Hi & Hq & _).
  rewrite <- (pack_zero (fexp prec emax (Zdigits2 (Zpos m) + e)))
    by (rewrite fexp_eq; lia).
  pose proof (rnd_bounds mrs). pose proof (proj1 Hi).
  apply pack_mono; try lia. rewrite fexp_eq. lia.
Qed.

Lemma sf_le_refl_finite (s : bool) (m : positive) (e : Z) :
  sf_le (S754_finite s m e) (S754_finite s m e).
Proof. destruct s; cbn [sf_le]; lia. Qed.

Lemma sf_le_inf (a : spec_float) :
  sf_le (S754_zero false) a -> sf_le a (S754_infinity false).
Proof. destruct a as [s|s| |s m e]; try destruct s; cbn [sf_le]; easy. Qed.

Lemma scaled_pos (m : positive) (e : Z) : -2200 <= e -> 0 < scaled (Zpos m) e.
Proof.
  intros He. unfold scaled.
  pose proof (pow2_pos (e + 2200) ltac:(lia)). nia.
Qed.

Lemma shl_align_scaled (m : positive) (e ez : Z) :
  ez <= e -> -2200 <= ez ->
  scaled (Zpos (fst (shl_align m e ez))) ez = scaled (Zpos m) e.
Proof.
  intros Hz He. destruct (shl_align_spec m e ez) as [_ ->].
  rewrite scaled_shift by lia. f_equal. lia.
Qed.

(** *** Multiplication by a positive double *)

Lemma mul_aligned (mx mr : positive) (ex er : Z) :
  valid_binary (S754_finite false mx ex) = true ->
  valid_binary (S754_finite false mr er) = true ->
  aligned (Zpos (mx * mr)) (ex + er).
Proof.
  intros Hx Hr.
  apply valid_finite in Hx as [Hx _]. apply valid_finite in Hr as [Hr _].
  destruct (Zdigits2_spec (Zpos mx) ltac:(lia)) as (Hdx & Hlx & _).
  destruct (Zdigits2_spec (Zpos mr) ltac:(lia)) as (Hdr & Hlr & _).
  assert (Hd : Zdigits2 (Zpos mx) + Zdigits2 (Zpos mr) - 2
               < Zdigits2 (Zpos (mx * mr))).
  { apply Zdigits2_ge; [lia | lia |].
    replace (Zdigits2 (Zpos mx) + Zdigits2 (Zpos mr) - 2)
      with ((Zdigits2 (Zpos mx) - 1) + (Zdigits2 (Zpos mr) - 1)) by lia.
    rewrite pow2_add, Pos2Z.inj_mul by lia.
    pose proof (pow2_pos (Zdigits2 (Zpos mx) - 1) ltac:(lia)).
    pose proof (pow2_pos (Zdigits2 (Zpos mr) - 1) ltac:(lia)).
    nia. }
  unfold aligned. rewrite fexp_eq in *. lia.
Qed.

Lemma mul_scaled (mx mr : positive) (ex er : Z) :
  -1074 <= ex -> -1074 <= er ->
  scaled (Zpos (mx * mr)) (ex + er) * 2 ^ 1074
  = scaled (Zpos mx) ex * (Zpos mr * 2 ^ (er + 1074)).
Proof.
  intros Hx Hr. unfold scaled. rewrite Pos2Z.inj_mul.
  assert (HH : 2 ^ (ex + er + 2200) * 2 ^ 1074
               = 2 ^ (ex + 2200) * 2 ^ (er + 1074)).
  { rewrite <- (pow2_add (ex + er + 2200) 1074) by lia.
    rewrite <- (pow2_add (ex + 2200) (er + 1074)) by lia.
    apply (f_equal (Z.pow 2)). lia. }
  replace (Zpos mx * Zpos mr * 2 ^ (ex + er + 2200) * 2 ^ 1074)
    with (Zpos mx * Zpos mr * (2 ^ (ex + er + 2200) * 2 ^ 1074)) by ring.
  rewrite HH. ring.
Qed.

Theorem SFmul_mono (x y r : spec_float) :
  valid_binary x = true -> valid_binary y = true ->
  valid_binary r = true ->
  (exists m e, r = S754_finite false m e) ->
  sf_le (S754_zero false) x -> sf_le x y ->
  sf_le (SF64mul x r) (SF64mul y r).
Proof.
  intros Hx Hy Hr (mr & er & ->) H0 Hle. unfold SF64mul.
  destruct x as [sx|sx| |sx mx ex]; try destruct sx; cbn [sf_le] in H0;
    try easy;
    destruct y as [sy|sy| |sy my ey]; try destruct sy; cbn [sf_le] in Hle;
    try easy; cbn [SFmul xorb]; try exact I;
    try (apply bra_nonneg, mul_aligned; assumption);
    try (apply sf_le_inf, bra_nonneg, mul_aligned; assumption).
  pose proof (sf_le_value mx my ex ey Hx Hy Hle) as Hv.
  pose proof (valid_finite _ _ _ Hx) as [Cx _].
  pose proof (valid_finite _ _ _ Hy) as [Cy _].
  pose proof (valid_finite _ _ _ Hr) as [Cr _].
  destruct (canonical_bounds _ _ Cx) as (Bx & _).
  destruct (canonical_bounds _ _ Cy) as (By & _).
  destruct (canonical_bounds _ _ Cr) as (Br & _).
  apply bra_mono_scaled; try (apply mul_aligned; assumption); try lia.
  apply (Z.mul_le_mono_pos_r _ _ (2 ^ 1074)); [apply pow2_pos; lia|].
  rewrite !mul_scaled by lia.
  apply Z.mul_le_mono_nonneg_r; [|exact Hv].
  pose proof (pow2_pos (er + 1074) ltac:(lia)). nia.
Qed.

(** *** Adding to a positive double *)

Lemma SFadd_finite (mc mx : positive) (ec ex : Z) :
  -1074 <= ec -> -1074 <= ex ->
  exists S z,
    SF64add (S754_finite false mc ec) (S754_finite false mx ex)
    = binary_round prec emax false S z
    /\ -2200 <= z
    /\ scaled (Zpos S) z = scaled (Zpos mc) ec + scaled (Zpos mx) ex.
Proof.
  intros Hc Hx. unfold SF64add. cbn [SFadd cond_Zopp].
  set (z := Z.min ec ex).
  pose proof (shl_align_scaled mc ec z ltac:(lia) ltac:(lia)) as Vc.
  pose proof (shl_align_scaled mx ex z ltac:(lia) ltac:(lia)) as Vx.
  set (a := fst (shl_align mc ec z)) in *.
  set (b := fst (shl_align mx ex z)) in *.
  exists (a + b)%positive, z. split; [reflexivity|]. split; [lia|].
  rewrite <- Vc, <- Vx. unfold scaled. rewrite Pos2Z.inj_add. ring.
Qed.

Theorem SFadd_mono (c x y : spec_float) :
  valid_binary c = true -> valid_binary x = true ->
  valid_binary y = true ->
  (exists m e, c = S754_finite false m e) ->
  sf_le (S754_zero false) x -> sf_le x y ->
  sf_le (SF64add c x) (SF64add c y).
Proof.
  intros Hc Hx Hy (mc & ec & ->) H0 Hle.
  pose proof (valid_finite _ _ _ Hc) as [Cc _].
  destruct (canonical_bounds _ _ Cc) as (Bc & _).
  assert (Hfin : forall m e,
             valid_binary (S754_finite false m e) = true ->
             sf_le (S754_finite false mc ec)
               (SF64add (S754_finite false mc ec) (S754_finite false m e))).
  { intros m e Hm.
    pose proof (valid_finite _ _ _ Hm) as [Cm _].
    destruct (canonical_bounds _ _ Cm) as (Bm & _).
    destruct (SFadd_finite mc m ec e Bc Bm) as (S & z & -> & Hz & HV).
    rewrite <- (binary_round_id mc ec Hc) at 1.
    apply binary_round_mono; try lia.
    pose proof (scaled_pos m e ltac:(lia)). lia. }
  destruct x as [sx|sx| |sx mx ex]; try destruct sx; cbn [sf_le] in H0;
    try easy;
    destruct y as [sy|sy| |sy my ey]; try destruct sy; cbn [sf_le] in Hle;
    try easy; unfold SF64add; cbn [SFadd]; try exact I;
    try apply sf_le_refl_finite;
    try (apply Hfin; assumption).
  - pose proof (valid_finite _ _ _ Hx) as [Cx _].
    destruct (canonical_bounds _ _ Cx) as (Bx & _).
    destruct (SFadd_finite mc mx ec ex Bc Bx) as (S1 & z1 & E1 & Hz1 & HV1).
    unfold SF64add in E1. cbn [SFadd] in E1. rewrite E1.
    apply sf_le_inf, binary_round_nonneg. lia.
  - pose proof (valid_finite _ _ _ Hx) as [Cx _].
    destruct (canonical_bounds _ _ Cx) as (Bx & _).
    pose proof (valid_finite _ _ _ Hy) as [Cy _].
    destruct (canonical_bounds _ _ Cy) as (By & _).
    pose proof (sf_le_value mx my ex ey Hx Hy Hle) as Hv.
    destruct (SFadd_finite mc mx ec ex Bc Bx) as (S1 & z1 & E1 & Hz1 & HV1).
    destruct (SFadd_finite mc my ec ey Bc By) as (S2 & z2 & E2 & Hz2 & HV2).
    unfold SF64add in E1, E2. cbn [SFadd] in E1, E2. rewrite E1, E2.
    apply binary_round_mono; lia.
Qed.

(** *** Subtracting a positive double from a larger one *)

Lemma SFsub_finite (mx ma : positive) (ex ea : Z) :
  -1074 <= ex -> -1074 <= ea ->
  scaled (Zpos ma) ea < scaled (Zpos mx) ex ->
  exists S z,
    SF64sub (S754_finite false mx ex) (S754_finite false ma ea)
    = binary_round prec emax false S z
    /\ -2200 <= z
    /\ scaled (Zpos S) z = scaled (Zpos mx) ex - scaled (Zpos ma) ea.
Proof.
  intros Hx Ha Hlt. unfold SF64sub. cbn [SFsub cond_Zopp].
  set (z := Z.min ex ea).
  pose proof (shl_align_scaled mx ex z ltac:(lia) ltac:(lia)) as Vx.
  pose proof (shl_align_scaled ma ea z ltac:(lia) ltac:(lia)) as Va.
  set (a := fst (shl_align mx ex z)) in *.
  set (b := fst (shl_align ma ea z)) in *.
  assert (Hab : Zpos b < Zpos a).
  { unfold scaled in Vx, Va, Hlt.
    pose proof (pow2_pos (z + 2200) ltac:(lia)). nia. }
  destruct (Zpos a - Zpos b) as [|S|S] eqn:ES; try lia.
  exists S, z. split; [reflexivity|]. split; [lia|].
  rewrite <- Vx, <- Va. unfold scaled. rewrite <- ES. ring.
Qed.

Theorem SFsub_mono (a x y : spec_float) :
  valid_binary a = true -> valid_binary x = true ->
  valid_binary y = true ->
  (exists m e, a = S754_finite false m e) ->
  SFltb a x = true -> sf_le x y ->
  sf_le (S754_zero false) (SF64sub x a)
  /\ sf_le (SF64sub x a) (SF64sub y a).
Proof.
  intros Ha Hx Hy (ma & ea & ->) Hlt Hle.
  pose proof (valid_finite _ _ _ Ha) as [Ca _].
  destruct (canonical_bounds _ _ Ca) as (Ba & _).
  destruct x as [sx|sx| |sx mx ex]; try destruct sx; try discriminate Hlt;
    destruct y as [sy|sy| |sy my ey]; try destruct sy; cbn [sf_le] in Hle;
    try easy.
  - pose proof (valid_finite _ _ _ Hx) as [Cx _].
    destruct (canonical_bounds _ _ Cx) as (Bx & _).
    pose proof (SFltb_value ma mx ea ex Ha Hx Hlt) as Hax.
    destruct (SFsub_finite mx ma ex ea Bx Ba Hax) as (S1 & z1 & -> & Hz1 & HV1).
    split; [apply binary_round_nonneg; lia|].
    apply sf_le_inf, binary_round_nonneg. lia.
  - pose proof (valid_finite _ _ _ Hx) as [Cx _].
    destruct (canonical_bounds _ _ Cx) as (Bx & _).
    pose proof (valid_finite _ _ _ Hy) as [Cy _].
    destruct (canonical_bounds _ _ Cy) as (By & _).
    pose proof (SFltb_value ma mx ea ex Ha Hx Hlt) as Hax.
    pose proof (sf_le_value mx my ex ey Hx Hy Hle) as Hv.
    destruct (SFsub_finite mx ma ex ea Bx Ba Hax) as (S1 & z1 & -> & Hz1 & HV1).
    destruct (SFsub_finite my ma ey ea By Ba ltac:(lia))
      as (S2 & z2 & -> & Hz2 & HV2).
    split; [apply binary_round_nonneg; lia|].
    apply binary_round_mono; lia.
Qed.

End Rounding.

(** *** Subtraction, multiplication and addition of doubles are monotone *)

Section Monotone.
Local Open Scope float_scope.

(** Beyond a positive finite [a], [x - a] is not negative and does not
    decrease; so [u * r] and [c + u] for [u] not negative and [r], [c]
    positive and finite. *)
Lemma b64_sub_mono (a x y : float) :
  positive_finite a ->
  (a <? x) = true -> (x <=? y) = true ->
  (0 <=? x - a) = true /\ (x - a <=? y - a) = true.
Proof.
  intros Ha Hlt Hle.
  rewrite FloatAxioms.ltb_spec in Hlt.
  rewrite FloatAxioms.leb_spec, SFleb_sf_le in Hle.
  rewrite !FloatAxioms.leb_spec, !FloatAxioms.sub_spec, !SFleb_sf_le.
  apply SFsub_mono; try apply FloatAxioms.Prim2SF_valid; assumption.
Qed.

Lemma b64_mul_mono (r u v : float) :
  positive_finite r ->
  (0 <=? u) = true -> (u <=? v) = true ->
  (0 <=? u * r) = true /\ (u * r <=? v * r) = true.
Proof.
  intros Hr H0 Hle.
  rewrite FloatAxioms.leb_spec, SFleb_sf_le in H0, Hle.
  rewrite !FloatAxioms.leb_spec, !FloatAxioms.mul_spec, !SFleb_sf_le.
  change (Prim2SF 0) with (S754_zero false) in *.
  split.
  - destruct Hr as (m & e & Er).
    replace (S754_zero false)
      with (SF64mul (S754_zero false) (Prim2SF r)) at 1
      by (rewrite Er; reflexivity).
    apply SFmul_mono;
      [ reflexivity | apply FloatAxioms.Prim2SF_valid
      | apply FloatAxioms.Prim2SF_valid | exists m, e; exact Er
      | exact I | exact H0 ].
  - apply SFmul_mono; try apply FloatAxioms.Prim2SF_valid; assumption.
Qed.

Lemma b64_add_mono (c u v : float) :
  positive_finite c ->
  (0 <=? u) = true -> (u <=? v) = true ->
  (c <=? c + u) = true /\ (c + u <=? c + v) = true.
Proof.
  intros Hc H0 Hle.
  rewrite FloatAxioms.leb_spec, SFleb_sf_le in H0, Hle.
  rewrite !FloatAxioms.leb_spec, !FloatAxioms.add_spec, !SFleb_sf_le.
  change (Prim2SF 0) with (S754_zero false) in *.
  split.
  - destruct Hc as (m & e & Ec).
    replace (Prim2SF c)
      with (SF64add (Prim2SF c) (S754_zero false)) at 1
      by (rewrite Ec; reflexivity).
    apply SFadd_mono;
      [ apply FloatAxioms.Prim2SF_valid | reflexivity
      | apply FloatAxioms.Prim2SF_valid | exists m, e; exact Ec
      | exact I | exact H0 ].
  - apply SFadd_mono; try apply FloatAxioms.Prim2SF_valid; assumption.
Qed.

Lemma b64_le_trans (a b c : float) :
  (a <=? b) = true -> (b <=? c) = true -> (a <=? c) = true.
Proof.
  rewrite !FloatAxioms.leb_spec, !SFleb_sf_le. apply sf_le_trans.
Qed.

Lemma b64_le_number (a b : float) :
  (a <=? b) = true -> (a =? a) = true /\ (b =? b) = true.
Proof.
  rewrite FloatAxioms.leb_spec, !FloatAxioms.eqb_spec, !SFeqb_refl_number.
  unfold SFleb, SFcompare, sf_number.
  destruct (Prim2SF a) as [s1|s1| |s1 m1 e1],
    (Prim2SF b) as [s2|s2| |s2 m2 e2]; easy.
Qed.

Lemma b64_not_le_lt (x a : float) :
  (x =? x) = true -> (a =? a) = true ->
  (x <=? a) = false -> (a <? x) = true.
Proof.
  rewrite FloatAxioms.leb_spec, FloatAxioms.ltb_spec,
    !FloatAxioms.eqb_spec, !SFeqb_refl_number.
  unfold SFleb, SFltb, SFcompare, sf_number.
  destruct (Prim2SF x) as [s1|s1| |s1 m1 e1],
    (Prim2SF a) as [s2|s2| |s2 m2 e2];
    try destruct s1; try destruct s2; try easy.
  all: change (Pos.compare_cont Eq ?p ?q) with (Pos.compare p q).
  all: intros _ _; rewrite (Z.compare_antisym e1 e2),
         (Pos.compare_antisym m1 m2);
    destruct (e1 ?= e2)%Z, (m1 ?= m2)%positive; cbn; easy.
Qed.

(** The pieces of a slab function, [(x - a) * r] and [c + (x - a) * r],
    do not decrease beyond [a], and stay above 0 and above [c]. *)
Lemma linear_piece_mono (a r x y : float) :
  positive_finite a -> positive_finite r ->
  (a <? x) = true -> (x <=? y) = true ->
  (0 <=? (x - a) * r) = true /\ ((x - a) * r <=? (y - a) * r) = true.
Proof.
  intros Ha Hr Hlt Hle.
  destruct (b64_sub_mono a x y Ha Hlt Hle) as [H0 H1].
  apply b64_mul_mono; assumption.
Qed.

Lemma affine_piece_mono (c a r x y : float) :
  positive_finite c -> positive_finite a -> positive_finite r ->
  (a <? x) = true -> (x <=? y) = true ->
  (c <=? c + (x - a) * r) = true
  /\ (c + (x - a) * r <=? c + (y - a) * r) = true.
Proof.
  intros Hc Ha Hr Hlt Hle.
  destruct (linear_piece_mono a r x y Ha Hr Hlt Hle) as [H0 H1].
  apply b64_add_mono; assumption.
Qed.

(** [h] does not decrease beyond [lo] and stays above [c] there. *)
Lemma glue_mono (lo a c c' : float) (p q : float -> float) :
  (a =? a) = true ->
  (lo <? a) = true ->
  mono_from lo c p ->
  (p a <=? c') = true ->
  mono_from a c' q ->
  mono_from lo c (fun x => if x <=? a then p x else q x).
Proof.
  intros Na Hlo [Pm Pf] Ptop [Qm Qf]. split.
  - intros x y Hx Hxy.
    destruct (b64_le_number x y Hxy) as [Nx Ny].
    destruct (x <=? a) eqn:Exa, (y <=? a) eqn:Eya.
    + apply Pm; assumption.
    + apply b64_le_trans with (p a); [apply Pm; assumption|].
      apply b64_le_trans with c'; [exact Ptop|].
      apply Qf, b64_not_le_lt; assumption.
    + rewrite (b64_le_trans x y a Hxy Eya) in Exa. discriminate.
    + apply Qm; [|exact Hxy]. apply b64_not_le_lt; assumption.
  - intros y Hy. destruct (y <=? a) eqn:Eya.
    + apply Pf, Hy.
    + apply b64_le_trans with (p a); [apply Pf, Hlo|].
      apply b64_le_trans with c'; [exact Ptop|].
      apply Qf, b64_not_le_lt; try assumption.
      rewrite FloatAxioms.ltb_spec in Hy.
      rewrite FloatAxioms.eqb_spec, SFeqb_refl_number.
      apply (SFltb_true_number _ _ Hy).
Qed.

Lemma glue_first (a c' : float) (q : float -> float) :
  (a =? a) = true ->
  (0 <=? c') = true ->
  mono_from a c' q ->
  forall x y, (x <=? y) = true ->
    ((if x <=? a then 0 else q x) <=? (if y <=? a then 0 else q y)) = true.
Proof.
  intros Na Hc [Qm Qf] x y Hxy.
  destruct (b64_le_number x y Hxy) as [Nx Ny].
  destruct (x <=? a) eqn:Exa, (y <=? a) eqn:Eya.
  - reflexivity.
  - apply b64_le_trans with c'; [exact Hc|].
    apply Qf, b64_not_le_lt; assumption.
  - rewrite (b64_le_trans x y a Hxy Eya) in Exa. discriminate.
  - apply Qm; [|exact Hxy]. apply b64_not_le_lt; assumption.
Qed.

Lemma linear_piece (a r : float) :
  positive_finite a -> positive_finite r ->
  mono_from a 0 (fun x => (x - a) * r).
Proof.
  intros Ha Hr. split.
  - intros x y Hx Hxy. apply (linear_piece_mono a r x y); assumption.
  - intros y Hy.
    assert (Hyy : (y <=? y) = true).
    { rewrite FloatAxioms.ltb_spec in Hy.
      rewrite FloatAxioms.leb_spec, SFleb_sf_le.
      apply sf_le_refl, (SFltb_true_number _ _ Hy). }
    apply (linear_piece_mono a r y y); assumption.
Qed.

Lemma affine_piece (c a r : float) :
  positive_finite c -> positive_finite a -> positive_finite r ->
  mono_from a c (fun x => c + (x - a) * r).
Proof.
  intros Hc Ha Hr. split.
  - intros x y Hx Hxy. apply (affine_piece_mono c a r x y); assumption.
  - intros y Hy.
    assert (Hyy : (y <=? y) = true).
    { rewrite FloatAxioms.ltb_spec in Hy.
      rewrite FloatAxioms.leb_spec, SFleb_sf_le.
      apply sf_le_refl, (SFltb_true_number _ _ Hy). }
    apply (affine_piece_mono c a r y y); assumption.
Qed.
End Monotone.

(** *** The slabs in binary64 *)

Ltac b64_const := eexists; eexists; vm_compute; reflexivity.

Lemma old_slab_b64 (x : float) :
  old_slab x
  = (if x <=? 250000 then 0
     else if x <=? 500000 then (x - 250000) * 0.05
     else if x <=? 1000000 then 12500 + (x - 500000) * 0.2
     else 112500 + (x - 1000000) * 0.3)%float.
Proof. reflexivity. Qed.

Lemma new_slab_b64 (x : float) :
  new_slab x
  = (if x <=? 300000 then 0
     else if x <=? 600000 then (x - 300000) * 0.05
     else if x <=? 900000 then 15000 + (x - 600000) * 0.1
     else if x <=? 1200000 then 45000 + (x - 900000) * 0.15
     else if x <=? 1500000 then 90000 + (x - 1200000) * 0.2
     else 150000 + (x - 1500000) * 0.3)%float.
Proof. reflexivity. Qed.

Lemma old_slab_b64_mono (x y : float) :
  (x <=? y)%float = true -> (old_slab x <=? old_slab y)%float = true.
Proof.
  rewrite !old_slab_b64. revert x y.
  apply (glue_first 250000 0); [reflexivity | reflexivity |].
  apply (glue_mono 250000 500000 0 12500);
    [reflexivity | reflexivity | apply linear_piece; b64_const
    | vm_compute; reflexivity |].
  apply (glue_mono 500000 1000000 12500 112500);
    [reflexivity | reflexivity | apply affine_piece; b64_const
    | vm_compute; reflexivity |].
  apply affine_piece; b64_const.
Qed.

Lemma new_slab_b64_mono (x y : float) :
  (x <=? y)%float = true -> (new_slab x <=? new_slab y)%float = true.
Proof.
  rewrite !new_slab_b64. revert x y.
  apply (glue_first 300000 0); [reflexivity | reflexivity |].
  apply (glue_mono 300000 600000 0 15000);
    [reflexivity | reflexivity | apply linear_piece; b64_const
    | vm_compute; reflexivity |].
  apply (glue_mono 600000 900000 15000 45000);
    [reflexivity | reflexivity | apply affine_piece; b64_const
    | vm_compute; reflexivity |].
  apply (glue_mono 900000 1200000 45000 90000);
    [reflexivity | reflexivity | apply affine_piece; b64_const
    | vm_compute; reflexivity |].
  apply (glue_mono 1200000 1500000 90000 150000);
    [reflexivity | reflexivity | apply affine_piece; b64_const
    | vm_compute; reflexivity |].
  apply affine_piece; b64_const.
Qed.

(** ** Facts of the exact model *)

Import Exact.
Local Open Scope Q_scope.

Lemma Qltb_lt (a b : Q) : Qltb a b = true <-> a < b.
Proof.
  unfold Qltb. rewrite negb_true_iff, <- not_true_iff_false, Qle_bool_iff.
  split; [apply Qnot_le_lt | apply Qlt_not_le].
Qed.

Lemma Qltb_ge (a b : Q) : Qltb a b = false <-> b <= a.
Proof.
  unfold Qltb. rewrite negb_false_iff. apply Qle_bool_iff.
Qed.

Lemma Qle_bool_gt (a b : Q) : Qle_bool a b = false <-> b < a.
Proof.
  rewrite <- not_true_iff_false, Qle_bool_iff.
  split; [apply Qnot_le_lt | apply Qlt_not_le].
Qed.

(** Rounding to two decimals moves an amount by at most half a hundredth. *)
Lemma round_half_even_near (x : Q) :
  Qabs (inject_Z (round_half_even x) - x) <= 1 # 2.
Proof.
  unfold round_half_even.
  pose proof (Qfloor_le x) as Hlo. pose proof (Qlt_floor x) as Hhi.
  rewrite inject_Z_plus in Hhi. change (inject_Z 1) with 1 in Hhi.
  apply Qabs_Qle_condition.
  destruct (x - inject_Z (Qfloor x) ?= 1 # 2) eqn:Hc.
  - apply Qeq_alt in Hc.
    destruct (Z.even (Qfloor x));
      [|rewrite inject_Z_plus; change (inject_Z 1) with 1]; lra.
  - apply Qlt_alt in Hc. lra.
  - apply Qgt_alt in Hc. rewrite inject_Z_plus.
    change (inject_Z 1) with 1. lra.
Qed.

Lemma Qround2_near (q : Q) : Qabs (Qround2 q - q) <= 1 # 200.
Proof.
  unfold Qround2. rewrite Qred_correct.
  pose proof (round_half_even_near (q * 100)) as Hn.
  apply Qabs_Qle_condition in Hn. apply Qabs_Qle_condition.
  set (n := inject_Z (round_half_even (q * 100))) in *.
  unfold Qdiv. change (/ 100) with (1 # 100). lra.
Qed.

(** Reading the operations and the literals of the engine in [Q]. *)
Ltac q_consts :=
  repeat match goal with
    | |- context [Qof_decimal ?m ?e] =>
        let v := eval vm_compute in (Qof_decimal m e) in
        change (Qof_decimal m e) with v
    | H : context [Qof_decimal ?m ?e] |- _ =>
        let v := eval vm_compute in (Qof_decimal m e) in
        change (Qof_decimal m e) with v in H
    end.

Ltac q_unfold :=
  unfold int, hundredths in *;
  cbn [fle flt feq fadd fsub fmul fabs of_decimal round2 Exact.model] in *;
  q_consts.

Ltac q_cases :=
  repeat match goal with
    | |- context [Qle_bool ?a ?b] =>
        let E := fresh "E" in
        destruct (Qle_bool a b) eqn:E;
        [apply Qle_bool_iff in E | apply Qle_bool_gt in E]
    | |- context [Qltb ?a ?b] =>
        let E := fresh "E" in
        destruct (Qltb a b) eqn:E;
        [apply Qltb_lt in E | apply Qltb_ge in E]
    end.

Lemma old_slab_mono (x y : Q) : x <= y -> old_slab x <= old_slab y.
Proof. intros Hxy. unfold old_slab. q_unfold. q_cases; lra. Qed.

Lemma old_slab_lipschitz (x y : Q) :
  x <= y -> old_slab y - old_slab x <= (3 # 10) * (y - x).
Proof. intros Hxy. unfold old_slab. q_unfold. q_cases; lra. Qed.

Lemma new_slab_mono (x y : Q) : x <= y -> new_slab x <= new_slab y.
Proof. intros Hxy. unfold new_slab. q_unfold. q_cases; lra. Qed.

Lemma new_slab_lipschitz (x y : Q) :
  x <= y -> new_slab y - new_slab x <= (3 # 10) * (y - x).
Proof. intros Hxy. unfold new_slab. q_unfold. q_cases; lra. Qed.

Lemma old_slab_pieces (x : Q) :
  (x <= 250000 -> old_slab x == 0)
  /\ (250000 <= x <= 500000 -> old_slab x == (x - 250000) * (5 # 100))
  /\ (500000 <= x <= 1000000 ->
      old_slab x == 12500 + (x - 500000) * (20 # 100))
  /\ (1000000 <= x -> old_slab x == 112500 + (x - 1000000) * (30 # 100)).
Proof.
  unfold old_slab. q_unfold. repeat split; intros; q_cases; lra.
Qed.

Lemma new_slab_pieces (x : Q) :
  (x <= 300000 -> new_slab x == 0)
  /\ (300000 <= x <= 600000 -> new_slab x == (x - 300000) * (5 # 100))
  /\ (600000 <= x <= 900000 ->
      new_slab x == 15000 + (x - 600000) * (10 # 100))
  /\ (900000 <= x <= 1200000 ->
      new_slab x == 45000 + (x - 900000) * (15 # 100))
  /\ (1200000 <= x <= 1500000 ->
      new_slab x == 90000 + (x - 1200000) * (20 # 100))
  /\ (1500000 <= x -> new_slab x == 150000 + (x - 1500000) * (30 # 100)).
Proof.
  unfold new_slab. q_unfold. repeat split; intros; q_cases; lra.
Qed.

(** The comparisons of the rationals are ordered as [OrderLaws] says. *)
#[global] Instance exact_order_laws : OrderLaws Q.
Proof.
  split; cbn [flt fle feq fmul Exact.model];
    change (@int Q Exact.model 0) with 0%Q.
  - intros a b _. split; apply Qeq_bool_iff; reflexivity.
  - intros a _. apply Qle_bool_iff, Qle_refl.
  - intros a b Hl. apply Qle_bool_iff, Qlt_le_weak.
    unfold Qltb in Hl. apply negb_true_iff in Hl.
    apply Qnot_le_lt. intros Hc. apply Qle_bool_iff in Hc. congruence.
  - intros a b _ _ Hl. unfold Qltb in Hl. now apply negb_false_iff in Hl.
  - intros a b c. rewrite !Qle_bool_iff. apply Qle_trans.
  - intros a He. apply Qeq_bool_iff in He. unfold Qltb.
    apply negb_false_iff, Qle_bool_iff. rewrite He. apply Qle_refl.
  - intros a b _ _. apply Qeq_bool_iff. reflexivity.
  - intros []; reflexivity.
Qed.

(** ** The slabs *)

(** C4, as the code has it.  In each regime the slab function, before the
    rebate, is non-decreasing in the taxable income, in binary64 as in
    exact arithmetic, and it does not jump at a bracket boundary: in
    binary64 its value at the top of each bracket is the constant the next
    bracket starts from, which is also what the formula of the next
    bracket gives there.  In exact arithmetic it is linear on each bracket,
    its two ends included, and never rises faster than the top rate.  In
    binary64 each piece is the bracket's formula with every operation
    rounded, which is not a linear function. *)
Theorem slab_monotone_continuous :
  ((forall x y : float,
      (x <=? y)%float = true -> (old_slab x <=? old_slab y)%float = true)
   /\ (forall x y : float,
         (x <=? y)%float = true -> (new_slab x <=? new_slab y)%float = true)
   /\ map old_slab [250000; 500000; 1000000]%float
      = [0; 12500; 112500]%float
   /\ [ (250000 - 250000) * 0.05; 12500 + (500000 - 500000) * 0.2;
        112500 + (1000000 - 1000000) * 0.3 ]%float
      = [0; 12500; 112500]%float
   /\ map new_slab [300000; 600000; 900000; 1200000; 1500000]%float
      = [0; 15000; 45000; 90000; 150000]%float
   /\ [ (300000 - 300000) * 0.05; 15000 + (600000 - 600000) * 0.1;
        45000 + (900000 - 900000) * 0.15;
        90000 + (1200000 - 1200000) * 0.2;
        150000 + (1500000 - 1500000) * 0.3 ]%float
      = [0; 15000; 45000; 90000; 150000]%float)
  /\ (forall x y : Q, x <= y -> old_slab x <= old_slab y)
  /\ (forall x y : Q, x <= y -> new_slab x <= new_slab y)
  /\ (forall x y : Q,
        x <= y -> old_slab y - old_slab x <= (3 # 10) * (y - x))
  /\ (forall x y : Q,
        x <= y -> new_slab y - new_slab x <= (3 # 10) * (y - x))
  /\ (forall x : Q,
        (x <= 250000 -> old_slab x == 0)
        /\ (250000 <= x <= 500000 ->
            old_slab x == (x - 250000) * (5 # 100))
        /\ (500000 <= x <= 1000000 ->
            old_slab x == 12500 + (x - 500000) * (20 # 100))
        /\ (1000000 <= x ->
            old_slab x == 112500 + (x - 1000000) * (30 # 100)))
  /\ (forall x : Q,
        (x <= 300000 -> new_slab x == 0)
        /\ (300000 <= x <= 600000 ->
            new_slab x == (x - 300000) * (5 # 100))
        /\ (600000 <= x <= 900000 ->
            new_slab x == 15000 + (x - 600000) * (10 # 100))
        /\ (900000 <= x <= 1200000 ->
            new_slab x == 45000 + (x - 900000) * (15 # 100))
        /\ (1200000 <= x <= 1500000 ->
            new_slab x == 90000 + (x - 1200000) * (20 # 100))
        /\ (1500000 <= x ->
            new_slab x == 150000 + (x - 1500000) * (30 # 100))).
Proof.
  split.
  - split; [exact old_slab_b64_mono|]. split; [exact new_slab_b64_mono|].
    repeat split; vm_compute; reflexivity.
  - split; [exact old_slab_mono|]. split; [exact new_slab_mono|].
    split; [exact old_slab_lipschitz|]. split; [exact new_slab_lipschitz|].
    split; [exact old_slab_pieces | exact new_slab_pieces].
Qed.

(** In binary64 the slab of 400,000.1 is at most that of 800,000.7 in the
    Old Regime; in exact arithmetic the New-Regime slab of 750,000 is
    15,000 and 10% of 150,000. *)
Lemma slab_monotone_continuous_witness :
  (400000.1 <=? 800000.7)%float = true
  /\ (old_slab 400000.1 <=? old_slab 800000.7)%float = true
  /\ old_slab (400000 : Q) <= old_slab (800000 : Q)
  /\ new_slab (750000 : Q) == 15000 + (750000 - 600000) * (10 # 100).
Proof.
  pose proof slab_monotone_continuous
    as ((Hb & _) & Hm & _ & _ & _ & _ & Hn).
  assert (Hle : (400000.1 <=? 800000.7)%float = true) by reflexivity.
  split; [exact Hle|]. split; [apply Hb; exact Hle|]. split.
  - apply Hm. lra.
  - apply (Hn 750000). lra.
Defined.

(** C4, as stated, fails in binary64 on the word linear.  In the second
    bracket of either regime three incomes one rupee apart get taxes whose
    two steps differ, the floats being taken at their exact values; and
    the Old-Regime slab of the float 300000.1 is 2500.0049999999992, which
    is not 5% of what that float exceeds 250,000 by. *)
Lemma slab_counterexample :
  (exists v1 v2 v3 : Q,
     map (fun x => b64_exact (old_slab x)) [250001; 250002; 250003]%float
     = [Some v1; Some v2; Some v3]
     /\ ~ v2 - v1 == v3 - v2)
  /\ (exists v1 v2 v3 : Q,
     map (fun x => b64_exact (new_slab x)) [300001; 300002; 300003]%float
     = [Some v1; Some v2; Some v3]
     /\ ~ v2 - v1 == v3 - v2)
  /\ old_slab 300000.1%float = 2500.0049999999992%float
  /\ (exists x t : Q,
        b64_exact 300000.1%float = Some x
        /\ b64_exact (old_slab 300000.1%float) = Some t
        /\ ~ t == (x - 250000) * (5 # 100)).
Proof.
  split; [|split; [|split]].
  - eexists. eexists. eexists. split; [vm_compute; reflexivity|].
    intros Hq. vm_compute in Hq. discriminate Hq.
  - eexists. eexists. eexists. split; [vm_compute; reflexivity|].
    intros Hq. vm_compute in Hq. discriminate Hq.
  - vm_compute. reflexivity.
  - eexists. eexists. split; [vm_compute; reflexivity|].
    split; [vm_compute; reflexivity|].
    intros Hq. vm_compute in Hq. discriminate Hq.
Qed.

(** ** Base tax, cess and total *)

Lemma cess_rounded (b c t : Q) :
  c = b * (1 # 25) -> t = b + c ->
  c == b * (4 # 100) /\ t == b * (104 # 100)
  /\ Qabs (Qround2 t - Qround2 b * (104 # 100)) <= 51 # 5000
  /\ Qabs (Qround2 c - Qround2 b * (4 # 100)) <= 13 # 2500.
Proof.
  intros -> ->.
  pose proof (Qround2_near b) as Hb.
  pose proof (Qround2_near (b * (1 # 25))) as Hc.
  pose proof (Qround2_near (b + b * (1 # 25))) as Ht.
  apply Qabs_Qle_condition in Hb, Hc, Ht.
  repeat split; try apply Qabs_Qle_condition; lra.
Qed.

(** C2, as the code has it.  In each regime the three amounts returned are
    roundings to two decimals of three different numbers: the base tax
    after the rebate, its float product with 0.04, and the float sum of
    the two; this in every float model.  In exact arithmetic the cess
    before rounding is 4% of the base tax and the total 1.04 times it, so
    that between the returned amounts the relation holds up to the
    rounding: the total is within 0.0102 of 1.04 times the base tax, and
    the cess within 0.0052 of 4% of it.  In binary64 the product and the
    sum are rounded too, and these two bounds do not carry over. *)
Theorem cess_relation_up_to_rounding :
  (forall (F : Type) (M : FloatModel F) (data : gmap string (pyval F))
          (r : regime_result F),
     calculate_tax_old_regime data = Ok r
     \/ calculate_tax_new_regime data = Ok r ->
     exists b : F,
       base_tax r = round2 b
       /\ cess r = round2 (b * hundredths 4)%fm
       /\ total_tax_payable r = round2 (b + b * hundredths 4)%fm)
  /\ (forall data : gmap string (pyval Q),
     (forall o, old_regime_locals data = Ok o ->
        o_cess o == o_base_tax o * (4 # 100)
        /\ o_total_tax o == o_base_tax o * (104 # 100)
        /\ Qabs (total_tax_payable (old_regime_result o)
                 - base_tax (old_regime_result o) * (104 # 100))
           <= 51 # 5000
        /\ Qabs (cess (old_regime_result o)
                 - base_tax (old_regime_result o) * (4 # 100))
           <= 13 # 2500)
     /\ (forall n, new_regime_locals data = Ok n ->
        n_cess n == n_base_tax n * (4 # 100)
        /\ n_total_tax n == n_base_tax n * (104 # 100)
        /\ Qabs (total_tax_payable (new_regime_result n)
                 - base_tax (new_regime_result n) * (104 # 100))
           <= 51 # 5000
        /\ Qabs (cess (new_regime_result n)
                 - base_tax (new_regime_result n) * (4 # 100))
           <= 13 # 2500)).
Proof.
  split; [intros F M; apply returned_tax|].
  intros data. split.
  - intros o Ho. apply old_locals_inv in Ho.
    apply cess_rounded; [apply (ok_cess _ _ Ho) | apply (ok_total_tax _ _ Ho)].
  - intros n Hn. apply new_locals_inv in Hn.
    apply cess_rounded; [apply (nk_cess _ _ Hn) | apply (nk_total_tax _ _ Hn)].
Qed.

(** On a salary of 750,001: in exact arithmetic the unrounded base tax is
    25,000.1 and the unrounded total 26,000.104; in binary64 the amounts
    returned are the roundings of 25,000.1, of its product with 0.04 and
    of the sum. *)
Lemma cess_relation_up_to_rounding_witness :
  (exists n, new_regime_locals (F:=Q) odd_rupee_input = Ok n
     /\ n_base_tax n == 250001 # 10
     /\ n_total_tax n == n_base_tax n * (104 # 100)
     /\ Qabs (total_tax_payable (new_regime_result n)
              - base_tax (new_regime_result n) * (104 # 100)) <= 51 # 5000)
  /\ (exists r b,
        calculate_tax_new_regime (F:=float) odd_rupee_input = Ok r
        /\ base_tax r = round2 b
        /\ cess r = round2 (b * 0.04)%float
        /\ total_tax_payable r = round2 (b + b * 0.04)%float).
Proof.
  split.
  - destruct (new_regime_locals (F:=Q) odd_rupee_input) as [n|] eqn:Hn;
      [|vm_compute in Hn; discriminate Hn].
    exists n.
    pose proof (proj2 (proj2 cess_relation_up_to_rounding odd_rupee_input)
                  n Hn) as (_ & Ht & Hr & _).
    split; [reflexivity|].
    split; [|split; [exact Ht | exact Hr]].
    vm_compute in Hn. injection Hn as <-. reflexivity.
  - destruct (calculate_tax_new_regime (F:=float) odd_rupee_input)
      as [r|] eqn:Hr; [|vm_compute in Hr; discriminate Hr].
    destruct (proj1 cess_relation_up_to_rounding float _ odd_rupee_input r
                (or_intror Hr)) as (b & Hb & Hc & Ht).
    exists r, b. split; [reflexivity|].
    split; [exact Hb|]. split; [exact Hc | exact Ht].
Defined.

(** C2, as stated, fails.  On a salary of 750,001 the New-Regime calculator
    returns a base tax of 25,000.1, a cess of 1,000 and a total of
    26,000.1, while 1.04 times the returned base tax is 26,000.104 and 4%
    of it is 1,000.004: in exact arithmetic and in binary64 alike.  In
    binary64 the relation fails before the rounding too, and not within
    the bounds of exact arithmetic: on an interest income of
    1,234,567,890,123,456 the unrounded cess is 1/6400 away from 4% of the
    unrounded base tax, and the returned total, 385,185,181,406,518.31, is
    0.0275 away from 1.04 times the returned base tax,
    370,370,366,737,036.81, the values of the floats being taken
    exactly. *)
Lemma cess_relation_counterexample :
  (exists r, calculate_tax_new_regime (F:=Q) odd_rupee_input = Ok r
     /\ base_tax r == 250001 # 10 /\ cess r == 1000
     /\ total_tax_payable r == 260001 # 10
     /\ ~ total_tax_payable r == base_tax r * (104 # 100)
     /\ ~ cess r == base_tax r * (4 # 100))
  /\ (exists r, calculate_tax_new_regime (F:=float) odd_rupee_input = Ok r
     /\ base_tax r = 25000.1%float /\ cess r = 1000%float
     /\ total_tax_payable r = 26000.1%float
     /\ (total_tax_payable r ==? base_tax r * 1.04%float)%fm = false
     /\ (total_tax_payable r ==? base_tax r + base_tax r * 0.04%float)%fm
        = false
     /\ (cess r ==? base_tax r * 0.04%float)%fm = false)
  /\ (exists n b c,
        new_regime_locals (F:=float) large_interest_input = Ok n
        /\ Binary64.b64_exact (n_base_tax n) = Some b
        /\ Binary64.b64_exact (n_cess n) = Some c
        /\ c - b * (4 # 100) == 1 # 6400)
  /\ (exists r b t,
        calculate_tax_new_regime (F:=float) large_interest_input = Ok r
        /\ base_tax r = 370370366737036.81%float
        /\ total_tax_payable r = 385185181406518.31%float
        /\ Binary64.b64_exact (base_tax r) = Some b
        /\ Binary64.b64_exact (total_tax_payable r) = Some t
        /\ Qabs (t - b * (104 # 100)) == 11 # 400
        /\ ~ Qabs (t - b * (104 # 100)) <= 51 # 5000).
Proof.
  split; [|split; [|split]].
  - eexists. split; [vm_compute; reflexivity|]. cbn.
    repeat split; try reflexivity; intros Hq; vm_compute in Hq;
      discriminate Hq.
  - eexists. split; [vm_compute; reflexivity|]. cbn.
    repeat split; vm_compute; reflexivity.
  - eexists. eexists. eexists.
    split; [vm_compute; reflexivity|].
    split; [vm_compute; reflexivity|].
    split; [vm_compute; reflexivity|].
    vm_compute. reflexivity.
  - eexists. eexists. eexists.
    split; [vm_compute; reflexivity|].
    split; [vm_compute; reflexivity|].
    split; [vm_compute; reflexivity|].
    split; [vm_compute; reflexivity|].
    split; [vm_compute; reflexivity|].
    split; [vm_compute; reflexivity|].
    intros Hq. vm_compute in Hq. apply Hq. reflexivity.
Qed.

(** ** The HRA exemption *)

Lemma py_min3_min (a b c : Q) :
  py_min3 a b c == Qmin a (Qmin b c)
  /\ py_min3 a b c <= a /\ py_min3 a b c <= b /\ py_min3 a b c <= c.
Proof.
  unfold py_min3, py_min. q_unfold.
  destruct (Q.min_spec b c) as [[? Hbc]|[? Hbc]];
    destruct (Q.min_spec a (Qmin b c)) as [[? Ha]|[? Ha]];
    (destruct (Qltb b a) eqn:E1;
     [apply Qltb_lt in E1 | apply Qltb_ge in E1]);
    q_cases; repeat split; lra.
Qed.




(** ** The components breakdown *)

(** C9, as the code has it.  The Old-Regime result carries the eight
    components, under their names and in the order of the source, the HRA
    entry rounded to two decimals and the others as computed; the total
    reported is the rounding of the float sum of the eight amounts, taken
    in the order of the source; this in every float model.  In exact
    arithmetic the amounts before rounding add up to the total of the
    deductions exactly, and the entries as returned to within 0.01 of the
    reported total.  In binary64 each addition is rounded, and that bound
    does not carry over. *)
Theorem components_sum :
  (forall (F : Type) (M : FloatModel F) (data : gmap string (pyval F))
          (r : regime_result F),
     calculate_tax_old_regime data = Ok r ->
     exists o,
       old_regime_locals data = Ok o
       /\ components r
          = Some [ ("Standard Deduction"%string, o_std_deduction o);
                   ("80C"%string, o_ded_80c o);
                   ("80D"%string, o_ded_80d o);
                   ("80CCD(1B) (NPS)"%string, o_ded_80ccd_1b o);
                   ("80TTA"%string, o_ded_80tta o);
                   ("HRA Exemption"%string, round2 (o_hra_exemption o));
                   ("Home Loan Interest (24(b))"%string,
                    o_home_loan_interest o);
                   ("Professional Tax"%string, o_prof_tax o) ]
       /\ o_std_deduction o = int 50000
       /\ total_deductions r
          = round2 (o_std_deduction o + o_prof_tax o + o_ded_80c o
                    + o_ded_80d o + o_ded_80ccd_1b o + o_ded_80tta o
                    + o_home_loan_interest o + o_hra_exemption o)%fm)
  /\ (forall (data : gmap string (pyval Q)) (r : regime_result Q),
     calculate_tax_old_regime data = Ok r ->
     exists o entries,
       old_regime_locals data = Ok o
       /\ components r = Some entries
       /\ map fst entries = component_names
       /\ o_std_deduction o + o_ded_80c o + o_ded_80d o + o_ded_80ccd_1b o
          + o_ded_80tta o + o_hra_exemption o + o_home_loan_interest o
          + o_prof_tax o == o_total_deductions o
       /\ total_deductions r = Qround2 (o_total_deductions o)
       /\ Qabs (sum_amounts entries - total_deductions r) <= 1 # 100).
Proof.
  split.
  - intros F M data r Hr.
    unfold calculate_tax_old_regime in Hr. inv_bind Hr.
    injection Hr as <-. rename a into o. exists o.
    pose proof (old_locals_inv _ _ E) as Ho.
    split; [reflexivity|]. split; [reflexivity|].
    split; [apply (ok_std _ _ Ho)|].
    cbn [total_deductions old_regime_result].
    now rewrite (ok_total_deductions _ _ Ho).
  - unfold calculate_tax_old_regime. intros data r Hr. inv_bind Hr.
    injection Hr as <-. rename a into o. exists o. eexists.
    split; [reflexivity|]. split; [reflexivity|]. split; [reflexivity|].
    pose proof (ok_total_deductions _ _ (old_locals_inv _ _ E)) as Ht.
    q_unfold. split; [rewrite Ht; ring|]. split; [reflexivity|].
    cbn [sum_amounts fold_right snd total_deductions old_regime_result].
    pose proof (Qround2_near (o_total_deductions o)) as Hn.
    pose proof (Qround2_near (o_hra_exemption o)) as Hh.
    apply Qabs_Qle_condition in Hn, Hh. apply Qabs_Qle_condition.
    rewrite Ht in *. q_unfold. lra.
Qed.

(** Scenario 1: the components are 50,000, 150,000, 25,000 and 50,000, and
    the reported total is 275,000, in exact arithmetic and in binary64. *)
Lemma components_sum_witness :
  (exists r entries,
     calculate_tax_old_regime (F:=Q) scenario_input = Ok r
     /\ components r = Some entries
     /\ total_deductions r == 275000
     /\ Qabs (sum_amounts entries - total_deductions r) <= 1 # 100)
  /\ (exists r o,
        calculate_tax_old_regime (F:=float) scenario_input = Ok r
        /\ old_regime_locals (F:=float) scenario_input = Ok o
        /\ total_deductions r
           = round2 (50000 + o_prof_tax o + o_ded_80c o + o_ded_80d o
                     + o_ded_80ccd_1b o + o_ded_80tta o
                     + o_home_loan_interest o + o_hra_exemption o)%float
        /\ total_deductions r = 275000%float).
Proof.
  split.
  - destruct (calculate_tax_old_regime (F:=Q) scenario_input)
      as [r|] eqn:Hr; [|vm_compute in Hr; discriminate Hr].
    destruct (proj2 components_sum scenario_input r Hr)
      as (o & entries & _ & Hc & _ & _ & _ & Hs).
    exists r, entries. split; [reflexivity|]. split; [exact Hc|].
    split; [|exact Hs].
    vm_compute in Hr. injection Hr as <-. reflexivity.
  - destruct (calculate_tax_old_regime (F:=float) scenario_input)
      as [r|] eqn:Hr; [|vm_compute in Hr; discriminate Hr].
    destruct (proj1 components_sum float _ scenario_input r Hr)
      as (o & Ho & _ & Hs & Ht).
    exists r, o. split; [reflexivity|]. split; [exact Ho|].
    split; [rewrite Ht, Hs; reflexivity|].
    vm_compute in Hr. injection Hr as <-. reflexivity.
Defined.

(** C9, as stated, fails in binary64.  With 10^17 of HRA exempt and every
    other deduction at its cap the eight entries, taken exactly, add up to
    100,000,000,000,487,500, which is no float; the total reported is
    100,000,000,000,487,504, so the two differ by 4, not by a rounding to
    two decimals. *)
Lemma components_sum_counterexample :
  exists r entries s t,
    calculate_tax_old_regime (F:=float) large_hra_input = Ok r
    /\ components r = Some entries
    /\ map snd entries
       = [50000; 150000; 25000; 50000; 10000; 1e17; 200000; 2500]%float
    /\ b64_sum_amounts entries = Some s
    /\ Binary64.b64_exact (total_deductions r) = Some t
    /\ s == 100000000000487500
    /\ t == 100000000000487504
    /\ ~ Qabs (s - t) <= 1 # 100.
Proof.
  eexists. eexists. eexists. eexists.
  split; [vm_compute; reflexivity|].
  split; [vm_compute; reflexivity|].
  split; [vm_compute; reflexivity|].
  split; [vm_compute; reflexivity|].
  split; [vm_compute; reflexivity|].
  split; [vm_compute; reflexivity|].
  split; [vm_compute; reflexivity|].
  intros Hq. vm_compute in Hq. apply Hq. reflexivity.
Qed.

(** ** Scenario 2 *)

(** C3, as the code has it.  On a salary of 800,000 with no interest and
    no other income, whatever the other fields hold, the New-Regime
    calculator returns a taxable income of 750,000, a base tax of 30,000
    (15,000 on the second slab and 10% of 150,000 on the third), a cess of
    1,200 and a total of 31,200: in exact arithmetic and in binary64. *)
Theorem scenario_2_new_regime :
  (forall data : gmap string (pyval Q),
     data !! "annual_income" = Some (PyFloat (int 800000)) ->
     data !! "income_from_interest" = Some (PyFloat (int 0)) ->
     data !! "income_from_other_sources" = Some (PyFloat (int 0)) ->
     calculate_tax_new_regime data = Ok scenario_2_result)
  /\ (forall data : gmap string (pyval float),
     data !! "annual_income" = Some (PyFloat (int 800000)) ->
     data !! "income_from_interest" = Some (PyFloat (int 0)) ->
     data !! "income_from_other_sources" = Some (PyFloat (int 0)) ->
     calculate_tax_new_regime data = Ok scenario_2_result).
Proof.
  split; intros data Hs Hi Ho;
    unfold calculate_tax_new_regime, new_regime_locals, float_field,
      dict_get;
    rewrite Hs, Hi, Ho; vm_compute; reflexivity.
Qed.

Lemma scenario_2_new_regime_witness :
  calculate_tax_new_regime (F:=Q) scenario_input = Ok scenario_2_result
  /\ calculate_tax_new_regime (F:=float) scenario_input
     = Ok scenario_2_result.
Proof.
  split.
  - apply (proj1 scenario_2_new_regime); reflexivity.
  - apply (proj2 scenario_2_new_regime); reflexivity.
Defined.

(** C3, as stated, fails: on that input the calculator returns a base tax
    of 30,000, a cess of 1,200 and a total of 31,200, not 45,000, 1,800 and
    46,800. *)
Lemma scenario_2_counterexample :
  (calculate_tax_new_regime (F:=Q) scenario_input = Ok scenario_2_result
   /\ taxable_income (scenario_2_result (F:=Q)) == 750000
   /\ base_tax (scenario_2_result (F:=Q)) == 30000
   /\ Qeq_bool (base_tax scenario_2_result) 45000 = false
   /\ Qeq_bool (cess scenario_2_result) 1800 = false
   /\ Qeq_bool (total_tax_payable scenario_2_result) 46800 = false)
  /\ (calculate_tax_new_regime (F:=float) scenario_input
      = Ok scenario_2_result
   /\ taxable_income (scenario_2_result (F:=float)) = 750000%float
   /\ base_tax (scenario_2_result (F:=float)) = 30000%float
   /\ PrimFloat.eqb (base_tax scenario_2_result) 45000 = false
   /\ PrimFloat.eqb (cess scenario_2_result) 1800 = false
   /\ PrimFloat.eqb (total_tax_payable scenario_2_result) 46800 = false).
Proof.
  split; repeat split; vm_compute; reflexivity.
Qed.

(** ** The comparison *)

Lemma float_field_nonneg (data : gmap string (pyval Q)) (key : string) :
  nonneg_amount (data !! key) ->
  exists x, float_field data key = Ok x /\ 0 <= x.
Proof.
  unfold float_field, dict_get, py_or.
  destruct (data !! key) as [[ | b | z | x | s]|]; cbn; try easy.
  - intros _. exists 0. split; [reflexivity | lra].
  - intros Hz. destruct (z =? 0)%Z; cbn.
    + exists 0. split; [reflexivity | lra].
    + exists (inject_Z z). split; [reflexivity|].
      change 0 with (inject_Z 0). now rewrite <- Zle_Qle.
  - intros Hx. destruct (Qeq_bool x _); cbn.
    + exists 0. split; [reflexivity | lra].
    + exists x. split; [reflexivity | exact Hx].
  - intros _. exists 0. split; [reflexivity | lra].
Qed.






Lemma py_min_nonneg (c cap : Q) : 0 <= c -> 0 <= cap -> 0 <= py_min c cap.
Proof. intros Hc Hcap. unfold py_min. q_unfold. q_cases; lra. Qed.


Lemma field_agrees (data : gmap string (pyval Q)) (key : string) (x : Q)
    (P : Q -> Prop) :
  (exists y, float_field data key = Ok y /\ P y) ->
  float_field data key = Ok x -> P x.
Proof. intros (y & Hy & Py) Hx. rewrite Hy in Hx. now injection Hx as <-. Qed.

Lemma capped_nonneg (data : gmap string (pyval Q)) (key : string)
    (cap v : Q) :
  nonneg_amount (data !! key) -> 0 <= cap ->
  (exists c, float_field data key = Ok c /\ v = py_min c cap) -> 0 <= v.
Proof.
  intros Hn Hcap (c & Hc & ->). apply py_min_nonneg; [|exact Hcap].
  apply (field_agrees data key c (fun x => 0 <= x));
    [apply float_field_nonneg|]; assumption.
Qed.






(** ** Input coercion *)

(** C8, as the code has it.  On a record whose numeric fields are each
    absent, [None], a float or an [int] within the range of float, whose
    [state] is absent or a string and whose [city_type] is absent, [None]
    or a string, the two calculators return, and so does the comparison
    when the gaps it prints convert; an absent or [None] numeric field is
    read as 0 and an absent [state] as "Delhi".  This holds in every float
    model. *)
Theorem no_raise_on_typed_input {F : Type} `{FloatModel F}
    (data : gmap string (pyval F)) :
  well_typed data ->
  returns (calculate_tax_old_regime data)
  /\ returns (calculate_tax_new_regime data)
  /\ (gap_converts 150000 (data !! "section_80c") ->
      gap_converts 50000 (data !! "section_80ccd_1b") ->
      returns (calculate_comprehensive data))
  /\ (forall key, data !! key = None \/ data !! key = Some PyNone ->
      float_field data key = Ok (int 0))
  /\ (data !! "state" = None ->
      dict_get data "state" (PyStr "Delhi") = PyStr "Delhi").
Proof.
  intros Hw.
  destruct (old_regime_returns data Hw) as [o Ho].
  destruct (new_regime_returns data Hw) as [n Hn].
  split; [|split; [|split; [|split]]].
  - exists (old_regime_result o). unfold calculate_tax_old_regime.
    now rewrite Ho.
  - exists (new_regime_result n). unfold calculate_tax_new_regime.
    now rewrite Hn.
  - apply comprehensive_returns, Hw.
  - apply float_field_absent.
  - intros Hs. unfold dict_get. now rewrite Hs.
Qed.

(** In binary64: an [int] salary of 900,000, 80C and the city type [None],
    every other field absent. *)
Lemma no_raise_on_typed_input_witness :
  well_typed (sparse_input (F:=float))
  /\ returns (calculate_tax_old_regime (F:=float) sparse_input)
  /\ returns (calculate_comprehensive (F:=float) sparse_input)
  /\ float_field (F:=float) sparse_input "section_80c" = Ok 0%float.
Proof.
  assert (Hw : well_typed (sparse_input (F:=float))).
  { split; [|split; exact I].
    repeat (apply List.Forall_cons;
            [first [exact I | vm_compute; eexists; reflexivity]|]).
    apply List.Forall_nil. }
  destruct (no_raise_on_typed_input sparse_input Hw)
    as (Ho & _ & Hc & Hz & _).
  split; [exact Hw|]. split; [exact Ho|]. split.
  - apply Hc; vm_compute; eexists; reflexivity.
  - apply Hz. right. reflexivity.
Defined.

(** C8, as stated, fails.  A salary of ["abc"] makes [float] raise
    [ValueError] in the two calculators and in the comparison; a [state] of
    [None] makes the Old-Regime calculator raise [AttributeError]; and an
    80C amount of ["100"], which the Old-Regime calculator reads as 100,
    makes the comparison raise [TypeError].  In binary64 an [int] beyond
    the range of float raises [OverflowError]. *)
Lemma no_raise_counterexample :
  (calculate_tax_old_regime (F:=float) text_input = Raise ValueError
   /\ calculate_tax_new_regime (F:=float) text_input = Raise ValueError
   /\ calculate_comprehensive (F:=float) text_input = Raise ValueError)
  /\ (calculate_tax_old_regime (F:=Q) text_input = Raise ValueError
   /\ calculate_tax_new_regime (F:=Q) text_input = Raise ValueError
   /\ calculate_comprehensive (F:=Q) text_input = Raise ValueError)
  /\ calculate_tax_old_regime (F:=float) none_state_input
     = Raise AttributeError
  /\ (returns (calculate_tax_old_regime (F:=float) numeric_text_input)
      /\ calculate_comprehensive (F:=float) numeric_text_input
         = Raise TypeError)
  /\ calculate_tax_new_regime (F:=float)
       {[ "annual_income" := PyInt (10 ^ 400) ]} = Raise OverflowError.
Proof.
  repeat split; try (vm_compute; reflexivity).
  eexists. vm_compute. reflexivity.
Qed.

(** * The code around the calculators

    What follows covers the functions the properties above leave out: what
    the calculators read of a record, the comparison's saving and
    suggestions, and the validation [app.py] runs before the comparison. *)

Local Close Scope Q_scope.

(** ** Strings: [lower] and [strip] *)

Lemma ascii_lower_idem (a : ascii) : ascii_lower (ascii_lower a) = ascii_lower a.
Proof. destruct a as [[] [] [] [] [] [] [] []]; reflexivity. Qed.

Lemma space_ascii_lower (a : ascii) :
  is_py_space (ascii_lower a) = is_py_space a.
Proof. destruct a as [[] [] [] [] [] [] [] []]; reflexivity. Qed.

Lemma lower_idem (s : string) : lower (lower s) = lower s.
Proof.
  induction s as [|a r IH]; cbn; [reflexivity|].
  now rewrite ascii_lower_idem, IH.
Qed.

Lemma lower_lstrip (s : string) : lower (lstrip s) = lstrip (lower s).
Proof.
  induction s as [|a r IH]; cbn; [reflexivity|].
  rewrite space_ascii_lower. destruct (is_py_space a); [exact IH|reflexivity].
Qed.

Lemma lower_rstrip (s : string) : lower (rstrip s) = rstrip (lower s).
Proof.
  induction s as [|a r IH]; cbn; [reflexivity|].
  rewrite <- IH, space_ascii_lower.
  destruct (rstrip r); cbn; [destruct (is_py_space a)|]; reflexivity.
Qed.

Lemma lower_strip (s : string) : lower (strip s) = strip (lower s).
Proof. unfold strip. now rewrite lower_rstrip, lower_lstrip. Qed.

Lemma lstrip_idem (s : string) : lstrip (lstrip s) = lstrip s.
Proof.
  induction s as [|a r IH]; cbn; [reflexivity|].
  destruct (is_py_space a) eqn:E; [exact IH|]. cbn. now rewrite E.
Qed.

Lemma rstrip_idem (s : string) : rstrip (rstrip s) = rstrip s.
Proof.
  induction s as [|a r IH]; cbn; [reflexivity|].
  destruct (rstrip r) as [|b r'] eqn:Er.
  - destruct (is_py_space a) eqn:E; cbn; [reflexivity|]. now rewrite E.
  - change (rstrip (String a (String b r')))
      with (match rstrip (String b r') with
            | EmptyString =>
                if is_py_space a then EmptyString else String a EmptyString
            | r'' => String a r''
            end).
    now rewrite IH.
Qed.

Lemma lstrip_rstrip (s : string) : lstrip (rstrip s) = rstrip (lstrip s).
Proof.
  induction s as [|a r IH]; cbn; [reflexivity|].
  destruct (is_py_space a) eqn:E.
  - rewrite <- IH. destruct (rstrip r); cbn; [reflexivity|].
    now rewrite E.
  - cbn. destruct (rstrip r); cbn; now rewrite E.
Qed.

Lemma strip_idem (s : string) : strip (strip s) = strip s.
Proof.
  unfold strip. now rewrite lstrip_rstrip, lstrip_idem, rstrip_idem.
Qed.

(** ** What the calculators read of a record *)

Section Frames.
Context {F : Type} `{FloatModel F}.

Lemma new_regime_frame (data data' : gmap string (pyval F)) :
  Forall (fun key => float_field data key = float_field data' key)
    income_fields ->
  new_regime_locals data = new_regime_locals data'.
Proof.
  intros Ha. unfold income_fields in Ha.
  repeat match type of Ha with
         | Forall _ (_ :: _) =>
             let Hk := fresh "Hk" in apply Forall_cons in Ha as [Hk Ha]
         end.
  unfold new_regime_locals. now rewrite Hk, Hk0, Hk1.
Qed.

Lemma old_regime_frame (data data' : gmap string (pyval F)) :
  Forall (fun key => float_field data key = float_field data' key)
    numeric_fields ->
  data !! "state" = data' !! "state" ->
  data !! "city_type" = data' !! "city_type" ->
  old_regime_locals data = old_regime_locals data'.
Proof.
  intros Ha Hs Hc. unfold numeric_fields in Ha.
  repeat match type of Ha with
         | Forall _ (_ :: _) =>
             let Hk := fresh "Hk" in apply Forall_cons in Ha as [Hk Ha]
         end.
  unfold old_regime_locals, hra_exemption, is_metro, dict_get.
  now rewrite Hk, Hk0, Hk1, Hk2, Hk3, Hk4, Hk5, Hk6, Hk7, Hk8, Hs, Hc.
Qed.

(** X1. The calculators depend on the record only through what [float]
    reads in its numeric fields and, for the Old Regime, through the state
    and the city type: two records whose three income fields are read
    alike get the same New-Regime result, whatever else they hold, and two
    records whose ten numeric fields are read alike and whose state and
    city type are the same get the same Old-Regime result. *)
Theorem regimes_read_their_fields (data data' : gmap string (pyval F)) :
  Forall (fun key => float_field data key = float_field data' key)
    income_fields ->
  calculate_tax_new_regime data = calculate_tax_new_regime data'
  /\ (Forall (fun key => float_field data key = float_field data' key)
        numeric_fields ->
      data !! "state" = data' !! "state" ->
      data !! "city_type" = data' !! "city_type" ->
      calculate_tax_old_regime data = calculate_tax_old_regime data').
Proof.
  intros Hi. split.
  - unfold calculate_tax_new_regime. now rewrite (new_regime_frame _ _ Hi).
  - intros Hn Hs Hc. unfold calculate_tax_old_regime.
    now rewrite (old_regime_frame _ _ Hn Hs Hc).
Qed.

Lemma professional_tax_amounts (state : pyval F) (gross_income p : F) :
  get_professional_tax state gross_income = Ok p ->
  p = int 0 \/ p = int 2000 \/ p = int 2500.
Proof.
  unfold get_professional_tax. destruct state; try discriminate.
  cbv zeta. destruct (bool_decide _); [|intros [= <-]; auto].
  destruct (_ <? gross_income)%fm; [intros [= <-]; auto|].
  destruct (_ <? gross_income)%fm; intros [= <-]; auto.
Qed.

Lemma locals_same_income (data : gmap string (pyval F))
    (o : old_locals F) (n : new_locals F) :
  old_regime_locals data = Ok o -> new_regime_locals data = Ok n ->
  o_salary o = n_salary n /\ o_gross_income o = n_gross_income n.
Proof.
  intros Ho Hn. apply old_locals_inv in Ho. apply new_locals_inv in Hn.
  destruct (ok_gross _ _ Ho) as (i & t & Ei & Et & Hg).
  destruct (nk_gross _ _ Hn) as (i' & t' & Ei' & Et' & Hg').
  pose proof (ok_salary _ _ Ho) as Hs. pose proof (nk_salary _ _ Hn) as Hs'.
  rewrite Hs in Hs'. injection Hs' as Hs'.
  rewrite Ei in Ei'. injection Ei' as <-.
  rewrite Et in Et'. injection Et' as <-.
  split; [exact Hs'|]. now rewrite Hg, Hg', Hs'.
Qed.

(** What [calculate_comprehensive] returns, field by field. *)
Lemma comprehensive_fields (data : gmap string (pyval F))
    (c : comparison F) :
  calculate_comprehensive data = Ok c ->
  tax_saved c =
    round2 (fabs (total_tax_payable (old_regime c)
                  - total_tax_payable (new_regime c))%fm)
  /\ exists s1 s2,
       suggest_gap data "section_80c" 150000 suggestion_80c = Ok s1
       /\ suggest_gap data "section_80ccd_1b" 50000 suggestion_nps = Ok s2
       /\ suggestions c =
          (s1 ++ s2 ++
           (if py_eq_zero
                 (py_or (dict_get data "section_80d" PyNone) (PyInt 0))
            then [suggestion_80d] else []))%list.
Proof.
  unfold calculate_comprehensive. intros Hc.
  do 4 inv_bind Hc. cbv zeta in Hc. injection Hc as <-. cbn. eauto 6.
Qed.

(** X2. The state and the city type are read without regard to case and
    to surrounding white space.  [get_professional_tax] lower-cases and
    then strips, the metro test strips and then lower-cases; the two
    orders give the same name, and the Professional Tax of a state and the
    metro test of a city type are those of its lower-case form and of its
    stripped form. *)
Theorem names_are_normalised (s : string) (gross_income : F)
    (data : gmap string (pyval F)) :
  strip (lower s) = lower (strip s)
  /\ get_professional_tax (PyStr (lower s)) gross_income
     = get_professional_tax (PyStr s) gross_income
  /\ get_professional_tax (PyStr (strip s)) gross_income
     = get_professional_tax (PyStr s) gross_income
  /\ is_metro (<[ "city_type" := PyStr (lower s) ]> data)
     = is_metro (<[ "city_type" := PyStr s ]> data)
  /\ is_metro (<[ "city_type" := PyStr (strip s) ]> data)
     = is_metro (<[ "city_type" := PyStr s ]> data).
Proof.
  assert (Hm : forall t : string,
            py_strip_lower (F:=F) (py_or (PyStr t) (PyStr ""))
            = Ok (lower (strip t))) by (intros t; destruct t; reflexivity).
  split; [symmetry; apply lower_strip|].
  unfold get_professional_tax, is_metro, dict_get.
  rewrite !lookup_insert_eq. cbn [default from_option id].
  rewrite !Hm, lower_idem, !lower_strip, lower_idem, !strip_idem.
  repeat split; reflexivity.
Qed.

End Frames.

(** In binary64: the record of the form and the same record with the state
    and the city type spelt otherwise and one more entry; and the same
    record with another age. *)
Lemma regimes_read_their_fields_witness :
  calculate_tax_new_regime (F:=float) form_input
  = calculate_tax_new_regime form_input_respelt
  /\ calculate_tax_old_regime (F:=float) form_input
     = calculate_tax_old_regime (<[ "age" := PyInt 31 ]> form_input).
Proof.
  split.
  - apply (regimes_read_their_fields form_input form_input_respelt).
    repeat (apply List.Forall_cons; [vm_compute; reflexivity|]).
    apply List.Forall_nil.
  - apply (regimes_read_their_fields form_input
             (<[ "age" := PyInt 31 ]> form_input));
      [| | reflexivity | reflexivity];
      repeat (apply List.Forall_cons; [vm_compute; reflexivity|]);
      apply List.Forall_nil.
Defined.

(** ** The validation layer *)

(** An equation between closed terms, by evaluation. *)
Ltac by_vm :=
  match goal with
  | |- _ = ?r => vm_cast_no_check (eq_refl r)
  end.

Section ValidationFacts.
Context {F : Type} `{FloatModel F} `{FloatToInt F}.

Lemma to_number_shape (v : pyval F) (dflt : Z) (u : pyval F) :
  to_number v dflt = Ok u -> u = PyInt dflt \/ exists x, u = PyFloat x.
Proof.
  unfold to_number.
  destruct v; [intros [= <-]; auto | ..];
    (match goal with
     | |- context [py_float ?a] => destruct (py_float a) as [y|[]]
     end; intros [= <-]; eauto).
Qed.

Lemma nonneg_field_shape (raw : gmap string (pyval F)) (key : string)
    (u : pyval F) :
  nonneg_field raw key = Ok u ->
  u = PyInt 0 \/ exists x, u = PyFloat x /\ (x >? int 0)%fm = true.
Proof.
  unfold nonneg_field, py_max_zero. intros Hu. inv_bind Hu.
  destruct (to_number_shape _ _ _ E) as [-> | [x ->]]; cbn in Hu.
  - injection Hu as <-. auto.
  - destruct (_ <? x)%fm eqn:Ex; injection Hu as <-; eauto.
Qed.

Lemma capped_field_shape (raw : gmap string (pyval F)) (key : string)
    (cap : N) (u : pyval F) :
  capped_field raw key cap = Ok u ->
  u = PyInt 0 \/ u = PyInt (Z.of_N cap)
  \/ exists x, u = PyFloat x /\ (x >? int 0)%fm = true
                /\ (x >? int cap)%fm = false.
Proof.
  unfold capped_field, py_min_cap. intros Hu. inv_bind Hu.
  destruct (nonneg_field_shape _ _ _ E) as [-> | (x & -> & Hx)]; cbn in Hu.
  - destruct (Z.of_N cap <? 0)%Z; injection Hu as <-; auto.
  - destruct (_ <? x)%fm eqn:Ex; injection Hu as <-; eauto 6.
Qed.

Lemma sanitize_annual_inv (raw : gmap string (pyval F)) (u : pyval F)
    (w : list string) :
  sanitize_annual_income raw = Ok (u, w) ->
  exists a0,
    to_number (dict_get raw "annual_income" PyNone) 0 = Ok a0
    /\ ((u = PyInt 0 /\ py_lt_int a0 0 = Ok true
         /\ w = ["Annual income was negative; treated as 0."])
        \/ (u = PyInt (Z.of_N MAX_ANNUAL_INCOME)
            /\ py_gt_int a0 MAX_ANNUAL_INCOME = Ok true
            /\ w = ["Annual income capped at ₹100000000 for this calculator."])
        \/ (u = a0 /\ py_lt_int a0 0 = Ok false
            /\ py_gt_int a0 MAX_ANNUAL_INCOME = Ok false /\ w = [])).
Proof.
  unfold sanitize_annual_income. intros Hv.
  inv_bind Hv. rename a into a0. inv_bind Hv. exists a0.
  split; [reflexivity|]. destruct a.
  - cbn in Hv. injection Hv as <- <-. left. auto.
  - cbv beta iota in Hv. inv_bind Hv. destruct a; injection Hv as <- <-.
    + right. left. auto.
    + right. right. auto.
Qed.

Lemma sanitize_age_inv (raw : gmap string (pyval F)) (age : Z)
    (w : list string) :
  sanitize_age raw = Ok (age, w) -> (MIN_AGE <= age <= MAX_AGE)%Z.
Proof.
  unfold sanitize_age, MIN_AGE, MAX_AGE. intros Hv. do 2 inv_bind Hv.
  destruct (_ || _) eqn:E1; injection Hv as <- <-; [lia|].
  apply orb_false_iff in E1 as [E1 E2].
  apply Z.ltb_ge in E1, E2. lia.
Qed.

Lemma sanitize_state_inv (raw : gmap string (pyval F)) (state : string)
    (w : list string) :
  sanitize_state raw = Ok (state, w) ->
  lower state ∈ ALLOWED_STATES /\ exists s, state = strip s.
Proof.
  unfold sanitize_state. intros Hv. inv_bind Hv.
  unfold py_strip in E. destruct (py_or _ _); try discriminate.
  injection E as <-.
  destruct (bool_decide _) eqn:Eb; injection Hv as <- <-.
  - split; [now apply bool_decide_eq_true_1 in Eb | eauto].
  - split; [apply (bool_decide_unpack _); vm_compute; exact I|].
    exists "Delhi". reflexivity.
Qed.

Lemma sanitize_city_inv (raw : gmap string (pyval F)) (ct : string) :
  sanitize_city_type raw = Ok ct ->
  lower ct ∈ ["metro"; "non-metro"] /\ exists s, ct = strip s.
Proof.
  unfold sanitize_city_type. intros Hv. inv_bind Hv.
  unfold py_strip in E. destruct (py_or _ _); try discriminate.
  injection E as <-. injection Hv as <-.
  destruct (bool_decide _) eqn:Eb.
  - split; [now apply bool_decide_eq_true_1 in Eb | eauto].
  - split; [apply (bool_decide_unpack _); vm_compute; exact I|].
    exists "Non-Metro". reflexivity.
Qed.

(** No block appends more than one warning. *)
Lemma sanitize_annual_warns (raw : gmap string (pyval F)) (u : pyval F)
    (w : list string) :
  sanitize_annual_income raw = Ok (u, w) -> (length w <= 1)%nat.
Proof.
  intros Hu. apply sanitize_annual_inv in Hu as (a0 & _ & Hu).
  destruct Hu as [(_ & _ & ->) | [(_ & _ & ->) | (_ & _ & _ & ->)]];
    cbn; lia.
Qed.

Lemma sanitize_age_warns (raw : gmap string (pyval F)) (age : Z)
    (w : list string) :
  sanitize_age raw = Ok (age, w) -> (length w <= 1)%nat.
Proof.
  unfold sanitize_age. intros Hv. do 2 inv_bind Hv.
  destruct (_ || _); injection Hv as <- <-; cbn; lia.
Qed.

Lemma sanitize_state_warns (raw : gmap string (pyval F)) (state : string)
    (w : list string) :
  sanitize_state raw = Ok (state, w) -> (length w <= 1)%nat.
Proof.
  unfold sanitize_state. intros Hv. inv_bind Hv.
  destruct (bool_decide _); injection Hv as <- <-; cbn; lia.
Qed.

(** What [validate_and_sanitize_inputs] returns: each field of the record
    comes from its block, and the warnings are those of the income, the
    age and the state, in that order. *)
Lemma validate_inv (raw data : gmap string (pyval F)) (w : list string) :
  validate_and_sanitize_inputs raw = Ok (data, w) ->
  exists annual w_income age w_age state w_state ct,
    sanitize_annual_income raw = Ok (annual, w_income)
    /\ sanitize_age raw = Ok (age, w_age)
    /\ sanitize_state raw = Ok (state, w_state)
    /\ sanitize_city_type raw = Ok ct
    /\ w = (w_income ++ w_age ++ w_state)%list
    /\ data !! "annual_income" = Some annual
    /\ data !! "age" = Some (PyInt age)
    /\ data !! "state" = Some (PyStr state)
    /\ data !! "city_type" = Some (PyStr ct)
    /\ Forall (fun key => exists u,
          nonneg_field raw key = Ok u /\ data !! key = Some u)
        [ "income_from_interest"; "income_from_other_sources";
          "hra_received"; "rent_paid" ]
    /\ Forall (fun '(key, cap) => exists u,
          capped_field raw key cap = Ok u /\ data !! key = Some u)
        [ ("section_80c", MAX_DEDUCTION_80C);
          ("section_80d", MAX_DEDUCTION_80D);
          ("section_80ccd_1b", MAX_DEDUCTION_80CCD_1B);
          ("section_80tta", MAX_DEDUCTION_80TTA);
          ("home_loan_interest", MAX_HOME_LOAN_INTEREST) ].
Proof.
  unfold validate_and_sanitize_inputs. intros Hv.
  do 13 (inv_bind Hv;
         repeat match goal with p : (_ * _)%type |- _ => destruct p end).
  injection Hv as <- <-.
  do 7 eexists.
  do 9 (split; [reflexivity|]).
  split; repeat (apply List.Forall_cons; [eexists; split; [eassumption|reflexivity]|]);
    apply List.Forall_nil.
Qed.

Lemma annual_income_shape (raw : gmap string (pyval F)) (u : pyval F)
    (w : list string) :
  sanitize_annual_income raw = Ok (u, w) ->
  sanitized_amount false (Some MAX_ANNUAL_INCOME) u.
Proof.
  intros Hu. apply sanitize_annual_inv in Hu as (a0 & Ha & Hu).
  destruct Hu as [(-> & _) | [(-> & _) | (-> & Hn & Hc & _)]].
  - left. reflexivity.
  - right. left. eauto.
  - destruct (to_number_shape _ _ _ Ha) as [-> | [x ->]].
    + left. reflexivity.
    + right. right. exists x. cbn in Hn, Hc.
      injection Hn as Hn. injection Hc as Hc. auto.
Qed.

Lemma nonneg_amount_shape (raw : gmap string (pyval F)) (key : string)
    (u : pyval F) :
  nonneg_field raw key = Ok u -> sanitized_amount true None u.
Proof.
  intros Hu. destruct (nonneg_field_shape _ _ _ Hu) as [-> | (x & -> & Hx)].
  - left. reflexivity.
  - right. right. eauto.
Qed.

Lemma capped_amount_shape (raw : gmap string (pyval F)) (key : string)
    (cap : N) (u : pyval F) :
  capped_field raw key cap = Ok u -> sanitized_amount true (Some cap) u.
Proof.
  intros Hu.
  destruct (capped_field_shape _ _ _ _ Hu) as [-> | [-> | (x & -> & Hx)]].
  - left. reflexivity.
  - right. left. eauto.
  - right. right. eauto.
Qed.

Lemma sanitized_amounts_shape (raw data : gmap string (pyval F))
    (w : list string) :
  validate_and_sanitize_inputs raw = Ok (data, w) ->
  Forall (fun '(key, lower_open, cap) => exists u,
            data !! key = Some u /\ sanitized_amount lower_open cap u)
    amount_bounds.
Proof.
  intros Hv.
  apply validate_inv in Hv
    as (annual & w1 & age & w2 & state & w3 & ct & Ha & _ & _ & _ & _
        & Hannual & _ & _ & _ & Hn & Hc).
  repeat match goal with
         | H : Forall _ (_ :: _) |- _ =>
             let Hk := fresh "Hk" in apply Forall_cons in H as [Hk H]
         end.
  repeat match goal with
         | H : exists u, _ /\ _ |- _ =>
             let u := fresh "u" in
             let E := fresh "E" in
             let L := fresh "L" in
             destruct H as (u & E & L)
         end.
  unfold amount_bounds.
  repeat (apply List.Forall_cons;
          [eexists; split; [eassumption|];
           eauto using annual_income_shape, nonneg_amount_shape,
             capped_amount_shape|]).
  apply List.Forall_nil.
Qed.

(** X3. The record the validation returns: each amount is the [int] 0,
    the [int] cap of its field, or a float the tests left alone (above 0,
    for the annual income not below 0, and not above the cap); the age is
    an [int] from 18 to 120; the state is a stripped string whose
    lower-case form is in the list of allowed states; the city type is a
    stripped string that reads "metro" or "non-metro"; and at most three
    warnings come with it. *)
Theorem sanitized_record_shape (raw data : gmap string (pyval F))
    (w : list string) :
  validate_and_sanitize_inputs raw = Ok (data, w) ->
  Forall (fun '(key, lower_open, cap) => exists u,
            data !! key = Some u /\ sanitized_amount lower_open cap u)
    amount_bounds
  /\ (exists age, data !! "age" = Some (PyInt age)
                  /\ (MIN_AGE <= age <= MAX_AGE)%Z)
  /\ (exists state, data !! "state" = Some (PyStr state)
                    /\ lower state ∈ ALLOWED_STATES /\ strip state = state)
  /\ (exists ct, data !! "city_type" = Some (PyStr ct)
                 /\ lower ct ∈ ["metro"; "non-metro"] /\ strip ct = ct)
  /\ (length w <= 3)%nat.
Proof.
  intros Hv. split; [exact (sanitized_amounts_shape _ _ _ Hv)|].
  apply validate_inv in Hv
    as (annual & w1 & age & w2 & state & w3 & ct & Ha & Hage & Hstate & Hcity
        & -> & _ & Eage & Estate & Ecity & _ & _).
  apply sanitize_annual_warns in Ha.
  pose proof (sanitize_age_warns _ _ _ Hage) as Hw2.
  pose proof (sanitize_state_warns _ _ _ Hstate) as Hw3.
  apply sanitize_age_inv in Hage.
  apply sanitize_state_inv in Hstate as (Hs1 & s & ->).
  apply sanitize_city_inv in Hcity as (Hc1 & t & ->).
  split; [eauto|]. split; [eauto using strip_idem|].
  split; [eauto using strip_idem|].
  rewrite !length_app. lia.
Qed.

(** X4. An age outside the bounds is replaced by the nearer bound, not
    by the 30 the warning announces: when the age warning is among the
    warnings, the age [int] read was below 18 and the record holds 18, or
    it was above 120 and the record holds 120. *)
Theorem age_out_of_bounds_is_clamped (raw data : gmap string (pyval F))
    (w : list string) :
  validate_and_sanitize_inputs raw = Ok (data, w) ->
  "Age should be between 18 and 120; using 30 for calculations." ∈ w ->
  exists a given,
    to_number (dict_get raw "age" PyNone) 30 = Ok a
    /\ py_int a = Ok given
    /\ ((given < MIN_AGE)%Z /\ data !! "age" = Some (PyInt MIN_AGE)
        \/ (MAX_AGE < given)%Z /\ data !! "age" = Some (PyInt MAX_AGE)).
Proof.
  intros Hv Hin.
  apply validate_inv in Hv
    as (annual & w1 & age & w2 & state & w3 & ct & Ha & Hage & Hstate & _
        & -> & _ & Eage & _).
  apply sanitize_annual_inv in Ha as (a0 & _ & Ha).
  assert (Hw3 : w3 = []
                \/ w3 = ["State not in list; using Delhi for Professional Tax."]).
  { unfold sanitize_state in Hstate. inv_bind Hstate.
    destruct (bool_decide _); injection Hstate as _ <-; auto. }
  unfold sanitize_age in Hage. do 2 inv_bind Hage.
  match goal with
  | E2 : py_int ?a = Ok ?g |- _ => exists a, g; rename g into given
  end.
  split; [first [reflexivity | assumption]|].
  split; [first [reflexivity | assumption]|].
  destruct ((given <? MIN_AGE)%Z || (MAX_AGE <? given)%Z) eqn:Eo;
    injection Hage as <- <-.
  - rewrite Eage. unfold MIN_AGE, MAX_AGE in *.
    apply orb_true_iff in Eo as [Eo | Eo]; apply Z.ltb_lt in Eo;
      [left | right]; (split; [exact Eo|]); do 2 f_equal; lia.
  - exfalso. cbn [app] in Hin.
    apply elem_of_app in Hin as [Hin | Hin].
    + destruct Ha as [(_ & _ & ->) | [(_ & _ & ->) | (_ & _ & _ & ->)]];
        apply (bool_decide_pack _) in Hin; vm_compute in Hin; exact Hin.
    + destruct Hw3 as [-> | ->];
        apply (bool_decide_pack _) in Hin; vm_compute in Hin; exact Hin.
Qed.

Lemma bind_returns {A B : Type} (m : result A) (k : A -> result B) :
  returns (m ≫= k) <-> exists a, m = Ok a /\ returns (k a).
Proof.
  unfold returns. destruct m as [a|e]; cbn; split.
  - intros [b Hb]. eauto.
  - intros (a' & [= <-] & Hb). exact Hb.
  - intros [b Hb]. discriminate.
  - intros (a' & [=] & _).
Qed.

Lemma to_number_returns (raw : gmap string (pyval F)) (key : string)
    (dflt : Z) :
  returns (to_number (dict_get raw key PyNone) dflt)
  <-> int_in_range (raw !! key).
Proof.
  unfold to_number, dict_get, returns, int_in_range, converts.
  destruct (raw !! key) as [[ | b | z | x | s]|]; cbn;
    try (split; [intros _; exact I | intros _; now eexists]).
  - destruct (float_of_int z) as [y|]; split.
    + intros _. now exists y.
    + intros _. now eexists.
    + intros [a [=]].
    + intros [a [=]].
  - destruct (parse_float s ≫= of_syntax); split; intros _;
      first [exact I | now eexists].
Qed.

Lemma py_max_zero_returns (v u : pyval F) (dflt : Z) :
  to_number v dflt = Ok u -> returns (py_max_zero u).
Proof.
  intros Hu. unfold returns, py_max_zero.
  destruct (to_number_shape _ _ _ Hu) as [-> | [x ->]]; cbn; eauto.
Qed.

Lemma nonneg_field_returns (raw : gmap string (pyval F)) (key : string) :
  returns (nonneg_field raw key) <-> int_in_range (raw !! key).
Proof.
  unfold nonneg_field. rewrite bind_returns, <- (to_number_returns _ _ 0).
  split.
  - intros (a & Ha & _). unfold returns. eauto.
  - intros [a Ha]. exists a. split; [exact Ha|].
    eapply py_max_zero_returns, Ha.
Qed.

Lemma capped_field_returns (raw : gmap string (pyval F)) (key : string)
    (cap : N) :
  returns (capped_field raw key cap) <-> int_in_range (raw !! key).
Proof.
  unfold capped_field. rewrite bind_returns, <- nonneg_field_returns.
  split.
  - intros (a & Ha & _). unfold returns. eauto.
  - intros [a Ha]. exists a. split; [exact Ha|].
    unfold returns, py_min_cap.
    destruct (nonneg_field_shape _ _ _ Ha) as [-> | (x & -> & _)]; cbn; eauto.
Qed.

Lemma annual_income_returns (raw : gmap string (pyval F)) :
  returns (sanitize_annual_income raw)
  <-> int_in_range (raw !! "annual_income").
Proof.
  unfold sanitize_annual_income.
  rewrite bind_returns, <- (to_number_returns _ _ 0). split.
  - intros (a & Ha & _). unfold returns. eauto.
  - intros [a Ha]. exists a. split; [exact Ha|]. unfold returns.
    destruct (to_number_shape _ _ _ Ha) as [-> | [x ->]]; cbn.
    + eauto.
    + destruct (x <? int 0)%fm; cbn; [eauto|].
      destruct (_ <? x)%fm; eauto.
Qed.

Lemma age_returns (raw : gmap string (pyval F)) :
  returns (sanitize_age raw) <-> age_value (raw !! "age").
Proof.
  unfold sanitize_age, age_value.
  rewrite bind_returns, <- (to_number_returns _ _ 30). unfold dict_get.
  split.
  - intros (a & Ha & Hr). split; [unfold returns; eauto|].
    intros x Hx. rewrite Hx in Ha. injection Ha as <-.
    apply bind_returns in Hr as (age & Hage & _).
    unfold returns. eauto.
  - intros [[a Ha] Hx]. exists a. split; [exact Ha|].
    apply bind_returns.
    assert (Hi : returns (py_int a)).
    { destruct (to_number_shape _ _ _ Ha) as [-> | [x ->]].
      - unfold returns. cbn. eauto.
      - apply Hx, Ha. }
    destruct Hi as [age Hage]. exists age. split; [exact Hage|].
    unfold returns. destruct (_ || _); eauto.
Qed.

Lemma py_strip_returns (v : option (pyval F)) (dflt : string) :
  returns (py_strip (py_or (default PyNone v) (PyStr dflt)))
  <-> text_value v.
Proof.
  unfold py_strip, py_or, returns, text_value.
  destruct v as [[ | b | z | x | s]|]; cbn.
  - split; [reflexivity | now eexists].
  - destruct b; split; try reflexivity; try discriminate;
      [intros [a [=]] | now eexists].
  - destruct (negb (z =? 0)%Z); split; try reflexivity; try discriminate;
      [intros [a [=]] | now eexists].
  - destruct (negb (x ==? int 0)%fm); split; try reflexivity;
      try discriminate; [intros [a [=]] | now eexists].
  - split; [intros _; exact I | intros _].
    destruct (negb _); now eexists.
  - split; [intros _; exact I | now eexists].
Qed.

Lemma state_returns (raw : gmap string (pyval F)) :
  returns (sanitize_state raw) <-> text_value (raw !! "state").
Proof.
  unfold sanitize_state. rewrite bind_returns, <- (py_strip_returns _ "Delhi").
  unfold dict_get. split.
  - intros (a & Ha & _). unfold returns. eauto.
  - intros [a Ha]. exists a. split; [exact Ha|]. unfold returns.
    destruct (bool_decide _); eauto.
Qed.

Lemma city_returns (raw : gmap string (pyval F)) :
  returns (sanitize_city_type raw) <-> text_value (raw !! "city_type").
Proof.
  unfold sanitize_city_type.
  rewrite bind_returns, <- (py_strip_returns _ "Non-Metro").
  unfold dict_get. split.
  - intros (a & Ha & _). unfold returns. eauto.
  - intros [a Ha]. exists a. split; [exact Ha|]. unfold returns. eauto.
Qed.

(** X5. The validation returns exactly on the records in which no
    numeric field and no age is an [int] beyond the range of float, the
    age is one [int] converts (not a NaN, not an infinity), and the state
    and the city type are each absent, a string, or a value that counts as
    false.  Text that is not a number, [None] and booleans in a numeric
    field do not make it raise. *)

Theorem validation_returns_iff (raw : gmap string (pyval F)) :
  returns (validate_and_sanitize_inputs raw)
  <-> Forall (fun key => int_in_range (raw !! key)) numeric_fields
      /\ age_value (raw !! "age")
      /\ text_value (raw !! "state")
      /\ text_value (raw !! "city_type").
Proof.
  rewrite <- age_returns, <- state_returns, <- city_returns.
  unfold numeric_fields. rewrite !Forall_cons, Forall_nil.
  rewrite <- annual_income_returns.
  rewrite <- !(nonneg_field_returns raw "income_from_interest"),
    <- !(nonneg_field_returns raw "income_from_other_sources"),
    <- !(nonneg_field_returns raw "hra_received"),
    <- !(nonneg_field_returns raw "rent_paid"),
    <- (capped_field_returns raw "section_80c" MAX_DEDUCTION_80C),
    <- (capped_field_returns raw "section_80d" MAX_DEDUCTION_80D),
    <- (capped_field_returns raw "section_80ccd_1b" MAX_DEDUCTION_80CCD_1B),
    <- (capped_field_returns raw "section_80tta" MAX_DEDUCTION_80TTA),
    <- (capped_field_returns raw "home_loan_interest"
          MAX_HOME_LOAN_INTEREST).
  unfold validate_and_sanitize_inputs, returns. split.
  - intros [[data w] Hv].
    do 13 (inv_bind Hv;
           repeat match goal with p : (_ * _)%type |- _ => destruct p end).
    repeat split; eauto.
  - intros (([a0 E0] & [a1 E1] & [a2 E2] & [a3 E3] & [a4 E4] & [a5 E5]
             & [a6 E6] & [a7 E7] & [a8 E8] & [a9 E9] & _)
            & [a10 E10] & [a11 E11] & [a12 E12]).
    rewrite E0, E1, E2, E3, E4, E5, E6, E7, E8, E9, E10, E11, E12.
    destruct a0, a10, a11. cbn. eauto.
Qed.

Lemma high_pt_states_allowed (s : string) :
  s ∈ high_pt_states -> s ∈ ALLOWED_STATES.
Proof.
  unfold high_pt_states. intros Hs.
  repeat (apply elem_of_cons in Hs as [-> | Hs];
          [apply (bool_decide_unpack _); vm_compute; exact I|]).
  now apply elem_of_nil in Hs.
Qed.

(** X6. The validation changes neither the Professional Tax nor the
    metro test of a record: every state that carries the tax is in the
    list of allowed states, a state outside the list carries none, as
    Delhi, and a city type that is replaced was not a metro. *)

Theorem validation_keeps_state_and_city (raw data : gmap string (pyval F))
    (w : list string) :
  validate_and_sanitize_inputs raw = Ok (data, w) ->
  (forall s gross_income, raw !! "state" = Some (PyStr s) ->
     get_professional_tax (dict_get data "state" (PyStr "Delhi")) gross_income
     = get_professional_tax (PyStr s) gross_income)
  /\ (city_value (raw !! "city_type") -> is_metro data = is_metro raw).
Proof.
  intros Hv.
  apply validate_inv in Hv
    as (annual & w1 & age & w2 & state & w3 & ct & _ & _ & Hstate & Hcity & _
        & _ & _ & Estate & Ecity & _ & _).
  split.
  - intros s g Hs. unfold dict_get. rewrite Estate.
    cbn [default from_option id]. unfold sanitize_state, dict_get in Hstate.
    rewrite Hs in Hstate. cbn [default from_option id] in Hstate.
    assert (Hp : py_strip (F:=F) (py_or (PyStr s) (PyStr "Delhi"))
                 = Ok (if String.eqb s "" then "Delhi" else strip s))
      by (destruct s; reflexivity).
    rewrite Hp in Hstate. cbn [mbind result_bind] in Hstate.
    unfold get_professional_tax.
    destruct (String.eqb s "") eqn:Es.
    + apply String.eqb_eq in Es. subst s. cbn in Hstate.
      injection Hstate as <- _. reflexivity.
    + destruct (bool_decide (lower (strip s) ∈ ALLOWED_STATES)) eqn:Ea;
        injection Hstate as <- _.
      * now rewrite !lower_strip, strip_idem.
      * apply bool_decide_eq_false_1 in Ea.
        rewrite (bool_decide_eq_false_2 (strip (lower s) ∈ high_pt_states)).
        { reflexivity. }
        intros Hh. apply Ea. rewrite lower_strip.
        now apply high_pt_states_allowed.
  - intros Hc. rewrite (is_metro_city raw Hc).
    rewrite (is_metro_city data) by (rewrite Ecity; exact I).
    rewrite Ecity. unfold sanitize_city_type, dict_get in Hcity.
    destruct (raw !! "city_type") as [[ | | | | s]|]; try contradiction.
    + cbn in Hcity. now injection Hcity as <-.
    + assert (Hp : py_strip (F:=F) (py_or (PyStr s) (PyStr "Non-Metro"))
                   = Ok (if String.eqb s "" then "Non-Metro" else strip s))
        by (destruct s; reflexivity).
      cbn [default from_option id] in Hcity. rewrite Hp in Hcity.
      cbn [mbind result_bind] in Hcity. injection Hcity as <-.
      destruct (String.eqb s "") eqn:Es.
      * apply String.eqb_eq in Es. now subst s.
      * destruct (bool_decide _) eqn:Ea.
        { now rewrite strip_idem. }
        apply bool_decide_eq_false_1 in Ea.
        destruct (String.eqb (lower (strip s)) "metro") eqn:Em;
          [|reflexivity].
        apply String.eqb_eq in Em. rewrite Em in Ea.
        exfalso. apply Ea. apply (bool_decide_unpack _). vm_compute. exact I.
    + cbn in Hcity. now injection Hcity as <-.
Qed.

End ValidationFacts.

(** In binary64, the rough record: the income of -5 becomes 0, the 80C of
    ["1e6"] is cut to the [int] 150,000, the age of 150 becomes 120, the
    state becomes Delhi and the city type Non-Metro, with three
    warnings. *)
Lemma sanitized_record_shape_witness :
  validate_and_sanitize_inputs (F:=float) rough_input
  = Ok (rough_sanitized, rough_warnings)
  /\ Forall (fun '(key, lower_open, cap) => exists u,
               rough_sanitized (F:=float) !! key = Some u
               /\ sanitized_amount lower_open cap u) amount_bounds
  /\ (exists age, rough_sanitized (F:=float) !! "age" = Some (PyInt age)
                  /\ (MIN_AGE <= age <= MAX_AGE)%Z)
  /\ (length rough_warnings <= 3)%nat.
Proof.
  assert (Hv : validate_and_sanitize_inputs (F:=float) rough_input
               = Ok (rough_sanitized, rough_warnings))
    by by_vm.
  destruct (sanitized_record_shape rough_input _ _ Hv)
    as (Ha & Hage & _ & _ & Hw).
  split; [exact Hv|]. split; [exact Ha|]. split; [exact Hage | exact Hw].
Defined.

(** In binary64, the rough record: the age of 150 becomes 120. *)
Lemma age_out_of_bounds_is_clamped_witness :
  validate_and_sanitize_inputs (F:=float) rough_input
  = Ok (rough_sanitized, rough_warnings)
  /\ exists given : Z,
       py_int (F:=float) (PyFloat 150%float) = Ok given
       /\ (MAX_AGE < given)%Z
       /\ rough_sanitized (F:=float) !! "age" = Some (PyInt MAX_AGE).
Proof.
  assert (Hv : validate_and_sanitize_inputs (F:=float) rough_input
               = Ok (rough_sanitized, rough_warnings)) by by_vm.
  split; [exact Hv|].
  destruct (age_out_of_bounds_is_clamped rough_input _ _ Hv)
    as (a & given & Ha & Hg & Hc).
  { apply (bool_decide_unpack _). vm_compute. exact I. }
  assert (Ea : a = PyFloat 150%float)
    by (vm_compute in Ha; injection Ha as <-; reflexivity).
  subst a. exists given. split; [exact Hg|].
  destruct Hc as [[Hlt _] | Hc]; [|exact Hc].
  exfalso. vm_compute in Hg. injection Hg as <-. vm_compute in Hlt.
  discriminate Hlt.
Defined.

(** In binary64, the record of the form: the state " Maharashtra" is kept,
    stripped, and carries the tax of 2,500 on a gross income of
    1,220,000. *)
Lemma validation_keeps_state_and_city_witness :
  validate_and_sanitize_inputs (F:=float) form_input = Ok (form_sanitized, [])
  /\ get_professional_tax
       (dict_get (form_sanitized (F:=float)) "state" (PyStr "Delhi"))
       1220000%float
     = get_professional_tax (PyStr " Maharashtra") 1220000%float
  /\ is_metro (form_sanitized (F:=float)) = is_metro form_input.
Proof.
  assert (Hv : validate_and_sanitize_inputs (F:=float) form_input
               = Ok (form_sanitized, [])) by by_vm.
  destruct (validation_keeps_state_and_city form_input _ _ Hv) as (Hs & Hc).
  split; [exact Hv|]. split.
  - apply Hs. reflexivity.
  - apply Hc. exact I.
Defined.

(** The failures that remain, in binary64: an age of ["nan"] or of
    ["inf"], an [int] income beyond the range of float, and a state that
    is a number. *)
Example validation_failures :
  validate_and_sanitize_inputs (F:=float) {[ "age" := PyStr "nan" ]}
  = Raise ValueError
  /\ validate_and_sanitize_inputs (F:=float) {[ "age" := PyStr "inf" ]}
     = Raise OverflowError
  /\ validate_and_sanitize_inputs (F:=float)
       {[ "annual_income" := PyInt (10 ^ 400) ]} = Raise OverflowError
  /\ validate_and_sanitize_inputs (F:=float) {[ "state" := PyInt 7 ]}
     = Raise AttributeError.
Proof. repeat split; vm_compute; reflexivity. Qed.

(** ** The validation and the comparison together *)

Ltac caps_cases Hn :=
  unfold guardrail_caps in Hn;
  repeat (apply elem_of_cons in Hn as [-> | Hn]);
  [.. | now apply elem_of_nil in Hn].

Section Pipeline.
Context {F : Type} `{CapLaws F}.

Lemma cap_converts (n : N) : n ∈ guardrail_caps -> converts (Z.of_N n).
Proof. intros Hn. unfold converts. rewrite (cap_float n Hn). eauto. Qed.

Lemma zero_converts : converts (F:=F) 0.
Proof. unfold converts. rewrite float_of_int_zero. eauto. Qed.

Lemma sanitized_amount_numeric (lower_open : bool) (cap : option N)
    (u : pyval F) :
  (forall n, cap = Some n -> n ∈ guardrail_caps) ->
  sanitized_amount lower_open cap u -> numeric_value (Some u).
Proof.
  intros Hcap [-> | [(n & -> & ->) | (x & -> & _)]]; cbn.
  - apply zero_converts.
  - apply cap_converts, Hcap. reflexivity.
  - exact I.
Qed.

Lemma sanitized_gap_converts (lower_open : bool) (cap : N) (u : pyval F) :
  cap ∈ guardrail_caps ->
  sanitized_amount lower_open (Some cap) u -> gap_converts cap (Some u).
Proof.
  intros Hcap [-> | [(n & [= <-] & ->) | (x & -> & _)]]; cbn.
  - rewrite Z.sub_0_r. now apply cap_converts.
  - rewrite Z.sub_diag. apply zero_converts.
  - now apply cap_converts.
Qed.

Lemma sanitized_well_typed (raw data : gmap string (pyval F))
    (w : list string) :
  validate_and_sanitize_inputs raw = Ok (data, w) ->
  well_typed data
  /\ gap_converts 150000 (data !! "section_80c")
  /\ gap_converts 50000 (data !! "section_80ccd_1b").
Proof.
  intros Hv. pose proof (sanitized_amounts_shape _ _ _ Hv) as Hs.
  apply validate_inv in Hv
    as (annual & w1 & age & w2 & state & w3 & ct & _ & _ & _ & _ & _
        & _ & _ & Hstate & Hcity & _ & _).
  unfold amount_bounds in Hs.
  repeat match goal with
         | H : Forall _ (_ :: _) |- _ =>
             let Hk := fresh "Hk" in apply Forall_cons in H as [Hk H]
         end.
  repeat match goal with
         | H : exists u, _ /\ _ |- _ =>
             let u := fresh "u" in
             let E := fresh "E" in
             let L := fresh "L" in
             destruct H as (u & E & L)
         end.
  split; [split; [|split]|split].
  - unfold numeric_fields.
    repeat (apply List.Forall_cons;
            [match goal with
             | E : data !! ?k = Some _ |- numeric_value (data !! ?k) =>
                 rewrite E
             end;
             eapply sanitized_amount_numeric; [|eassumption];
             intros n [= <-]; apply (bool_decide_unpack _); vm_compute;
             exact I
            | ]).
    apply List.Forall_nil.
  - rewrite Hstate. exact I.
  - rewrite Hcity. exact I.
  - match goal with
    | E : data !! "section_80c" = Some _ |- _ => rewrite E
    end.
    eapply sanitized_gap_converts; [|eassumption].
    apply (bool_decide_unpack _). vm_compute. exact I.
  - match goal with
    | E : data !! "section_80ccd_1b" = Some _ |- _ => rewrite E
    end.
    eapply sanitized_gap_converts; [|eassumption].
    apply (bool_decide_unpack _). vm_compute. exact I.
Qed.

(** X7. On the record the validation returns the two calculators and
    the comparison return, so the calculation of [app.py] raises only
    where the validation does.  This holds in exact arithmetic and in
    binary64. *)

Theorem validated_input_never_raises (raw : gmap string (pyval F)) :
  returns (validate_and_sanitize_inputs raw) ->
  (forall data w, validate_and_sanitize_inputs raw = Ok (data, w) ->
     well_typed data
     /\ returns (calculate_tax_old_regime data)
     /\ returns (calculate_tax_new_regime data)
     /\ returns (calculate_comprehensive data))
  /\ returns (validated_comparison raw).
Proof.
  intros [[data w] Hv].
  assert (Hall : forall data w,
            validate_and_sanitize_inputs raw = Ok (data, w) ->
            well_typed data /\ returns (calculate_comprehensive data)).
  { intros d v Hd. destruct (sanitized_well_typed _ _ _ Hd) as (Hw & Hg1 & Hg2).
    split; [exact Hw | now apply comprehensive_returns]. }
  split.
  - intros d v Hd. destruct (Hall d v Hd) as [Hw [c Hc]].
    apply comprehensive_inv in Hc as Hi. destruct Hi as (Ho & Hn & _).
    split; [exact Hw|]. unfold returns.
    split; [|split]; eexists; eassumption.
  - destruct (Hall data w Hv) as [_ [c Hc]].
    unfold validated_comparison. rewrite Hv. cbn. rewrite Hc. cbn.
    unfold returns. eauto.
Qed.

Lemma to_number_zero (dflt : Z) :
  to_number (F:=F) (PyInt 0) dflt = Ok (PyFloat (int 0)).
Proof. unfold to_number, py_float. now rewrite float_of_int_zero. Qed.

Lemma to_number_cap (n : N) (dflt : Z) :
  n ∈ guardrail_caps ->
  to_number (F:=F) (PyInt (Z.of_N n)) dflt = Ok (PyFloat (int n)).
Proof. intros Hn. unfold to_number, py_float. now rewrite cap_float. Qed.

Lemma annual_second_pass (data : gmap string (pyval F)) (u : pyval F) :
  data !! "annual_income" = Some u ->
  sanitized_amount false (Some MAX_ANNUAL_INCOME) u ->
  exists u', sanitize_annual_income data = Ok (u', []) /\ same_amount u u'.
Proof.
  intros Hu Hs. unfold sanitize_annual_income, dict_get. rewrite Hu.
  assert (Hm : MAX_ANNUAL_INCOME ∈ guardrail_caps)
    by (apply (bool_decide_unpack _); vm_compute; exact I).
  destruct (cap_order _ Hm) as (_ & Hc0 & Hcc & _).
  cbn [default from_option id].
  destruct Hs as [-> | [(n & [= <-] & ->) | (x & -> & Hx0 & Hxc)]].
  - rewrite to_number_zero. cbn [mbind result_bind py_lt_int py_gt_int].
    rewrite zero_order. cbn [mbind result_bind py_lt_int py_gt_int].
    rewrite Hc0. eexists. split; [reflexivity|].
    right. right. auto.
  - rewrite (to_number_cap _ _ Hm).
    cbn [mbind result_bind py_lt_int py_gt_int].
    rewrite Hc0. cbn [mbind result_bind py_lt_int py_gt_int].
    rewrite Hcc. eexists. split; [reflexivity|].
    right. left. eauto.
  - cbn [to_number py_float mbind result_bind py_lt_int py_gt_int].
    rewrite Hx0. cbn [mbind result_bind py_lt_int py_gt_int].
    rewrite Hxc. eexists. split; [reflexivity|]. left. reflexivity.
Qed.

Lemma nonneg_second_pass (data : gmap string (pyval F)) (key : string)
    (u : pyval F) :
  data !! key = Some u -> sanitized_amount true None u ->
  nonneg_field data key = Ok u.
Proof.
  intros Hu Hs. unfold nonneg_field, dict_get. rewrite Hu. cbn [default from_option id].
  destruct Hs as [-> | [(n & [=] & _) | (x & -> & Hx0 & _)]].
  - rewrite to_number_zero. cbn [mbind result_bind py_max_zero py_gt_int].
    change (int 0%N) with (int (F:=F) 0). now rewrite zero_order.
  - cbn [to_number py_float mbind result_bind py_max_zero py_gt_int].
    change (int 0%N) with (int (F:=F) 0). now rewrite Hx0.
Qed.

Lemma capped_second_pass (data : gmap string (pyval F)) (key : string)
    (cap : N) (u : pyval F) :
  cap ∈ guardrail_caps ->
  data !! key = Some u -> sanitized_amount true (Some cap) u ->
  exists u', capped_field data key cap = Ok u'
    /\ (u' = u \/ (u = PyInt (Z.of_N cap) /\ u' = PyFloat (int cap))).
Proof.
  intros Hcap Hu Hs. unfold capped_field.
  destruct (cap_order _ Hcap) as (Hp & _ & Hcc & _).
  destruct Hs as [-> | [(n & [= <-] & ->) | (x & -> & Hx0 & Hxc)]].
  - rewrite (nonneg_second_pass data key (PyInt 0) Hu)
      by (left; reflexivity).
    cbn [mbind result_bind py_min_cap py_gt_int].
    assert (Hz : (Z.of_N cap <? 0)%Z = false) by (apply Z.ltb_ge; lia).
    rewrite Hz. eauto.
  - unfold nonneg_field, dict_get. rewrite Hu. cbn [default from_option id].
    rewrite (to_number_cap _ _ Hcap).
    cbn [mbind result_bind py_max_zero py_min_cap py_gt_int].
    change (int 0%N) with (int (F:=F) 0). rewrite Hp.
    cbn [mbind result_bind py_max_zero py_min_cap py_gt_int].
    rewrite Hcc. eauto.
  - rewrite (nonneg_second_pass data key (PyFloat x) Hu)
      by (right; right; eauto).
    cbn [mbind result_bind py_min_cap py_gt_int]. rewrite Hxc. eauto.
Qed.

Lemma age_second_pass (data : gmap string (pyval F)) (age : Z) :
  data !! "age" = Some (PyInt age) -> (MIN_AGE <= age <= MAX_AGE)%Z ->
  sanitize_age data = Ok (age, []).
Proof.
  intros Hu Ha. unfold sanitize_age, dict_get. rewrite Hu. cbn [default from_option id].
  destruct (age_round_trip age Ha) as (x & Hx & Hi).
  unfold to_number, py_float. rewrite Hx.
  cbn [mbind result_bind py_int]. rewrite Hi. cbn [mbind result_bind].
  assert (Hr : (age <? MIN_AGE)%Z || (MAX_AGE <? age)%Z = false).
  { apply orb_false_iff. split; apply Z.ltb_ge; lia. }
  now rewrite Hr.
Qed.

Lemma state_second_pass (data : gmap string (pyval F)) (state : string) :
  data !! "state" = Some (PyStr state) ->
  lower state ∈ ALLOWED_STATES -> (exists s, state = strip s) ->
  sanitize_state data = Ok (state, []).
Proof.
  intros Hu Ha [s ->]. unfold sanitize_state, dict_get, py_or.
  rewrite Hu. cbn [default from_option id truthy].
  destruct (String.eqb (strip s) "") eqn:Ee.
  - apply String.eqb_eq in Ee. rewrite Ee in Ha.
    apply (bool_decide_pack _) in Ha. vm_compute in Ha. contradiction.
  - cbn [negb py_strip mbind result_bind]. rewrite strip_idem.
    now rewrite (bool_decide_eq_true_2 _ Ha).
Qed.

Lemma city_second_pass (data : gmap string (pyval F)) (ct : string) :
  data !! "city_type" = Some (PyStr ct) ->
  lower ct ∈ ["metro"; "non-metro"] -> (exists s, ct = strip s) ->
  sanitize_city_type data = Ok ct.
Proof.
  intros Hu Ha [s ->]. unfold sanitize_city_type, dict_get, py_or.
  rewrite Hu. cbn [default from_option id truthy].
  destruct (String.eqb (strip s) "") eqn:Ee.
  - apply String.eqb_eq in Ee. rewrite Ee in Ha.
    apply (bool_decide_pack _) in Ha. vm_compute in Ha. contradiction.
  - cbn [negb py_strip mbind result_bind]. rewrite strip_idem.
    now rewrite (bool_decide_eq_true_2 _ Ha).
Qed.

Lemma cap_nonzero (n : N) : n ∈ guardrail_caps -> (Z.of_N n =? 0)%Z = false.
Proof. intros Hn. caps_cases Hn; reflexivity. Qed.

(** What the engine reads in two such values is the same float. *)
Lemma same_amount_float (u u' : pyval F) :
  same_amount u u' ->
  py_float (py_or u' (PyInt 0)) = py_float (py_or u (PyInt 0)).
Proof.
  intros [-> | [(n & Hn & -> & ->) | [-> ->]]]; [reflexivity | |];
    unfold py_or; cbn [truthy].
  - destruct (cap_order _ Hn) as (_ & _ & _ & Hz).
    rewrite Hz, (cap_nonzero _ Hn). cbn [negb py_float].
    now rewrite (cap_float _ Hn).
  - cbn [Z.eqb negb py_float]. rewrite float_of_int_zero.
    destruct (negb _); cbn [py_float]; [reflexivity|].
    now rewrite float_of_int_zero.
Qed.

Lemma float_field_same (data data' : gmap string (pyval F)) (key : string)
    (u u' : pyval F) :
  data !! key = Some u -> data' !! key = Some u' -> same_amount u u' ->
  float_field data' key = float_field data key.
Proof.
  intros Hu Hu' Hs. unfold float_field, dict_get. rewrite Hu, Hu'.
  now apply same_amount_float.
Qed.

(** The suggestion on a capped field and on its second sanitization. *)
Lemma suggest_gap_same (data data' : gmap string (pyval F)) (key : string)
    (cap : N) (mk : string -> string) (u u' : pyval F) :
  cap ∈ guardrail_caps ->
  data !! key = Some u -> data' !! key = Some u' ->
  u' = u \/ (u = PyInt (Z.of_N cap) /\ u' = PyFloat (int cap)) ->
  suggest_gap data' key cap mk = suggest_gap data key cap mk.
Proof.
  intros Hcap Hu Hu' Hs. unfold suggest_gap, dict_get. rewrite Hu, Hu'.
  destruct Hs as [-> | [-> ->]]; [reflexivity|].
  destruct (cap_order _ Hcap) as (_ & _ & Hcc & Hz).
  unfold py_or. cbn [default from_option id truthy].
  rewrite Hz, (cap_nonzero _ Hcap). cbn [negb py_lt_int mbind result_bind].
  now rewrite Hcc, Z.ltb_irrefl.
Qed.

Lemma py_eq_zero_same (cap : N) (u u' : pyval F) :
  cap ∈ guardrail_caps ->
  u' = u \/ (u = PyInt (Z.of_N cap) /\ u' = PyFloat (int cap)) ->
  py_eq_zero (py_or u' (PyInt 0)) = py_eq_zero (py_or u (PyInt 0)).
Proof.
  intros Hcap [-> | [-> ->]]; [reflexivity|].
  destruct (cap_order _ Hcap) as (_ & _ & _ & Hz).
  unfold py_or. cbn [truthy]. rewrite Hz, (cap_nonzero _ Hcap).
  cbn [negb py_eq_zero]. now rewrite Hz, (cap_nonzero _ Hcap).
Qed.

(** X8. Sanitizing a sanitized record returns, warns of nothing, and
    yields a record the engine cannot tell from the first: every amount is
    read as the same float, the age, the state and the city type are
    unchanged, and the two calculators and the comparison give what they
    gave.  This holds in exact arithmetic and in binary64. *)

Theorem validation_idempotent (raw data : gmap string (pyval F))
    (w : list string) :
  validate_and_sanitize_inputs raw = Ok (data, w) ->
  exists data',
    validate_and_sanitize_inputs data = Ok (data', [])
    /\ Forall (fun key => float_field data' key = float_field data key)
         numeric_fields
    /\ Forall (fun key => data' !! key = data !! key)
         [ "age"; "state"; "city_type" ]
    /\ calculate_tax_old_regime data' = calculate_tax_old_regime data
    /\ calculate_tax_new_regime data' = calculate_tax_new_regime data
    /\ calculate_comprehensive data' = calculate_comprehensive data.
Proof.
  intros Hv. pose proof (sanitized_amounts_shape _ _ _ Hv) as Hs.
  apply validate_inv in Hv
    as (annual & w1 & age & w2 & state & w3 & ct & _ & Hage & Hstate & Hcity
        & _ & _ & Eage & Estate & Ecity & _ & _).
  apply sanitize_age_inv in Hage.
  apply sanitize_state_inv in Hstate as [Hst1 Hst2].
  apply sanitize_city_inv in Hcity as [Hct1 Hct2].
  unfold amount_bounds in Hs.
  repeat match goal with
         | H : Forall _ (_ :: _) |- _ =>
             let Hk := fresh "Hk" in apply Forall_cons in H as [Hk H]
         end.
  clear Hs.
  destruct Hk as (u0 & E0 & S0). destruct Hk0 as (u1 & E1 & S1).
  destruct Hk1 as (u2 & E2 & S2). destruct Hk2 as (u3 & E3 & S3).
  destruct Hk3 as (u4 & E4 & S4). destruct Hk4 as (u5 & E5 & S5).
  destruct Hk5 as (u6 & E6 & S6). destruct Hk6 as (u7 & E7 & S7).
  destruct Hk7 as (u8 & E8 & S8). destruct Hk8 as (u9 & E9 & S9).
  assert (Hcaps : Forall (fun n => n ∈ guardrail_caps) guardrail_caps).
  { apply Forall_forall. auto. }
  unfold guardrail_caps at 2 in Hcaps.
  repeat match type of Hcaps with
         | Forall _ (_ :: _) =>
             let Hm := fresh "Hm" in apply Forall_cons in Hcaps as [Hm Hcaps]
         end.
  destruct (annual_second_pass data u0 E0 S0) as (v0 & P0 & R0).
  pose proof (nonneg_second_pass data _ u1 E1 S1) as P1.
  pose proof (nonneg_second_pass data _ u2 E2 S2) as P2.
  destruct (capped_second_pass data _ _ u3 Hm0 E3 S3) as (v3 & P3 & R3).
  destruct (capped_second_pass data _ _ u4 Hm1 E4 S4) as (v4 & P4 & R4).
  destruct (capped_second_pass data _ _ u5 Hm2 E5 S5) as (v5 & P5 & R5).
  destruct (capped_second_pass data _ _ u6 Hm3 E6 S6) as (v6 & P6 & R6).
  destruct (capped_second_pass data _ _ u7 Hm4 E7 S7) as (v7 & P7 & R7).
  pose proof (nonneg_second_pass data _ u8 E8 S8) as P8.
  pose proof (nonneg_second_pass data _ u9 E9 S9) as P9.
  pose proof (age_second_pass data age Eage Hage) as P10.
  pose proof (state_second_pass data state Estate Hst1 Hst2) as P11.
  pose proof (city_second_pass data ct Ecity Hct1 Hct2) as P12.
  assert (Hmore : forall (cap : N) (u u' : pyval F),
            cap ∈ guardrail_caps ->
            u' = u \/ (u = PyInt (Z.of_N cap) /\ u' = PyFloat (int cap)) ->
            same_amount u u').
  { intros cap u u' Hc [-> | [-> ->]]; [left; reflexivity|].
    right. left. eauto. }
  pose (data' :=
    ({[ "annual_income" := v0; "income_from_interest" := u1;
        "income_from_other_sources" := u2; "section_80c" := v3;
        "section_80d" := v4; "section_80ccd_1b" := v5;
        "section_80tta" := v6; "home_loan_interest" := v7;
        "hra_received" := u8; "rent_paid" := u9; "age" := PyInt age;
        "state" := PyStr state; "city_type" := PyStr ct ]}
     : gmap string (pyval F))).
  exists data'. split.
  { unfold validate_and_sanitize_inputs.
    rewrite P0, P1, P2, P3, P4, P5, P6, P7, P8, P9, P10, P11, P12.
    reflexivity. }
  assert (Hfields :
    Forall (fun key => float_field data' key = float_field data key)
      numeric_fields).
  { unfold numeric_fields.
    repeat (apply List.Forall_cons;
            [eapply float_field_same;
             [eassumption | reflexivity
             | first [eassumption | left; reflexivity
                     | eapply Hmore; [|eassumption]; assumption]]|]).
    apply List.Forall_nil. }
  split; [exact Hfields|].
  assert (Ks : data' !! "state" = data !! "state") by now rewrite Estate.
  assert (Kc : data' !! "city_type" = data !! "city_type")
    by now rewrite Ecity.
  split.
  { repeat (apply List.Forall_cons; [symmetry; assumption|]).
    apply List.Forall_nil. }
  assert (Ho := old_regime_frame _ _ Hfields Ks Kc).
  assert (Hn : new_regime_locals data' = new_regime_locals data).
  { apply new_regime_frame. unfold numeric_fields in Hfields.
    unfold income_fields.
    apply Forall_cons in Hfields as [K0 Hfields].
    apply Forall_cons in Hfields as [K1 Hfields].
    apply Forall_cons in Hfields as [K2 _].
    repeat (apply List.Forall_cons; [assumption|]). apply List.Forall_nil. }
  unfold calculate_comprehensive, calculate_tax_old_regime,
    calculate_tax_new_regime.
  rewrite Ho, Hn.
  rewrite (suggest_gap_same data data' "section_80c" 150000 suggestion_80c u3 v3
             Hm0 E3 eq_refl R3).
  rewrite (suggest_gap_same data data' "section_80ccd_1b" 50000 suggestion_nps
             u5 v5 Hm2 E5 eq_refl R5).
  assert (H80d : py_eq_zero (py_or (dict_get data' "section_80d" PyNone)
                               (PyInt 0))
                 = py_eq_zero (py_or (dict_get data "section_80d" PyNone)
                                 (PyInt 0))).
  { unfold dict_get at 2. rewrite E4.
    apply (py_eq_zero_same _ u4 v4 Hm1 R4). }
  rewrite H80d.
  repeat split; reflexivity.
Qed.

End Pipeline.

#[global] Instance exact_cap_laws : CapLaws Q.
Proof.
  split.
  - intros n Hn. caps_cases Hn; reflexivity.
  - intros n Hn. caps_cases Hn; repeat split; reflexivity.
  - reflexivity.
  - intros z _. exists (inject_Z z). split; [reflexivity|].
    cbn. now rewrite Z.quot_1_r.
Qed.

Lemma b64_age_round_trip (z : Z) :
  (MIN_AGE <= z <= MAX_AGE)%Z ->
  exists x : float, float_of_int z = Some x /\ float_to_int x = Ok z.
Proof.
  unfold MIN_AGE, MAX_AGE. intros Hz.
  assert (Hall : forallb age_survives (map Z.of_nat (seq 18 103)) = true)
    by (vm_compute; reflexivity).
  rewrite forallb_forall in Hall.
  assert (Hin : In z (map Z.of_nat (seq 18 103))).
  { apply in_map_iff. exists (Z.to_nat z). split; [lia|].
    apply in_seq. lia. }
  specialize (Hall z Hin). unfold age_survives in Hall.
  destruct (float_of_int z) as [x|]; [|discriminate].
  exists x. split; [reflexivity|].
  destruct (float_to_int x) as [y|]; [|discriminate].
  apply Z.eqb_eq in Hall. now subst y.
Qed.

#[global] Instance b64_cap_laws : CapLaws float.
Proof.
  split.
  - intros n Hn. caps_cases Hn; vm_compute; reflexivity.
  - intros n Hn. caps_cases Hn; repeat split; vm_compute; reflexivity.
  - vm_compute. reflexivity.
  - apply b64_age_round_trip.
Qed.

(** In binary64, the record of the form. *)
Lemma validated_input_never_raises_witness :
  returns (validate_and_sanitize_inputs (F:=float) form_input)
  /\ returns (validated_comparison (F:=float) form_input).
Proof.
  assert (Hv : returns (validate_and_sanitize_inputs (F:=float) form_input))
    by (exists (form_sanitized, []); by_vm).
  split; [exact Hv|].
  exact (proj2 (validated_input_never_raises form_input Hv)).
Defined.

(** In binary64, the rough record: its second sanitization has no
    warning. *)
Lemma validation_idempotent_witness :
  validate_and_sanitize_inputs (F:=float) rough_input
  = Ok (rough_sanitized, rough_warnings)
  /\ exists data',
       validate_and_sanitize_inputs (F:=float) rough_sanitized
       = Ok (data', [])
       /\ calculate_comprehensive data'
          = calculate_comprehensive rough_sanitized.
Proof.
  assert (Hv : validate_and_sanitize_inputs (F:=float) rough_input
               = Ok (rough_sanitized, rough_warnings))
    by by_vm.
  destruct (validation_idempotent rough_input _ _ Hv)
    as (data' & Hv' & _ & _ & _ & _ & Hc).
  split; [exact Hv|]. exists data'. split; [exact Hv' | exact Hc].
Defined.

(** ** A NaN as the annual income, in binary64 *)

Lemma is_nan_spec (x : float) :
  PrimFloat.is_nan x = true <-> Prim2SF x = S754_nan.
Proof.
  unfold PrimFloat.is_nan. rewrite FloatAxioms.eqb_spec, negb_true_iff.
  destruct (Prim2SF x) as [s| s| |s m e] eqn:E; cbn.
  - destruct s; split; discriminate.
  - destruct s; split; discriminate.
  - split; reflexivity.
  - unfold SFeqb, SFcompare. rewrite Z.compare_refl, Pos.compare_refl.
    destruct s; split; discriminate.
Qed.

Lemma nan_add (x y : float) :
  PrimFloat.is_nan x = true -> PrimFloat.is_nan (x + y) = true.
Proof.
  rewrite !is_nan_spec, FloatAxioms.add_spec. now intros ->.
Qed.

Lemma nan_sub (x y : float) :
  PrimFloat.is_nan x = true -> PrimFloat.is_nan (x - y) = true.
Proof.
  rewrite !is_nan_spec, FloatAxioms.sub_spec. now intros ->.
Qed.

Lemma nan_ltb (x y : float) :
  PrimFloat.is_nan x = true -> (x <? y)%float = false /\ (y <? x)%float = false.
Proof.
  rewrite is_nan_spec, !FloatAxioms.ltb_spec. intros ->.
  split; [reflexivity|]. unfold SFltb, SFcompare.
  now destruct (Prim2SF y) as [[]|[]| |[]].
Qed.

Lemma nan_eqb (x y : float) :
  PrimFloat.is_nan x = true -> (x =? y)%float = false.
Proof.
  rewrite is_nan_spec, FloatAxioms.eqb_spec. now intros ->.
Qed.

Lemma nan_round2 (x : float) :
  PrimFloat.is_nan x = true -> b64_round2 x = x.
Proof. rewrite is_nan_spec. unfold b64_round2. now intros ->. Qed.

Lemma nan_field (data : gmap string (pyval float)) (key : string)
    (x : float) :
  data !! key = Some (PyFloat x) -> PrimFloat.is_nan x = true ->
  float_field data key = Ok x.
Proof.
  intros Hd Hx. unfold float_field, dict_get, py_or. rewrite Hd.
  cbn. now rewrite (nan_eqb x _ Hx).
Qed.

(** A NaN as the annual income in the two calculators. *)
Lemma nan_income_old (data : gmap string (pyval float)) (x : float)
    (r : regime_result float) :
  data !! "annual_income" = Some (PyFloat x) -> PrimFloat.is_nan x = true ->
  calculate_tax_old_regime data = Ok r ->
  PrimFloat.is_nan (gross_income r) = true
  /\ taxable_income r = 0%float /\ base_tax r = 0%float
  /\ cess r = 0%float /\ total_tax_payable r = 0%float.
Proof.
  intros Hd Hx. unfold calculate_tax_old_regime. intros Hr. inv_bind Hr.
  injection Hr as <-. rename a into o. apply old_locals_inv in E.
  destruct E as [Ks Kg _ _ _ _ _ _ _ _ _ _ _ Kti Ksl Kb Kc Kt].
  rewrite (nan_field data _ x Hd Hx) in Ks. injection Ks as Ks.
  destruct Kg as (i & t & _ & _ & Kg).
  assert (Hg : PrimFloat.is_nan (o_gross_income o) = true).
  { rewrite Kg, <- Ks. cbn. now apply nan_add, nan_add. }
  assert (Hti : o_taxable_income o = 0%float).
  { rewrite Kti. unfold py_max. cbn [flt Binary64.model].
    rewrite (proj2 (nan_ltb _ (int 0)
                      (nan_sub _ (o_total_deductions o) Hg))).
    reflexivity. }
  cbn. rewrite Kt, Kc, Kb, Ksl, Hti.
  split; [now rewrite nan_round2|]. repeat split; vm_compute; reflexivity.
Qed.

Lemma nan_income_new (data : gmap string (pyval float)) (x : float)
    (r : regime_result float) :
  data !! "annual_income" = Some (PyFloat x) -> PrimFloat.is_nan x = true ->
  calculate_tax_new_regime data = Ok r ->
  PrimFloat.is_nan (gross_income r) = true
  /\ total_deductions r = 0%float
  /\ taxable_income r = 0%float /\ base_tax r = 0%float
  /\ cess r = 0%float /\ total_tax_payable r = 0%float.
Proof.
  intros Hd Hx. unfold calculate_tax_new_regime. intros Hr. inv_bind Hr.
  injection Hr as <-. rename a into n. apply new_locals_inv in E.
  destruct E as [Ks Kg Kstd Ktd Kti Ksl Kb Kc Kt].
  rewrite (nan_field data _ x Hd Hx) in Ks. injection Ks as Ks.
  destruct Kg as (i & t & _ & _ & Kg).
  assert (Hg : PrimFloat.is_nan (n_gross_income n) = true).
  { rewrite Kg, <- Ks. cbn. now apply nan_add, nan_add. }
  assert (Hstd : n_std_deduction n = 0%float).
  { rewrite Kstd, <- Ks. cbn [flt Binary64.model].
    rewrite (proj2 (nan_ltb x (int 0) Hx)). reflexivity. }
  assert (Hti : n_taxable_income n = 0%float).
  { rewrite Kti. unfold py_max. cbn [flt Binary64.model].
    rewrite (proj2 (nan_ltb _ (int 0)
                      (nan_sub _ (n_total_deductions n) Hg))).
    reflexivity. }
  cbn. rewrite Kt, Kc, Kb, Ksl, Hti, Ktd, Hstd.
  split; [now rewrite nan_round2|]. repeat split; vm_compute; reflexivity.
Qed.

(** X9. In binary64 a NaN given as the annual income is not rejected:
    the validation neither replaces it nor warns of it, both calculators
    return a gross income that is a NaN with a taxable income and a tax of
    0, and the comparison names the Old Regime with nothing saved. *)

Theorem nan_income_is_not_rejected (raw data : gmap string (pyval float))
    (w : list string) (x : float) (c : comparison float) :
  raw !! "annual_income" = Some (PyFloat x) ->
  PrimFloat.is_nan x = true ->
  validate_and_sanitize_inputs raw = Ok (data, w) ->
  calculate_comprehensive data = Ok c ->
  data !! "annual_income" = Some (PyFloat x)
  /\ sanitize_annual_income raw = Ok (PyFloat x, [])
  /\ PrimFloat.is_nan (gross_income (old_regime c)) = true
  /\ PrimFloat.is_nan (gross_income (new_regime c)) = true
  /\ taxable_income (old_regime c) = 0%float
  /\ taxable_income (new_regime c) = 0%float
  /\ total_tax_payable (old_regime c) = 0%float
  /\ total_tax_payable (new_regime c) = 0%float
  /\ best_regime c = "Old Regime"
  /\ tax_saved c = 0%float.
Proof.
  intros Hraw Hx Hv Hc.
  assert (Ha : sanitize_annual_income raw = Ok (PyFloat x, [])).
  { unfold sanitize_annual_income, dict_get. rewrite Hraw. cbn.
    rewrite (proj1 (nan_ltb x _ Hx)). cbn.
    rewrite (proj2 (nan_ltb x _ Hx)). reflexivity. }
  apply validate_inv in Hv
    as (annual & w1 & age & w2 & state & w3 & ct & Ha' & _ & _ & _ & _
        & Hannual & _).
  rewrite Ha in Ha'. injection Ha' as <- <-.
  destruct (comprehensive_inv data c Hc) as (Ho & Hn & Hb).
  destruct (comprehensive_fields data c Hc) as (Hs & _).
  destruct (nan_income_old data x _ Hannual Hx Ho)
    as (Hg1 & Ht1 & _ & _ & Hp1).
  destruct (nan_income_new data x _ Hannual Hx Hn)
    as (Hg2 & _ & Ht2 & _ & _ & Hp2).
  rewrite Hb, Hs, Hp1, Hp2.
  repeat split; try assumption; vm_compute; reflexivity.
Qed.


Lemma nan_income_is_not_rejected_witness :
  validate_and_sanitize_inputs nan_input = Ok (nan_sanitized, [])
  /\ exists c,
       calculate_comprehensive nan_sanitized = Ok c
       /\ total_tax_payable (old_regime c) = 0%float
       /\ total_tax_payable (new_regime c) = 0%float
       /\ best_regime c = "Old Regime".
Proof.
  assert (Hv : validate_and_sanitize_inputs nan_input
               = Ok (nan_sanitized, [])) by by_vm.
  split; [exact Hv|].
  destruct (sanitized_well_typed _ _ _ Hv) as (Hw & Hg1 & Hg2).
  destruct (comprehensive_returns _ Hw Hg1 Hg2) as [c Hc].
  destruct (nan_income_is_not_rejected nan_input _ _ nan c
              eq_refl eq_refl Hv Hc)
    as (_ & _ & _ & _ & _ & _ & Ho & Hn & Hb & _).
  exists c. auto.
Defined.

(** ** The amounts of a sanitized record, in every float model *)

Section Ranges.
Context {F : Type} {M : FloatModel F} {T : FloatToInt F}
  {O : OrderLaws F} {C : CapLaws F}.

Lemma zero_number : (int 0 ==? (int 0 : F))%fm = true.
Proof. apply (lt_number _ _ (limit_pct_pos true)). Qed.

Lemma cap_number (n : N) :
  n ∈ guardrail_caps -> (int n ==? (int n : F))%fm = true.
Proof.
  intros Hn. destruct (cap_order n Hn) as (Hp & _).
  apply (lt_number _ _ Hp).
Qed.

Lemma positive_truthy (x : F) :
  (int 0 <? x)%fm = true -> (x ==? int 0)%fm = false.
Proof.
  intros Hx. destruct (x ==? int 0)%fm eqn:E; [|reflexivity].
  apply zero_not_pos in E. congruence.
Qed.

(** What the engine reads in a sanitized amount, in the order of the
    model. *)
Lemma sanitized_amount_le (lower_open : bool) (cap : option N)
    (u : pyval F) :
  (forall n, cap = Some n -> n ∈ guardrail_caps) ->
  sanitized_amount lower_open cap u ->
  exists v, py_float (py_or u (PyInt 0)) = Ok v
    /\ ((v ==? v)%fm = true ->
        (int 0 <=? v)%fm = true
        /\ forall n, cap = Some n -> (v <=? int n)%fm = true)
    /\ (lower_open = true -> (v ==? v)%fm = true).
Proof.
  intros Hcap [-> | [(n & -> & ->) | (x & -> & Hlo & Hhi)]].
  - exists (int 0). unfold py_or. cbn. rewrite float_of_int_zero.
    split; [reflexivity|]. split; [|intros _; apply zero_number].
    intros _. split; [apply le_refl, zero_number|].
    intros n Hn. destruct (cap_order n (Hcap n Hn)) as (Hp & _).
    now apply lt_le.
  - pose proof (Hcap n eq_refl) as Hn.
    destruct (cap_order n Hn) as (Hp & _ & _ & Hz).
    exists (int n). unfold py_or. cbn [truthy].
    rewrite (cap_nonzero n Hn). cbn [negb py_float].
    rewrite (cap_float n Hn).
    split; [reflexivity|]. split; [|intros _; now apply cap_number].
    intros _. split; [now apply lt_le|].
    intros m [= <-]. now apply le_refl, cap_number.
  - unfold py_or. cbn [truthy].
    destruct (x ==? int 0)%fm eqn:Ex; cbn [negb py_float].
    + rewrite float_of_int_zero. exists (int 0).
      split; [reflexivity|]. split; [|intros _; apply zero_number].
      intros _. split; [apply le_refl, zero_number|].
      intros n Hn. destruct (cap_order n (Hcap n Hn)) as (Hp & _).
      now apply lt_le.
    + exists x. split; [reflexivity|]. split.
      * intros Hx. split.
        -- destruct lower_open; [now apply lt_le|].
           apply not_lt_le; [apply zero_number | exact Hx | exact Hlo].
        -- intros n ->. apply not_lt_le;
             [exact Hx | apply cap_number, Hcap; reflexivity | exact Hhi].
      * intros ->. apply (lt_number _ _ Hlo).
Qed.

Lemma sanitized_field_le (data : gmap string (pyval F)) (key : string)
    (lower_open : bool) (cap : option N) :
  (exists u, data !! key = Some u /\ sanitized_amount lower_open cap u) ->
  (forall n, cap = Some n -> n ∈ guardrail_caps) ->
  exists v, float_field data key = Ok v
    /\ ((v ==? v)%fm = true ->
        (int 0 <=? v)%fm = true
        /\ forall n, cap = Some n -> (v <=? int n)%fm = true)
    /\ (lower_open = true -> (v ==? v)%fm = true).
Proof.
  intros (u & Hu & Hs) Hcap. unfold float_field, dict_get. rewrite Hu.
  now apply sanitized_amount_le.
Qed.

(** X16. Every amount of the sanitized record but the annual income is read
    by the engine as a number that is not below 0, and the five deductions
    as numbers not above their caps; the annual income is read as a NaN or
    as a number from 0 to 100,000,000.  This holds in the order of every
    float model, binary64 included. *)
Theorem sanitized_amounts_in_range (raw data : gmap string (pyval F))
    (w : list string) :
  validate_and_sanitize_inputs raw = Ok (data, w) ->
  (exists v, float_field data "annual_income" = Ok v
     /\ ((v ==? v)%fm = false
         \/ (int 0 <=? v)%fm = true
            /\ (v <=? int MAX_ANNUAL_INCOME)%fm = true))
  /\ Forall (fun '(key, cap) => exists v,
               float_field data key = Ok v
               /\ (int 0 <=? v)%fm = true /\ (v <=? int cap)%fm = true)
       capped_deductions
  /\ Forall (fun key => exists v,
               float_field data key = Ok v /\ (int 0 <=? v)%fm = true)
       uncapped_amounts.
Proof.
  intros Hv. pose proof (sanitized_amounts_shape _ _ _ Hv) as Hs.
  unfold amount_bounds in Hs.
  repeat match goal with
         | H : Forall _ (_ :: _) |- _ =>
             let Hk := fresh "Hk" in
             apply Forall_cons in H as [Hk H];
             apply sanitized_field_le in Hk;
             [destruct Hk as (? & ? & ? & ?)
             | intros ? [= <-]; apply (bool_decide_unpack _); vm_compute;
               exact I]
         end.
  split; [|split].
  - match goal with
    | E : float_field data "annual_income" = Ok ?v,
      Hr : _ -> (int 0 <=? ?v)%fm = true /\ _ |- _ =>
        exists v; split; [exact E|];
        destruct (v ==? v)%fm eqn:En; [right | left; reflexivity];
        destruct (Hr eq_refl) as [Hlow Hcap]; split; [exact Hlow | now apply Hcap]
    end.
  - unfold capped_deductions.
    repeat (apply List.Forall_cons;
            [eexists; split; [eassumption|];
             match goal with
             | Hr : ?P -> (int 0 <=? ?v)%fm = true /\ _,
               Hn : true = true -> ?P |- (int 0 <=? ?v)%fm = true /\ _ =>
                 destruct (Hr (Hn eq_refl)) as [Hlow Hcap];
                 split; [exact Hlow | now apply Hcap]
             end|]).
    apply List.Forall_nil.
  - unfold uncapped_amounts.
    repeat (apply List.Forall_cons;
            [eexists; split; [eassumption|];
             match goal with
             | Hr : ?P -> (int 0 <=? ?v)%fm = true /\ _,
               Hn : true = true -> ?P |- (int 0 <=? ?v)%fm = true =>
                 exact (proj1 (Hr (Hn eq_refl)))
             end|]).
    apply List.Forall_nil.
Qed.

(** The suggestion on a sanitized capped field whose cap is the threshold
    of the suggestion. *)
Lemma sanitized_suggest_gap (data : gmap string (pyval F)) (key : string)
    (cap : N) (mk : string -> string) (u : pyval F) (s : list string) :
  cap ∈ guardrail_caps ->
  data !! key = Some u -> sanitized_amount true (Some cap) u ->
  suggest_gap data key cap mk = Ok s ->
  exists v, float_field data key = Ok v
    /\ if (v <? int cap)%fm
       then s = [mk (format_whole
                       (if (v ==? int 0)%fm then int cap
                        else (int cap - v)%fm))]
       else s = [].
Proof.
  intros Hcap Hu Hs. unfold suggest_gap, float_field, dict_get. rewrite Hu.
  cbn [default from_option id].
  destruct (cap_order cap Hcap) as (Hp & _ & Hcc & Hz).
  destruct Hs as [-> | [(n & [= <-] & ->) | (x & -> & Hlo & Hhi)]].
  - unfold py_or. cbn [truthy Z.eqb negb py_lt_int mbind result_bind].
    assert (Hlt : (0 <? Z.of_N cap)%Z = true).
    { apply Z.ltb_lt. pose proof (cap_nonzero cap Hcap) as Hn.
      apply Z.eqb_neq in Hn. lia. }
    rewrite Hlt. cbn [py_int_sub mbind result_bind format_amount py_float].
    rewrite Z.sub_0_r, (cap_float cap Hcap), float_of_int_zero.
    cbn [mbind result_bind]. intros [= <-].
    exists (int 0). split; [reflexivity|]. now rewrite Hp, zero_number.
  - unfold py_or. cbn [truthy]. rewrite (cap_nonzero cap Hcap).
    cbn [negb py_lt_int mbind result_bind py_float].
    rewrite Z.ltb_irrefl, (cap_float cap Hcap). intros [= <-].
    exists (int cap). split; [reflexivity|]. now rewrite Hcc.
  - unfold py_or. cbn [truthy]. rewrite (positive_truthy x Hlo).
    cbn [negb py_lt_int mbind result_bind py_float].
    destruct (x <? int cap)%fm eqn:Ex;
      cbn [py_int_sub mbind result_bind format_amount py_float];
      intros [= <-]; exists x; (split; [reflexivity|]);
      now rewrite Ex, ?(positive_truthy x Hlo).
Qed.

(** X14. On a sanitized record the tests of the suggestions agree with what
    the calculators read: the 80C suggestion is made exactly when the
    amount read is below 150,000, the NPS suggestion exactly when it is
    below 50,000, and the health-insurance suggestion exactly when the 80D
    amount read is 0, in that order.  The amount a suggestion prints is
    the cap when the record holds the [int] 0, and else the cap less the
    amount, each as [format_whole] prints it. *)
Theorem suggestions_after_validation (raw data : gmap string (pyval F))
    (w : list string) (c : comparison F) :
  validate_and_sanitize_inputs raw = Ok (data, w) ->
  calculate_comprehensive data = Ok c ->
  exists v80c vnps v80d s1 s2 s3,
    float_field data "section_80c" = Ok v80c
    /\ float_field data "section_80ccd_1b" = Ok vnps
    /\ float_field data "section_80d" = Ok v80d
    /\ suggestions c = (s1 ++ s2 ++ s3)%list
    /\ (if (v80c <? int 150000)%fm
        then s1 = [suggestion_80c
                     (format_whole
                        (if (v80c ==? int 0)%fm then int 150000
                         else (int 150000 - v80c)%fm))]
        else s1 = [])
    /\ (if (vnps <? int 50000)%fm
        then s2 = [suggestion_nps
                     (format_whole
                        (if (vnps ==? int 0)%fm then int 50000
                         else (int 50000 - vnps)%fm))]
        else s2 = [])
    /\ s3 = (if (v80d ==? int 0)%fm then [suggestion_80d] else []).
Proof.
  intros Hv Hc. pose proof (sanitized_amounts_shape _ _ _ Hv) as Hs.
  unfold amount_bounds in Hs.
  repeat match goal with
         | H : Forall _ (_ :: _) |- _ =>
             let Hk := fresh "Hk" in apply Forall_cons in H as [Hk H]
         end.
  destruct Hk2 as (u1 & E1 & S1), Hk3 as (u3 & E3 & S3),
    Hk4 as (u2 & E2 & S2).
  destruct (comprehensive_fields data c Hc) as (_ & s1 & s2 & G1 & G2 & ->).
  assert (Hm1 : MAX_DEDUCTION_80C ∈ guardrail_caps)
    by (apply (bool_decide_unpack _); vm_compute; exact I).
  assert (Hm2 : MAX_DEDUCTION_80CCD_1B ∈ guardrail_caps)
    by (apply (bool_decide_unpack _); vm_compute; exact I).
  assert (Hm3 : MAX_DEDUCTION_80D ∈ guardrail_caps)
    by (apply (bool_decide_unpack _); vm_compute; exact I).
  destruct (sanitized_suggest_gap data _ _ _ u1 s1 Hm1 E1 S1 G1)
    as (v1 & F1 & R1).
  destruct (sanitized_suggest_gap data _ _ _ u2 s2 Hm2 E2 S2 G2)
    as (v2 & F2 & R2).
  assert (H3 : exists v3, float_field data "section_80d" = Ok v3
                /\ py_eq_zero (py_or (dict_get data "section_80d" PyNone)
                                 (PyInt 0)) = (v3 ==? int 0)%fm).
  { unfold float_field, dict_get. rewrite E3. cbn [default from_option id].
    destruct (cap_order _ Hm3) as (_ & _ & _ & Hz).
    destruct S3 as [-> | [(n & [= <-] & ->) | (x & -> & Hlo & _)]].
    - exists (int 0). unfold py_or. cbn. rewrite float_of_int_zero.
      split; [reflexivity|]. now rewrite zero_number.
    - exists (int MAX_DEDUCTION_80D). unfold py_or. cbn [truthy].
      rewrite (cap_nonzero _ Hm3).
      cbn [negb py_float py_eq_zero]. rewrite (cap_float _ Hm3).
      split; [reflexivity|]. now rewrite (cap_nonzero _ Hm3), Hz.
    - exists x. unfold py_or. cbn [truthy].
      rewrite (positive_truthy x Hlo). cbn [negb py_float py_eq_zero].
      split; [reflexivity|]. now rewrite ?(positive_truthy x Hlo). }
  destruct H3 as (v3 & F3 & R3).
  exists v1, v2, v3, s1, s2. eexists.
  split; [exact F1|]. split; [exact F2|]. split; [exact F3|].
  split; [reflexivity|]. split; [exact R1|]. split; [exact R2|].
  now rewrite R3.
Qed.
End Ranges.

Section Caps.
Context {F : Type} `{OrderLaws F}.

(** Python's [min(c, cap)] on a cap that is a number: at most the cap and
    at most [c] when [c] is a number, and [c] itself when it is a NaN. *)
Lemma py_min_cap_le (c cap : F) :
  (cap ==? cap)%fm = true ->
  if (c ==? c)%fm
  then (py_min c cap <=? cap)%fm = true /\ (py_min c cap <=? c)%fm = true
  else py_min c cap = c.
Proof.
  intros Hcap. destruct (c ==? c)%fm eqn:Ec.
  - destruct (py_min_le c cap Ec Hcap) as (_ & Hc & Hk). auto.
  - unfold py_min. destruct (cap <? c)%fm eqn:El; [|reflexivity].
    apply lt_number in El as [_ El]. congruence.
Qed.

Lemma hra_exemption_at_most (data : gmap string (pyval F))
    (salary hra_received rent_paid e : F) :
  hra_exemption data salary hra_received rent_paid = Ok e ->
  e = int 0 \/ (e <=? hra_received)%fm = true.
Proof.
  intros He.
  destruct (hra_exemption_ordered _ _ _ _ _ He) as [_ Hp].
  unfold hra_exemption in He.
  destruct (hra_received >? int 0)%fm eqn:E1;
    [|injection He as <-; auto].
  destruct (rent_paid >? int 0)%fm eqn:E2; [|injection He as <-; auto].
  destruct (salary >? int 0)%fm eqn:E3; [|injection He as <-; auto].
  destruct (Hp eq_refl eq_refl eq_refl) as (metro & _ & _ & Hh & _). auto.
Qed.
End Caps.

(** X11. In binary64 each capped deduction of the Old Regime is Python's
    [min] of the amount read and the cap: at most the cap, and at most the
    amount, unless the amount read is a NaN, in which case the deduction
    is that NaN.  The Professional Tax is 0, 2,000 or 2,500, and the HRA
    exemption is 0 or at most the HRA received. *)
Theorem deductions_within_caps (data : gmap string (pyval float))
    (o : old_locals float) :
  old_regime_locals data = Ok o ->
  Forall (fun '(key, cap, ded) => exists c,
            float_field data key = Ok c
            /\ ded = py_min c (int cap)
            /\ if PrimFloat.is_nan c then ded = c
               else (ded <=? int cap)%fm = true /\ (ded <=? c)%fm = true)
    [ ("section_80c", 150000%N, o_ded_80c o);
      ("section_80d", 25000%N, o_ded_80d o);
      ("section_80ccd_1b", 50000%N, o_ded_80ccd_1b o);
      ("section_80tta", 10000%N, o_ded_80tta o);
      ("home_loan_interest", 200000%N, o_home_loan_interest o) ]
  /\ (o_prof_tax o = 0%float \/ o_prof_tax o = 2000%float
      \/ o_prof_tax o = 2500%float)
  /\ (o_hra_exemption o = 0%float
      \/ (o_hra_exemption o <=? o_hra_received o)%fm = true).
Proof.
  intros Ho. apply old_locals_inv in Ho.
  destruct Ho as [_ _ Kp K1 K2 K3 K4 K5 _ _ _ Kh _ _ _ _ _ _].
  assert (Hmin : forall (c : float) (cap : N) (ded : float),
            (int cap ==? (int cap : float))%fm = true ->
            ded = py_min c (int cap) ->
            if PrimFloat.is_nan c then ded = c
            else (ded <=? int cap)%fm = true /\ (ded <=? c)%fm = true).
  { intros c cap ded Hcap ->.
    pose proof (py_min_cap_le c (int cap) Hcap) as Hm.
    unfold PrimFloat.is_nan.
    change (c =? c)%float with (c ==? c)%fm.
    destruct (c ==? c)%fm; exact Hm. }
  split; [|split].
  - repeat (apply List.Forall_cons;
            [match goal with
             | K : exists c, float_field data ?k = Ok c /\ _
               |- exists c, float_field data ?k = Ok c /\ _ =>
                 destruct K as (c & Ec & Ed); exists c;
                 split; [exact Ec|]; split; [exact Ed|];
                 apply Hmin; [vm_compute; reflexivity | exact Ed]
             end|]).
    apply List.Forall_nil.
  - apply professional_tax_amounts in Kp. exact Kp.
  - apply (hra_exemption_at_most _ _ _ _ _ Kh).
Qed.

(** In binary64, the rough record: 80C given as the text 1e6 is read back
    as 150,000, and the 30,000 of 80D stays. *)
Lemma sanitized_amounts_in_range_witness :
  validate_and_sanitize_inputs (F:=float) rough_input
  = Ok (rough_sanitized, rough_warnings)
  /\ Forall (fun '(key, cap) => exists v : float,
               float_field rough_sanitized key = Ok v
               /\ (int 0 <=? v)%fm = true /\ (v <=? int cap)%fm = true)
       capped_deductions.
Proof.
  assert (Hv : validate_and_sanitize_inputs (F:=float) rough_input
               = Ok (rough_sanitized, rough_warnings))
    by by_vm.
  split; [exact Hv|].
  exact (proj1 (proj2 (sanitized_amounts_in_range rough_input _ _ Hv))).
Defined.

(** In binary64, the record of the form: 80C is at its cap and 80D is not
    0, so the one suggestion is the NPS one, with the whole cap. *)
Lemma suggestions_after_validation_witness :
  validate_and_sanitize_inputs (F:=float) form_input
  = Ok (form_sanitized, [])
  /\ exists c,
       calculate_comprehensive (F:=float) form_sanitized = Ok c
       /\ suggestions c
          = [ "Invest ₹50,000 in NPS (80CCD(1B)) for extra deduction in Old Regime." ].
Proof.
  assert (Hv : validate_and_sanitize_inputs (F:=float) form_input
               = Ok (form_sanitized, []))
    by by_vm.
  split; [exact Hv|].
  destruct (calculate_comprehensive (F:=float) form_sanitized) as [c|] eqn:Hc;
    [|vm_compute in Hc; discriminate Hc].
  exists c. split; [reflexivity|].
  destruct (suggestions_after_validation form_input _ _ c Hv Hc)
    as (v1 & v2 & v3 & s1 & s2 & s3 & E1 & E2 & E3 & -> & H1 & H2 & ->).
  vm_compute in E1. injection E1 as <-.
  vm_compute in E2. injection E2 as <-.
  vm_compute in E3. injection E3 as <-.
  vm_compute in H1. vm_compute in H2. subst s1 s2.
  vm_compute. reflexivity.
Defined.

(** In binary64, the record of the form before any validation: the
    200,000 of 80C is deducted as 150,000. *)
Lemma deductions_within_caps_witness :
  exists o,
    old_regime_locals (F:=float) form_input = Ok o
    /\ o_ded_80c o = 150000%float
    /\ (o_hra_exemption o = 0%float
        \/ (o_hra_exemption o <=? o_hra_received o)%fm = true).
Proof.
  destruct (old_regime_locals (F:=float) form_input) as [o|] eqn:Ho;
    [|vm_compute in Ho; discriminate Ho].
  exists o. split; [reflexivity|].
  destruct (deductions_within_caps form_input o Ho) as (Hd & _ & Hh).
  split; [|exact Hh].
  apply List.Forall_cons_iff in Hd as [(c & Ec & -> & _) _].
  vm_compute in Ec. injection Ec as <-. vm_compute. reflexivity.
Defined.

(** X18. The texts of the suggestions in binary64.  An amount is printed
    rounded to a whole number with its thousands grouped: a gap of 0.4 is
    printed as 0. *)
Example suggestion_texts :
  (c ← calculate_comprehensive (F:=float) sparse_input; Ok (suggestions c))
  = Ok [ "Invest ₹150,000 more in 80C (PPF, ELSS, LIC) to save tax in Old Regime.";
         "Invest ₹50,000 in NPS (80CCD(1B)) for extra deduction in Old Regime.";
         "Consider Health Insurance (80D) for yourself/parents if you choose Old Regime." ]
  /\ (c ← calculate_comprehensive (F:=float)
            {[ "section_80c" := PyFloat (of_decimal 1499996 (-1)) ]};
      Ok (hd "" (suggestions c)))
     = Ok "Invest ₹0 more in 80C (PPF, ELSS, LIC) to save tax in Old Regime."
  /\ map (format_whole (F:=float))
       [0.5; 1.5; 2.5; 1234567.5; (-0.4); 1e17; nan; infinity]%float
     = ["0"; "2"; "2"; "1,234,568"; "-0"; "100,000,000,000,000,000";
        "nan"; "inf"].
Proof. repeat split; vm_compute; reflexivity. Qed.

(** ** The figures of the calculators in exact arithmetic *)

Local Open Scope Q_scope.

Lemma round_half_even_comp (x y : Q) :
  x == y -> round_half_even x = round_half_even y.
Proof.
  intros Hxy. unfold round_half_even.
  rewrite (Qfloor_comp _ _ Hxy).
  assert (Hc : (x - inject_Z (Qfloor y) ?= 1 # 2)
               = (y - inject_Z (Qfloor y) ?= 1 # 2))
    by (apply Qcompare_comp; [rewrite Hxy|]; reflexivity).
  now rewrite Hc.
Qed.

Lemma round_half_even_mono (x y : Q) :
  x <= y -> (round_half_even x <= round_half_even y)%Z.
Proof.
  intros Hxy.
  destruct (Z_le_gt_dec (round_half_even x) (round_half_even y)) as [|Hgt];
    [assumption|].
  pose proof (round_half_even_near x) as Hx.
  pose proof (round_half_even_near y) as Hy.
  apply Qabs_Qle_condition in Hx, Hy.
  assert (H1 : inject_Z (round_half_even y) + 1
               <= inject_Z (round_half_even x)).
  { change 1 with (inject_Z 1). rewrite <- inject_Z_plus, <- Zle_Qle. lia. }
  assert (Heq : x == y) by lra.
  rewrite (round_half_even_comp x y Heq) in Hgt. lia.
Qed.

Lemma Qround2_hundredths (q : Q) :
  Qround2 q == inject_Z (round_half_even (q * 100)) / 100.
Proof. unfold Qround2. apply Qred_correct. Qed.

Lemma Qround2_mono (x y : Q) : x <= y -> Qround2 x <= Qround2 y.
Proof.
  intros Hxy. rewrite !Qround2_hundredths.
  assert (Hm : (round_half_even (x * 100) <= round_half_even (y * 100))%Z)
    by (apply round_half_even_mono; lra).
  rewrite Zle_Qle in Hm. unfold Qdiv. change (/ 100) with (1 # 100). lra.
Qed.

Lemma Qround2_nonneg (x : Q) : 0 <= x -> 0 <= Qround2 x.
Proof. intros Hx. apply (Qround2_mono 0 x) in Hx. exact Hx. Qed.

Lemma py_max_zero_nonneg (x : Q) : 0 <= py_max (int 0) x.
Proof. unfold py_max. q_unfold. q_cases; lra. Qed.

Lemma old_slab_above (x : Q) : 500000 < x -> 12500 < old_slab x.
Proof. intros Hx. unfold old_slab. q_unfold. q_cases; lra. Qed.

Lemma new_slab_above (x : Q) : 700000 < x -> 25000 < new_slab x.
Proof. intros Hx. unfold new_slab. q_unfold. q_cases; lra. Qed.

(** The unrounded tax figures of both regimes from the taxable income. *)
Lemma old_tax_figures (data : gmap string (pyval Q)) (o : old_locals Q) :
  old_regime_locals data = Ok o ->
  0 <= o_taxable_income o
  /\ (o_taxable_income o <= 500000 -> o_base_tax o = 0)
  /\ (500000 < o_taxable_income o -> 12500 < o_base_tax o)
  /\ o_cess o = o_base_tax o * (1 # 25)
  /\ o_total_tax o = o_base_tax o + o_base_tax o * (1 # 25).
Proof.
  intros Ho. apply old_locals_inv in Ho.
  destruct Ho as [_ _ _ _ _ _ _ _ _ _ _ _ _ Kti Ks Kb Kc Kt].
  split; [rewrite Kti; apply py_max_zero_nonneg|].
  rewrite Kt, Kc, Kb, Ks. q_unfold.
  repeat split; try reflexivity.
  - intros Hle. now rewrite (proj2 (Qle_bool_iff _ _) Hle).
  - intros Hgt. rewrite (proj2 (Qle_bool_gt _ _) Hgt).
    now apply old_slab_above.
Qed.

Lemma new_tax_figures (data : gmap string (pyval Q)) (n : new_locals Q) :
  new_regime_locals data = Ok n ->
  0 <= n_taxable_income n
  /\ (n_taxable_income n <= 700000 -> n_base_tax n = 0)
  /\ (700000 < n_taxable_income n -> 25000 < n_base_tax n)
  /\ n_cess n = n_base_tax n * (1 # 25)
  /\ n_total_tax n = n_base_tax n + n_base_tax n * (1 # 25).
Proof.
  intros Hn. apply new_locals_inv in Hn.
  destruct Hn as [_ _ _ _ Kti Ks Kb Kc Kt].
  split; [rewrite Kti; apply py_max_zero_nonneg|].
  rewrite Kt, Kc, Kb, Ks. q_unfold.
  repeat split; try reflexivity.
  - intros Hle. now rewrite (proj2 (Qle_bool_iff _ _) Hle).
  - intros Hgt. rewrite (proj2 (Qle_bool_gt _ _) Hgt).
    now apply new_slab_above.
Qed.

Lemma rounded_figures (ti b : Q) (floor_tax : Q) :
  0 <= ti -> 0 <= floor_tax ->
  (b = 0 \/ floor_tax < b) ->
  0 <= Qround2 ti /\ 0 <= Qround2 b /\ 0 <= Qround2 (b * (1 # 25))
  /\ 0 <= Qround2 (b + b * (1 # 25))
  /\ (b = 0 -> Qround2 (b + b * (1 # 25)) = 0)
  /\ (floor_tax < b ->
      Qround2 (floor_tax * (26 # 25)) <= Qround2 (b + b * (1 # 25))).
Proof.
  intros Hti Hf Hb.
  assert (Hb0 : 0 <= b) by (destruct Hb as [-> | Hb]; lra).
  repeat split; try (apply Qround2_nonneg; lra).
  - intros ->. reflexivity.
  - intros Hlt. apply Qround2_mono. lra.
Qed.

(** X10. In exact arithmetic, whatever the record, no figure of a
    calculator is negative, and the tax payable is either 0 or at least
    the whole tax at the rebate threshold, 13,000 in the Old Regime and
    26,000 in the New: just above the threshold the tax jumps, there is
    no marginal relief. *)

Theorem tax_is_zero_or_beyond_rebate (data : gmap string (pyval Q))
    (r : regime_result Q) :
  (calculate_tax_old_regime data = Ok r ->
   0 <= taxable_income r /\ 0 <= base_tax r /\ 0 <= cess r
   /\ (total_tax_payable r = 0 \/ 13000 <= total_tax_payable r))
  /\ (calculate_tax_new_regime data = Ok r ->
   0 <= taxable_income r /\ 0 <= base_tax r /\ 0 <= cess r
   /\ (total_tax_payable r = 0 \/ 26000 <= total_tax_payable r)).
Proof.
  split.
  - unfold calculate_tax_old_regime. intros Hr. inv_bind Hr.
    injection Hr as <-. rename a into o.
    destruct (old_tax_figures data o E) as (Hti & Hz & Hp & Hc & Ht).
    cbn. rewrite Ht, Hc. q_unfold.
    assert (Hb : o_base_tax o = 0 \/ 12500 < o_base_tax o).
    { destruct (Qlt_le_dec 500000 (o_taxable_income o)); auto. }
    destruct (rounded_figures (o_taxable_income o) (o_base_tax o) 12500
                Hti ltac:(lra) Hb) as (H1 & H2 & H3 & H4 & H5 & H6).
    repeat split; try assumption.
    destruct Hb as [Hb | Hb]; [left; auto | right].
    apply H6 in Hb. exact Hb.
  - unfold calculate_tax_new_regime. intros Hr. inv_bind Hr.
    injection Hr as <-. rename a into n.
    destruct (new_tax_figures data n E) as (Hti & Hz & Hp & Hc & Ht).
    cbn. rewrite Ht, Hc. q_unfold.
    assert (Hb : n_base_tax n = 0 \/ 25000 < n_base_tax n).
    { destruct (Qlt_le_dec 700000 (n_taxable_income n)); auto. }
    destruct (rounded_figures (n_taxable_income n) (n_base_tax n) 25000
                Hti ltac:(lra) Hb) as (H1 & H2 & H3 & H4 & H5 & H6).
    repeat split; try assumption.
    destruct Hb as [Hb | Hb]; [left; auto | right].
    apply H6 in Hb. exact Hb.
Qed.


(** Scenario 1: 18,200 in the Old Regime, 31,200 in the New. *)
Lemma tax_is_zero_or_beyond_rebate_witness :
  exists old_r new_r,
    calculate_tax_old_regime (F:=Q) scenario_input = Ok old_r
    /\ calculate_tax_new_regime (F:=Q) scenario_input = Ok new_r
    /\ (total_tax_payable old_r = 0 \/ 13000 <= total_tax_payable old_r)
    /\ (total_tax_payable new_r = 0 \/ 26000 <= total_tax_payable new_r).
Proof.
  destruct (calculate_tax_old_regime (F:=Q) scenario_input) as [o|] eqn:Ho;
    [|vm_compute in Ho; discriminate Ho].
  destruct (calculate_tax_new_regime (F:=Q) scenario_input) as [n|] eqn:Hn;
    [|vm_compute in Hn; discriminate Hn].
  exists o, n. split; [reflexivity|]. split; [reflexivity|]. split.
  - apply (proj1 (tax_is_zero_or_beyond_rebate scenario_input o) Ho).
  - apply (proj2 (tax_is_zero_or_beyond_rebate scenario_input n) Hn).
Defined.

Lemma hra_exemption_bounds (data : gmap string (pyval Q))
    (salary hra rent e : Q) :
  hra_exemption data salary hra rent = Ok e ->
  0 <= e /\ e <= Qmax 0 hra.
Proof.
  intros He.
  destruct (hra_exemption_ordered _ _ _ _ _ He) as [_ Hp].
  unfold hra_exemption in He. q_unfold.
  destruct (Qltb 0 hra) eqn:E1; cycle 1.
  { injection He as <-. split; [lra | apply Q.le_max_l]. }
  destruct (Qltb 0 rent) eqn:E2; cycle 1.
  { injection He as <-. split; [lra | apply Q.le_max_l]. }
  destruct (Qltb 0 salary) eqn:E3; cycle 1.
  { injection He as <-. split; [lra | apply Q.le_max_l]. }
  destruct (Hp eq_refl eq_refl eq_refl) as (metro & _ & Heq & Hh & _).
  apply Qle_bool_iff in Hh. apply Qltb_lt in E1, E3.
  split; [|apply Qle_trans with hra; [exact Hh | apply Q.le_max_r]].
  rewrite Heq.
  destruct (py_min3_min hra
              (py_max (int 0) (rent - hundredths 10 * salary))
              (limit_pct metro * salary)) as (Hm & _).
  rewrite Hm.
  pose proof (py_max_zero_nonneg (rent - hundredths 10 * salary)) as Hr.
  assert (Hl : 0 <= limit_pct metro * salary).
  { destruct metro; unfold limit_pct; q_unfold; nra. }
  apply Q.min_glb; [lra|]. apply Q.min_glb; assumption.
Qed.

Lemma professional_tax_range (v : pyval Q) (g p : Q) :
  get_professional_tax v g = Ok p -> 0 <= p <= 2500.
Proof.
  intros Hp. destruct (professional_tax_amounts v g p Hp) as [-> | [-> | ->]];
    q_unfold; lra.
Qed.

Lemma py_max_zero_mono (x y : Q) :
  x <= y -> py_max (int 0) x <= py_max (int 0) y.
Proof. intros Hxy. unfold py_max. q_unfold. q_cases; lra. Qed.

(** X12. In exact arithmetic, on a record whose five deduction fields are
    not negative, the New Regime deducts at most 50,000 and the Old Regime
    at least 50,000, so the taxable income of the Old Regime is at most
    that of the New. *)

Theorem old_taxable_at_most_new (data : gmap string (pyval Q))
    (old_r new_r : regime_result Q) :
  Forall (fun key => nonneg_amount (data !! key)) deduction_fields ->
  calculate_tax_old_regime data = Ok old_r ->
  calculate_tax_new_regime data = Ok new_r ->
  total_deductions new_r <= 50000
  /\ 50000 <= total_deductions old_r
  /\ taxable_income old_r <= taxable_income new_r.
Proof.
  unfold calculate_tax_old_regime, calculate_tax_new_regime.
  intros Ha Ho Hn. inv_bind Ho. inv_bind Hn.
  injection Ho as <-. injection Hn as <-. rename a into o, a0 into n.
  destruct (locals_same_income data o n E E0) as (Hs & Hg).
  apply old_locals_inv in E. apply new_locals_inv in E0.
  destruct E as [_ _ Kp K1 K2 K3 K4 K5 Kstd _ _ Kh Ktd Kti _ _ _ _].
  destruct E0 as [_ _ Nstd Ntd Nti _ _ _ _].
  unfold deduction_fields in Ha.
  repeat match type of Ha with
         | Forall _ (_ :: _) =>
             let Hk := fresh "Hk" in apply Forall_cons in Ha as [Hk Ha]
         end.
  assert (H1 : 0 <= o_ded_80c o)
    by (apply (capped_nonneg data "section_80c" 150000); auto; lra).
  assert (H2 : 0 <= o_ded_80d o)
    by (apply (capped_nonneg data "section_80d" 25000); auto; lra).
  assert (H3 : 0 <= o_ded_80ccd_1b o)
    by (apply (capped_nonneg data "section_80ccd_1b" 50000); auto; lra).
  assert (H4 : 0 <= o_ded_80tta o)
    by (apply (capped_nonneg data "section_80tta" 10000); auto; lra).
  assert (H5 : 0 <= o_home_loan_interest o)
    by (apply (capped_nonneg data "home_loan_interest" 200000); auto; lra).
  pose proof (professional_tax_range _ _ _ Kp) as Hp.
  pose proof (hra_exemption_bounds _ _ _ _ _ Kh) as Hh.
  assert (Hn : 0 <= n_total_deductions n <= 50000).
  { rewrite Ntd, Nstd. q_unfold. q_cases; lra. }
  assert (Hd : 50000 <= o_total_deductions o)
    by (rewrite Ktd, Kstd; q_unfold; lra).
  cbn. split; [|split].
  - apply (Qround2_mono _ 50000). lra.
  - apply (Qround2_mono 50000). lra.
  - apply Qround2_mono. rewrite Kti, Nti, Hg.
    apply py_max_zero_mono. q_unfold. lra.
Qed.


(** Scenario 1: 525,000 against 750,000. *)
Lemma old_taxable_at_most_new_witness :
  exists old_r new_r,
    calculate_tax_old_regime (F:=Q) scenario_input = Ok old_r
    /\ calculate_tax_new_regime (F:=Q) scenario_input = Ok new_r
    /\ taxable_income old_r <= taxable_income new_r.
Proof.
  destruct (calculate_tax_old_regime (F:=Q) scenario_input) as [o|] eqn:Ho;
    [|vm_compute in Ho; discriminate Ho].
  destruct (calculate_tax_new_regime (F:=Q) scenario_input) as [n|] eqn:Hn;
    [|vm_compute in Hn; discriminate Hn].
  exists o, n. split; [reflexivity|]. split; [reflexivity|].
  apply (old_taxable_at_most_new scenario_input o n); [|exact Ho|exact Hn].
  repeat (apply List.Forall_cons; [vm_compute; discriminate|]).
  apply List.Forall_nil.
Defined.

Lemma int_inject (n : N) : int n = inject_Z (Z.of_N n).
Proof. unfold int. cbn. unfold Qof_decimal. cbn. now rewrite Z.mul_1_r. Qed.

(** X15. In exact arithmetic the Professional Tax does not decrease as the
    gross income grows, and it lies between 0 and 2,500. *)

Theorem professional_tax_monotone (state : pyval Q) (g g' p p' : Q) :
  g <= g' ->
  get_professional_tax state g = Ok p ->
  get_professional_tax state g' = Ok p' ->
  0 <= p /\ p <= p' /\ p' <= 2500.
Proof.
  unfold get_professional_tax. intros Hg.
  destruct state; try discriminate. cbv zeta.
  destruct (bool_decide _).
  - q_unfold. intros Hp Hp'. revert Hp.
    destruct (Qltb 150000 g) eqn:E1;
      [apply Qltb_lt in E1 | apply Qltb_ge in E1];
      (destruct (Qltb 100000 g) eqn:E2;
       [apply Qltb_lt in E2 | apply Qltb_ge in E2]);
      intros [= <-]; revert Hp';
      (destruct (Qltb 150000 g') eqn:E3;
       [apply Qltb_lt in E3 | apply Qltb_ge in E3]);
      (destruct (Qltb 100000 g') eqn:E4;
       [apply Qltb_lt in E4 | apply Qltb_ge in E4]);
      intros [= <-]; lra.
  - intros [= <-] [= <-]. q_unfold. lra.
Qed.


(** Kerala: 2,000 on 120,000 and 2,500 on 200,000. *)
Lemma professional_tax_monotone_witness :
  exists p p',
    get_professional_tax (F:=Q) (PyStr "Kerala") 120000 = Ok p
    /\ get_professional_tax (F:=Q) (PyStr "Kerala") 200000 = Ok p'
    /\ p == 2000 /\ p' == 2500 /\ p <= p'.
Proof.
  exists (int 2000), (int 2500).
  split; [reflexivity|]. split; [reflexivity|].
  split; [reflexivity|]. split; [reflexivity|].
  apply (professional_tax_monotone (PyStr "Kerala") 120000 200000
           (int 2000) (int 2500) ltac:(discriminate) eq_refl eq_refl).
Defined.

(** ** The sanitized amounts in exact arithmetic *)

Lemma sanitized_amount_range (lower_open : bool) (cap : option N)
    (u : pyval Q) :
  sanitized_amount lower_open cap u ->
  exists v, py_float (py_or u (PyInt 0)) = Ok v /\ 0 <= v
    /\ forall n, cap = Some n -> v <= inject_Z (Z.of_N n).
Proof.
  intros [-> | [(n & -> & ->) | (x & -> & Hlo & Hhi)]].
  - exists 0. split; [reflexivity|]. split; [lra|].
    intros n _. change 0 with (inject_Z 0). rewrite <- Zle_Qle. lia.
  - exists (inject_Z (Z.of_N n)). split.
    + unfold py_or. cbn. destruct (Z.of_N n =? 0)%Z eqn:E; cbn.
      * apply Z.eqb_eq in E. now rewrite E.
      * reflexivity.
    + split; [change 0 with (inject_Z 0); rewrite <- Zle_Qle; lia|].
      intros m [= <-]. lra.
  - assert (H0 : 0 <= x).
    { destruct lower_open; q_unfold;
        [apply Qltb_lt in Hlo; lra | now apply Qltb_ge in Hlo]. }
    unfold py_or. cbn [truthy]. destruct (negb _) eqn:E; cbn [py_float].
    + exists x. split; [reflexivity|]. split; [exact H0|].
      intros n ->. apply Qltb_ge in Hhi. now rewrite int_inject in Hhi.
    + exists 0. split; [reflexivity|]. split; [lra|].
      intros n _. change 0 with (inject_Z 0). rewrite <- Zle_Qle. lia.
Qed.

Lemma sanitized_field_range (data : gmap string (pyval Q)) (key : string)
    (lower_open : bool) (cap : option N) :
  (exists u, data !! key = Some u /\ sanitized_amount lower_open cap u) ->
  exists v, float_field data key = Ok v /\ 0 <= v
    /\ forall n, cap = Some n -> v <= inject_Z (Z.of_N n).
Proof.
  intros (u & Hu & Hs). unfold float_field, dict_get. rewrite Hu.
  now apply sanitized_amount_range in Hs.
Qed.

Lemma py_min_idle (c cap : Q) : c <= cap -> py_min c cap = c.
Proof.
  intros Hc. unfold py_min. q_unfold.
  now rewrite (proj2 (Qltb_ge cap c) Hc).
Qed.

(** X17. In exact arithmetic, on a sanitized record the caps the
    Old-Regime calculator puts on 80C, 80CCD(1B), 80TTA and the home-loan
    interest change nothing: the deduction is the amount of the record.
    Only 80D, which the validation lets pass up to 50,000, is still cut to
    25,000. *)

Theorem engine_caps_after_validation (raw data : gmap string (pyval Q))
    (w : list string) (o : old_locals Q) :
  validate_and_sanitize_inputs raw = Ok (data, w) ->
  old_regime_locals data = Ok o ->
  float_field data "section_80c" = Ok (o_ded_80c o)
  /\ float_field data "section_80ccd_1b" = Ok (o_ded_80ccd_1b o)
  /\ float_field data "section_80tta" = Ok (o_ded_80tta o)
  /\ float_field data "home_loan_interest" = Ok (o_home_loan_interest o)
  /\ exists d, float_field data "section_80d" = Ok d
       /\ 0 <= d <= 50000 /\ o_ded_80d o == Qmin d 25000.
Proof.
  intros Hv Ho. pose proof (sanitized_amounts_shape _ _ _ Hv) as Hs.
  unfold amount_bounds in Hs.
  repeat match goal with
         | H : Forall _ (_ :: _) |- _ =>
             let Hk := fresh "Hk" in
             apply Forall_cons in H as [Hk H];
             apply sanitized_field_range in Hk;
             destruct Hk as (? & ? & ? & ?)
         end.
  apply old_locals_inv in Ho.
  destruct (ok_80c _ _ Ho) as (c & Ec & ->).
  destruct (ok_80d _ _ Ho) as (d & Ed & Hd).
  destruct (ok_80ccd_1b _ _ Ho) as (n & En & ->).
  destruct (ok_80tta _ _ Ho) as (t & Et & ->).
  destruct (ok_home_loan _ _ Ho) as (h & Eh & ->).
  repeat match goal with
         | E : float_field data ?k = Ok ?a, E' : float_field data ?k = Ok ?b
           |- _ => rewrite E in E'; injection E' as <-
         end.
  repeat match goal with
         | Hc : forall n : N, Some ?m = Some n -> _ |- _ =>
             specialize (Hc m eq_refl); vm_compute Z.of_N in Hc
         end.
  rewrite !py_min_idle by (q_unfold; assumption).
  repeat (split; [assumption|]).
  eexists. split; [eassumption|]. split; [split; assumption|].
  rewrite Hd. unfold py_min. q_unfold.
  match goal with
  | |- context [Qmin ?d _] =>
      destruct (Q.min_spec d 25000) as [[? Hm]|[? Hm]]
  end; q_cases; lra.
Qed.


(** The record of the form: 80D of 40,000 passes the validation and is
    deducted as 25,000. *)
Lemma engine_caps_after_validation_witness :
  validate_and_sanitize_inputs (F:=Q) form_input = Ok (form_sanitized, [])
  /\ exists o,
       old_regime_locals (F:=Q) form_sanitized = Ok o
       /\ float_field (F:=Q) form_sanitized "section_80c"
          = Ok (o_ded_80c o)
       /\ float_field (F:=Q) form_sanitized "section_80d" = Ok 40000
       /\ o_ded_80d o == 25000.
Proof.
  assert (Hv : validate_and_sanitize_inputs (F:=Q) form_input
               = Ok (form_sanitized, [])) by by_vm.
  split; [exact Hv|].
  destruct (old_regime_locals (F:=Q) form_sanitized) as [o|] eqn:Ho;
    [|vm_compute in Ho; discriminate Ho].
  destruct (engine_caps_after_validation form_input _ _ o Hv Ho)
    as (Hc & _ & _ & _ & d & Hd & _ & Hm).
  exists o. split; [reflexivity|]. split; [exact Hc|].
  assert (Hd' : float_field (F:=Q) form_sanitized "section_80d" = Ok 40000)
    by reflexivity.
  split; [exact Hd'|].
  rewrite Hd in Hd'. injection Hd' as ->. rewrite Hm. reflexivity.
Defined.
